(** * Rental calculator backend (backend/app/main.py)

    A shallow embedding of the three entry points of the FastAPI
    application: [load_data] (start-up), [get_form_options] (GET /options)
    and [search_rentals] (GET /search).

    Modelling conventions.
    - A float64 value is an exact rational ([Qc], Leibniz equality on
      canonical fractions) or NaN; a float column cell is [option Qc] with
      [None] for NaN.  Rounding, infinities and overflow are not modelled.
    - A text cell is [option string] with [None] for a missing value.
    - A DataFrame is a list of column names and a list of typed rows.
      DataFrames live in a heap and are referred to by location, so that
      in-place updates ([inplace=True], column assignment) and copies are
      distinguished.
    - The module-level variables [df], [all_property_types] and
      [location_tree], the heap and numpy's global random state form the
      [World] that every entry point runs in.
    - A Python exception is the [Raise] outcome of the monad [M]. *)

From Stdlib Require Import QArith Qcanon Qround ZArith Lia Ascii String.
From stdpp Require Import base option sorting strings gmap pretty numbers list.

Local Open Scope Z_scope.

(** ** Numbers *)

Definition number := Qc.
Definition cell := option number.

Definition of_Z (z : Z) : number := Qc_of_Z z.

(** Python's [int(x)] on a float: truncation toward zero. *)
Definition int_of (x : number) : Z := Z.quot (Qnum x) (Zpos (Qden x)).

(** ** Python and pandas building blocks *)

Section ordering.
Context {A : Type} (R : relation A) `{!∀ x y, Decision (R x y)}.

Fixpoint insert_sorted (x : A) (l : list A) : list A :=
  match l with
  | [] => [x]
  | y :: l' => if decide (R x y) then x :: l else y :: insert_sorted x l'
  end.

(** [sorted(l)] and [l.sort(key=...)]: a stable sort. *)
Definition sorted (l : list A) : list A := foldr insert_sorted [] l.
End ordering.

(** [Series.unique()]: distinct values in order of first appearance. *)
Fixpoint unique `{EqDecision A} (l : list A) : list A :=
  match l with
  | [] => []
  | x :: l' => x :: filter (λ y, y ≠ x) (unique l')
  end.

(** Order of Python [str] values (by code point; by byte here). *)
Definition str_le (s1 s2 : string) : Prop := String.leb s1 s2 = true.

Global Instance str_le_dec : RelDecision str_le.
Proof. intros s1 s2. unfold str_le. apply _. Defined.

(** Order of Python tuples of two [str]. *)
Definition pair_le (p1 p2 : string * string) : Prop :=
  (p1.1 ≠ p2.1 ∧ str_le p1.1 p2.1) ∨ (p1.1 = p2.1 ∧ str_le p1.2 p2.2).

Global Instance pair_le_dec : RelDecision pair_le.
Proof. intros p1 p2. unfold pair_le. apply _. Defined.

(** [str.strip()], for the ASCII white space characters. *)
Definition is_space (c : ascii) : bool :=
  let n := nat_of_ascii c in
  ((9 <=? n)%nat && (n <=? 13)%nat) || ((28 <=? n)%nat && (n <=? 32)%nat).

Fixpoint lstrip (s : string) : string :=
  match s with
  | EmptyString => EmptyString
  | String c s' => if is_space c then lstrip s' else s
  end.

Fixpoint rstrip (s : string) : string :=
  match s with
  | EmptyString => EmptyString
  | String c s' =>
      match rstrip s' with
      | EmptyString => if is_space c then EmptyString else String c EmptyString
      | t => String c t
      end
  end.

Definition strip (s : string) : string := rstrip (lstrip s).

(** Non-missing values of a column ([skipna], [dropna()] on a Series). *)
Definition dropna_values {A} (s : list (option A)) : list A := omap id s.

(** [Series.median()]: NaN is skipped; NaN for an empty selection.  For an
    even number of values numpy takes the mean of the two in the middle,
    in float64; here it is their exact mean, which is the same number
    whenever the sum of the two is a float64 value (see [float64]). *)
Definition median (s : list cell) : cell :=
  let v := sorted Qcle (dropna_values s) in
  let n := length v in
  if decide (n = 0%nat) then None
  else if Nat.odd n then v !! (n / 2)%nat
  else match v !! (n / 2 - 1)%nat, v !! (n / 2)%nat with
       | Some a, Some b => Some ((a + b) / of_Z 2)%Qc
       | _, _ => None
       end.

(** [Series.min()], [Series.max()] and [Series.mean()], NaN skipped. *)
Definition smaller (x y : number) : number := if decide (x ≤ y)%Qc then x else y.
Definition larger (x y : number) : number := if decide (x ≤ y)%Qc then y else x.

Definition min_of (s : list cell) : cell :=
  match dropna_values s with
  | [] => None
  | x :: v => Some (foldr smaller x v)
  end.

Definition max_of (s : list cell) : cell :=
  match dropna_values s with
  | [] => None
  | x :: v => Some (foldr larger x v)
  end.

Definition mean (s : list cell) : cell :=
  let v := dropna_values s in
  if decide (length v = 0%nat) then None
  else Some (foldr Qcplus (of_Z 0) v / of_Z (Z.of_nat (length v)))%Qc.

(** [Series.mode()]: the most frequent non-missing values, ascending. *)
Definition occurrences `{EqDecision A} (x : A) (l : list A) : nat :=
  length (filter (λ y, y = x) l).

Definition mode `{EqDecision A} (R : relation A) `{!∀ x y, Decision (R x y)}
    (s : list (option A)) : list A :=
  let v := dropna_values s in
  let top := foldr Nat.max 0%nat ((λ x, occurrences x v) <$> v) in
  sorted R (filter (λ x, occurrences x v = top) (unique v)).

(** [range(0, stop, step)] for a positive step. *)
Definition range0 (stop step : Z) : list Z :=
  (λ k : nat, Z.of_nat k * step) <$> seq 0 (Z.to_nat ((stop + step - 1) / step)).

(** [str(n)] for an [int]. *)
Definition str_of_int (n : Z) : string := pretty n.

(** ** Data model *)

(** A [pandas.Timestamp]: a calendar day and the time within it. *)
Record Timestamp := { ts_year : N; ts_month : N; ts_day : N; ts_time : N }.

(** A cell of the 'Rent Price' column as [read_csv] delivers it: a number
    (also when it was read as numeric text), text that is not a number, or
    a missing value. *)
Inductive csv_cell := CsvNumber (x : number) | CsvText (s : string) | CsvMissing.

(** One row.  The rent is of type [P]: [csv_cell] as read, [cell] once
    [pd.to_numeric] has run.  The columns that the CSV file may or may not
    have are recorded in the frame's [columns]; [date] and [month_year] are
    the two columns that [search_rentals] adds to its trend copy. *)
Record Row_ (P : Type) := mkRow {
  State : option string;
  District : option string;
  Standard_Type : option string;
  Rent_Price : P;
  Furnishing_Type : option string;
  Property_Size : cell;
  No_of_Bedroom : cell;
  No_of_Bathroom : cell;
  Extract_Date : option string;
  Latitude : cell;
  Longitude : cell;
  date : option Timestamp;
  month_year : option string }.

Arguments State {P} _.
Arguments District {P} _.
Arguments Standard_Type {P} _.
Arguments Rent_Price {P} _.
Arguments Furnishing_Type {P} _.
Arguments Property_Size {P} _.
Arguments No_of_Bedroom {P} _.
Arguments No_of_Bathroom {P} _.
Arguments Extract_Date {P} _.
Arguments Latitude {P} _.
Arguments Longitude {P} _.
Arguments date {P} _.
Arguments month_year {P} _.

Abbreviation CsvRow := (Row_ csv_cell).
Abbreviation Row := (Row_ cell).

Definition set_State (r : Row_ cell) (v : option string) : Row_ cell :=
  {| State := v;
     District := District r;
     Standard_Type := Standard_Type r;
     Rent_Price := Rent_Price r;
     Furnishing_Type := Furnishing_Type r;
     Property_Size := Property_Size r;
     No_of_Bedroom := No_of_Bedroom r;
     No_of_Bathroom := No_of_Bathroom r;
     Extract_Date := Extract_Date r;
     Latitude := Latitude r;
     Longitude := Longitude r;
     date := date r;
     month_year := month_year r |}.

Definition set_District (r : Row_ cell) (v : option string) : Row_ cell :=
  {| State := State r;
     District := v;
     Standard_Type := Standard_Type r;
     Rent_Price := Rent_Price r;
     Furnishing_Type := Furnishing_Type r;
     Property_Size := Property_Size r;
     No_of_Bedroom := No_of_Bedroom r;
     No_of_Bathroom := No_of_Bathroom r;
     Extract_Date := Extract_Date r;
     Latitude := Latitude r;
     Longitude := Longitude r;
     date := date r;
     month_year := month_year r |}.

Definition set_Standard_Type (r : Row_ cell) (v : option string) : Row_ cell :=
  {| State := State r;
     District := District r;
     Standard_Type := v;
     Rent_Price := Rent_Price r;
     Furnishing_Type := Furnishing_Type r;
     Property_Size := Property_Size r;
     No_of_Bedroom := No_of_Bedroom r;
     No_of_Bathroom := No_of_Bathroom r;
     Extract_Date := Extract_Date r;
     Latitude := Latitude r;
     Longitude := Longitude r;
     date := date r;
     month_year := month_year r |}.

Definition set_Rent_Price (r : Row_ csv_cell) (v : cell) : Row_ cell :=
  {| State := State r;
     District := District r;
     Standard_Type := Standard_Type r;
     Rent_Price := v;
     Furnishing_Type := Furnishing_Type r;
     Property_Size := Property_Size r;
     No_of_Bedroom := No_of_Bedroom r;
     No_of_Bathroom := No_of_Bathroom r;
     Extract_Date := Extract_Date r;
     Latitude := Latitude r;
     Longitude := Longitude r;
     date := date r;
     month_year := month_year r |}.

Definition set_date (r : Row_ cell) (v : option Timestamp) : Row_ cell :=
  {| State := State r;
     District := District r;
     Standard_Type := Standard_Type r;
     Rent_Price := Rent_Price r;
     Furnishing_Type := Furnishing_Type r;
     Property_Size := Property_Size r;
     No_of_Bedroom := No_of_Bedroom r;
     No_of_Bathroom := No_of_Bathroom r;
     Extract_Date := Extract_Date r;
     Latitude := Latitude r;
     Longitude := Longitude r;
     date := v;
     month_year := month_year r |}.

Definition set_month_year (r : Row_ cell) (v : option string) : Row_ cell :=
  {| State := State r;
     District := District r;
     Standard_Type := Standard_Type r;
     Rent_Price := Rent_Price r;
     Furnishing_Type := Furnishing_Type r;
     Property_Size := Property_Size r;
     No_of_Bedroom := No_of_Bedroom r;
     No_of_Bathroom := No_of_Bathroom r;
     Extract_Date := Extract_Date r;
     Latitude := Latitude r;
     Longitude := Longitude r;
     date := date r;
     month_year := v |}.

Record Frame_ (P : Type) := mkFrame { columns : list string; rows : list (Row_ P) }.

Arguments mkFrame {P} _ _.
Arguments columns {P} _.
Arguments rows {P} _.

Abbreviation CsvFrame := (Frame_ csv_cell).
Abbreviation DataFrame := (Frame_ cell).

(** Is the cell of column [c] missing in row [r]?  ([isna], as used by
    [dropna(subset=...)].) *)
Definition isna (c : string) (r : Row) : bool :=
  if decide (c = "State") then bool_decide (State r = None)
  else if decide (c = "District") then bool_decide (District r = None)
  else if decide (c = "Standard Type") then bool_decide (Standard_Type r = None)
  else if decide (c = "Rent Price") then bool_decide (Rent_Price r = None)
  else if decide (c = "Furnishing Type") then bool_decide (Furnishing_Type r = None)
  else if decide (c = "Property Size") then bool_decide (Property_Size r = None)
  else if decide (c = "No of Bedroom") then bool_decide (No_of_Bedroom r = None)
  else if decide (c = "No of Bathroom") then bool_decide (No_of_Bathroom r = None)
  else if decide (c = "Extract Date") then bool_decide (Extract_Date r = None)
  else if decide (c = "Latitude") then bool_decide (Latitude r = None)
  else if decide (c = "Longitude") then bool_decide (Longitude r = None)
  else if decide (c = "date") then bool_decide (date r = None)
  else if decide (c = "month_year") then bool_decide (month_year r = None)
  else false.

(** ** The world: module globals, heap of frames, random state *)

Definition loc := nat.

Record Globals := mkGlobals {
  df : option loc;
  all_property_types : list string;
  location_tree : gmap string (gmap string (list string)) }.

Record World := mkWorld {
  globals : Globals;
  heap : list DataFrame;
  random_state : nat → nat }.

Inductive exn := KeyError (column : string) | ValueError | NameError.

(** A computation that either returns or raises. *)
Inductive outcome (A : Type) := Return (a : A) | Raise (e : exn).

Arguments Return {A} _.
Arguments Raise {A} _.

Global Instance outcome_ret : MRet outcome := @Return.

Global Instance outcome_bind : MBind outcome := λ A B k m,
  match m with
  | Return a => k a
  | Raise e => Raise e
  end.

(** A computation that also reads and updates the world. *)
Definition M (A : Type) : Type := World → outcome A * World.

Definition ret {A} (a : A) : M A := λ w, (Return a, w).

Definition lift {A} (o : outcome A) : M A := λ w, (o, w).

Definition bind {A B} (m : M A) (k : A → M B) : M B := λ w,
  match m w with
  | (Return a, w') => k a w'
  | (Raise e, w') => (Raise e, w')
  end.

Notation "x <- m ;; k" := (bind m (λ x, k))
  (at level 100, m at next level, right associativity).
Notation "m ;;; k" := (bind m (λ _, k))
  (at level 100, right associativity).

(** *** Heap and globals *)

Definition new_frame (f : DataFrame) : M loc := λ w,
  (Return (length (heap w)), mkWorld (globals w) (heap w ++ [f]) (random_state w)).

Definition frame (l : loc) : M DataFrame := λ w,
  match heap w !! l with
  | Some f => (Return f, w)
  | None => (Raise NameError, w)
  end.

Definition set_frame (l : loc) (f : DataFrame) : M unit := λ w,
  (Return (), mkWorld (globals w) (<[l := f]> (heap w)) (random_state w)).

Definition get_globals : M Globals := λ w, (Return (globals w), w).

Definition set_globals (g : Globals) : M unit := λ w,
  (Return (), mkWorld g (heap w) (random_state w)).

(** *** pandas operations on frames *)

(** Every name of [names] must be a column, as in [df[name]]. *)
Fixpoint require_columns (f : DataFrame) (names : list string) : outcome unit :=
  match names with
  | [] => Return ()
  | c :: names' =>
      if decide (c ∈ columns f) then require_columns f names' else Raise (KeyError c)
  end.

(** [df[mask]] for a mask computed from the columns [names]: a new frame. *)
Definition getitem_mask (l : loc) (names : list string)
    (mask : Row → Prop) `{!∀ r, Decision (mask r)} : M loc :=
  f <- frame l ;;
  lift (require_columns f names) ;;;
  new_frame (mkFrame (columns f) (filter mask (rows f))).

(** [df.copy()]. *)
Definition copy (l : loc) : M loc := f <- frame l ;; new_frame f.

Definition dropna_rows (subset : list string) (rs : list Row) : list Row :=
  filter (λ r, forallb (λ c, negb (isna c r)) subset = true) rs.

(** [df.dropna(subset=...)]: a new frame. *)
Definition dropna (l : loc) (subset : list string) : M loc :=
  f <- frame l ;;
  lift (require_columns f subset) ;;;
  new_frame (mkFrame (columns f) (dropna_rows subset (rows f))).

(** [df.dropna(subset=..., inplace=True)]. *)
Definition dropna_inplace (l : loc) (subset : list string) : M unit :=
  f <- frame l ;;
  lift (require_columns f subset) ;;;
  set_frame l (mkFrame (columns f) (dropna_rows subset (rows f))).

Definition add_column (c : string) (cols : list string) : list string :=
  if decide (c ∈ cols) then cols else cols ++ [c].

(** [df[c] = ...], the new cells computed row by row from the columns
    [reads]; the column [c] is added if the frame does not have it. *)
Definition setitem (l : loc) (c : string) (reads : list string)
    (upd : Row → Row) : M unit :=
  f <- frame l ;;
  lift (require_columns f reads) ;;;
  set_frame l (mkFrame (add_column c (columns f)) (upd <$> rows f)).

(** [n] rows drawn without replacement; [draw k] is the [k]-th number the
    random generator delivers. *)
Fixpoint sample_rows (draw : nat → nat) (n : nat) (rs : list Row) : list Row :=
  match n with
  | O => []
  | S n' =>
      let i := (draw 0%nat mod length rs)%nat in
      match rs !! i with
      | Some r => r :: sample_rows (λ k, draw (S k)) n' (delete i rs)
      | None => []
      end
  end.

(** [df.sample(n=n)], on numpy's global random state. *)
Definition sample (l : loc) (n : nat) : M loc :=
  f <- frame l ;;
  if decide (length (rows f) < n)%nat then lift (Raise ValueError)
  else λ w,
    (Return (length (heap w)),
     mkWorld (globals w)
             (heap w ++ [mkFrame (columns f) (sample_rows (random_state w) n (rows f))])
             (λ k, random_state w (n + k)%nat)).

(** [int(x)] on a float: [ValueError] on NaN. *)
Definition int (c : cell) : outcome Z :=
  match c with
  | Some x => Return (int_of x)
  | None => Raise ValueError
  end.

(** [rows.groupby(key)['Rent Price'].median()]: groups in ascending key
    order; rows whose key is missing belong to no group. *)
Definition groupby_median {K} `{EqDecision K} (R : relation K)
    `{!∀ x y, Decision (R x y)} (key : Row → option K) (rs : list Row)
    : list (K * cell) :=
  (λ k, (k, median (Rent_Price <$> filter (λ r, key r = Some k) rs)))
    <$> sorted R (unique (dropna_values (key <$> rs))).

(** [rows.groupby(['State', 'District'])['Standard Type'].unique()]. *)
Definition state_district (r : Row) : option (string * string) :=
  match State r, District r with
  | Some s, Some d => Some (s, d)
  | _, _ => None
  end.

Definition groupby_unique (rs : list Row)
    : list ((string * string) * list (option string)) :=
  (λ k, (k, unique (Standard_Type <$> filter (λ r, state_district r = Some k) rs)))
    <$> sorted pair_le (unique (dropna_values (state_district <$> rs))).

(** [pd.cut(prices, bins=bins, labels=labels, right=False)]: for each price
    the position of its label, or a missing value when the price lies
    outside every interval.  [ValueError] unless there is one label per
    interval.  (The labels passed here are distinct; the check that they
    are is left out.) *)
Definition searchsorted_right (bins : list Z) (x : number) : nat :=
  length (filter (λ b, (of_Z b ≤ x)%Qc) bins).

Definition cut (prices : list number) (bins : list Z) (labels : list string)
    : outcome (list (option nat)) :=
  if decide (Z.of_nat (length labels) ≠ Z.of_nat (length bins) - 1)
  then Raise ValueError
  else Return ((λ x, let ids := searchsorted_right bins x in
                     if decide (ids = length bins ∨ ids = 0%nat) then None
                     else Some (ids - 1)%nat) <$> prices).

(** [categorical.value_counts().sort_index()]: one count per label, in
    label order, also for labels that no value carries. *)
Definition value_counts (labels : list string) (codes : list (option nat))
    : list (string * nat) :=
  imap (λ k lab, (lab, length (filter (λ c, c = Some k) codes))) labels.

(** [Period('D')] rendered by [astype(str)]: YYYY-MM-DD. *)
Definition pad (width : nat) (s : string) : string :=
  String.concat "" (replicate (width - String.length s) "0") +:+ s.

Definition day_label (t : Timestamp) : string :=
  pad 4 (pretty (ts_year t)) +:+ "-" +:+ pad 2 (pretty (ts_month t))
    +:+ "-" +:+ pad 2 (pretty (ts_day t)).

(** ** Responses *)

Record Comparison := mkComparison {
  cmp_type : string; cmp_medianRent : Z; cmp_diff : Z }.

Record Trend := mkTrend { trend_name : string; trend_price : Z }.

Record Bin := mkBin { bin_range : string; bin_count : nat }.

Definition Point : Type := cell * cell * cell.

Record Found := mkFound {
  location : string;
  medianRent : Z;
  suitableIncome : Z;
  coordinates : cell * cell;
  points : list Point;
  mapMin : Z;
  mapMax : Z;
  commonFeatures : list string;
  count : nat;
  comparison : list Comparison;
  trends : list Trend;
  distribution : list Bin }.

(** [{"found": False, "error": "Data not loaded"}], [{"found": False}] and
    [{"found": True, ...}]. *)
Inductive Response := NotLoaded | NotFound | IsFound (r : Found).

Record FormOptions := mkFormOptions {
  all_types : list string;
  options_location_tree : gmap string (gmap string (list string)) }.

(** The sort keys of [comparison_list.sort(key=...)] and of
    [sort_values('month_year')]. *)
Definition by_medianRent (a b : Comparison) : Prop := cmp_medianRent a ≤ cmp_medianRent b.

Global Instance by_medianRent_dec : RelDecision by_medianRent.
Proof. intros a b. unfold by_medianRent. apply _. Defined.

Definition by_month_year (a b : string * cell) : Prop := str_le a.1 b.1.

Global Instance by_month_year_dec : RelDecision by_month_year.
Proof. intros a b. unfold by_month_year. apply _. Defined.

Record MapData := mkMapData {
  md_points : list Point; md_center : cell * cell; md_min : Z; md_max : Z }.

(** The two row selections of [search_rentals]. *)
Definition mask (state district houseType : string) (r : Row) : Prop :=
  State r = Some state ∧ District r = Some district ∧ Standard_Type r = Some houseType.

Global Instance mask_dec state district houseType r :
  Decision (mask state district houseType r).
Proof. unfold mask. apply _. Defined.

Definition district_mask (state district : string) (r : Row) : Prop :=
  State r = Some state ∧ District r = Some district.

Global Instance district_mask_dec state district r :
  Decision (district_mask state district r).
Proof. unfold district_mask. apply _. Defined.

Definition point_of (r : Row) : Point := (Latitude r, Longitude r, Rent_Price r).

Definition default_center : cell * cell :=
  (Some (Q2Qc (31319 # 10000)), Some (Q2Qc (1016841 # 10000))).

(** The columns that [load_data] reads. *)
Definition required : list string := ["Rent Price"; "State"; "District"; "Standard Type"].

(** ** The application *)

Section app.
(** [pd.to_datetime(text, errors='coerce')] on one cell: the parsed time
    stamp, or nothing (NaT) when the text does not parse. *)
Variable to_datetime : string → option Timestamp.

(** [Series.astype(str)] turns a missing value into the text "nan" on an
    object column (pandas 1 and 2) and leaves it missing on a column of
    the string dtype (pandas 3); [str_dtype] selects the latter. *)
Variable str_dtype : bool.

Definition astype_str (c : option string) : option string :=
  match c with
  | Some s => Some s
  | None => if str_dtype then None else Some "nan"
  end.

(** [pd.to_numeric(cell, errors='coerce')]. *)
Definition to_numeric (c : csv_cell) : cell :=
  match c with
  | CsvNumber x => Some x
  | CsvText _ | CsvMissing => None
  end.

(** The loop that fills [location_tree]; [types] holds no missing value
    once [dropna] has run, so that [sorted(types.tolist())] compares
    text only. *)
Definition build_tree (grouped : list ((string * string) * list (option string)))
    : gmap string (gmap string (list string)) :=
  foldl (λ tree '((state, district), types),
           <[state := <[district := sorted str_le (dropna_values types)]>
                        (default ∅ (tree !! state))]> tree)
        ∅ grouped.

(** [load_data], run once at start-up on what [pd.read_csv] has read.
    The frame enters the heap with its price column already numeric;
    the assignment [df['Rent Price'] = ...] itself is the first
    [setitem], which raises [KeyError] when the file has no such
    column. *)
Definition load_data (csv : CsvFrame) : M unit :=
  (* 1. LOAD DATA, and 2. CLEANING: the price is made numeric *)
  d <- new_frame (mkFrame (columns csv)
         ((λ r, set_Rent_Price r (to_numeric (Rent_Price r))) <$> rows csv)) ;;
  g <- get_globals ;;
  set_globals (mkGlobals (Some d) (all_property_types g) (location_tree g)) ;;;
  setitem d "Rent Price" ["Rent Price"] id ;;;
  setitem d "State" ["State"]
    (λ r, set_State r (strip <$> astype_str (State r))) ;;;
  setitem d "District" ["District"]
    (λ r, set_District r (strip <$> astype_str (District r))) ;;;
  setitem d "Standard Type" ["Standard Type"]
    (λ r, set_Standard_Type r (strip <$> astype_str (Standard_Type r))) ;;;
  dropna_inplace d ["Rent Price"; "State"; "District"; "Standard Type"] ;;;
  (* 3. GENERATE SMART OPTIONS *)
  f <- frame d ;;
  g <- get_globals ;;
  set_globals (mkGlobals (df g)
    (sorted str_le (unique (dropna_values (Standard_Type <$> rows f))))
    (location_tree g)) ;;;
  g <- get_globals ;;
  set_globals (mkGlobals (df g) (all_property_types g)
    (build_tree (groupby_unique (rows f)))).

(** One row, once the four cleaning assignments have run. *)
Definition normalised (r : CsvRow) : Row :=
  let r1 := set_Rent_Price r (to_numeric (Rent_Price r)) in
  let r2 := set_State r1 (strip <$> astype_str (State r1)) in
  let r3 := set_District r2 (strip <$> astype_str (District r2)) in
  set_Standard_Type r3 (strip <$> astype_str (Standard_Type r3)).

(** The frame and the world that [load_data] leaves; [load_data_run]
    below proves that it does. *)
Definition cleaned (csv : CsvFrame) : DataFrame :=
  mkFrame (columns csv) (dropna_rows required (normalised <$> rows csv)).

Definition loaded_world (csv : CsvFrame) (w : World) : World :=
  mkWorld
    (mkGlobals (Some (length (heap w)))
       (sorted str_le (unique (dropna_values (Standard_Type <$> rows (cleaned csv)))))
       (build_tree (groupby_unique (rows (cleaned csv)))))
    (heap w ++ [cleaned csv])
    (random_state w).

Definition get_form_options : M FormOptions :=
  g <- get_globals ;;
  ret (mkFormOptions (all_property_types g) (location_tree g)).

(** 2. STATS & FEATURES: the feature list. *)
Definition features_of (f : DataFrame) : list string :=
  (if decide ("Furnishing Type" ∈ columns f) then
     match mode str_le (Furnishing_Type <$> rows f) with
     | m :: _ => [m]
     | [] => []
     end
   else []) ++
  (if decide ("Property Size" ∈ columns f) then
     match median (Property_Size <$> rows f) with
     | Some med_size => [str_of_int (int_of med_size) +:+ " sqft"]
     | None => []
     end
   else []) ++
  (if decide ("No of Bedroom" ∈ columns f) then
     match mode Qcle (No_of_Bedroom <$> rows f) with
     | m :: _ => [str_of_int (int_of m) +:+ " Beds"]
     | [] => []
     end
   else []) ++
  (if decide ("No of Bathroom" ∈ columns f) then
     match mode Qcle (No_of_Bathroom <$> rows f) with
     | m :: _ => [str_of_int (int_of m) +:+ " Baths"]
     | [] => []
     end
   else []).

Definition median_rent_of (res : DataFrame) : outcome Z :=
  _ ← require_columns res ["Rent Price"];
  int (median (Rent_Price <$> rows res)).

(** 3. COMPARISON LOGIC, on [district_df]. *)
Definition comparison_of (district_df : DataFrame) (houseType : string)
    (median_rent : Z) : outcome (list Comparison) :=
  _ ← require_columns district_df ["Standard Type"; "Rent Price"];
  comparison_list ← mapM
    (λ '(t_type, price),
       t_price ← int price;
       mret (if decide (t_type ≠ houseType)
             then [mkComparison t_type t_price (t_price - median_rent)]
             else []))
    (groupby_median str_le Standard_Type (rows district_df));
  mret (sorted by_medianRent (concat comparison_list)).

(** 4. CHARTS: the trend series, on [trend_df] once its two columns are
    in place. *)
Definition trends_of (trend_df : DataFrame) : outcome (list Trend) :=
  _ ← require_columns trend_df ["month_year"; "Rent Price"];
  mapM (λ '(name, price), p ← int price; mret (mkTrend name p))
    (sorted by_month_year (groupby_median str_le month_year (rows trend_df))).

Definition trend_series (all_results : loc) : M (list Trend) :=
  res <- frame all_results ;;
  if decide ("Extract Date" ∈ columns res) then
    trend_df <- copy all_results ;;
    setitem trend_df "date" ["Extract Date"]
      (λ r, set_date r (Extract_Date r ≫= to_datetime)) ;;;
    dropna_inplace trend_df ["date"] ;;;
    setitem trend_df "month_year" ["date"]
      (λ r, set_month_year r (day_label <$> date r)) ;;;
    t <- frame trend_df ;;
    lift (trends_of t)
  else ret [].

(** 4. CHARTS: the price distribution. *)
Definition histogram (prices : list number) (top : Z) : outcome (list Bin) :=
  let bins := range0 (top + 500) 500 in
  let labels := (λ i, str_of_int i +:+ "-" +:+ str_of_int (i + 500))
                  <$> take (length bins - 1) bins in
  codes ← cut prices bins labels;
  mret ((λ kv, mkBin kv.1 kv.2)
          <$> filter (λ kv, (0 < kv.2)%nat) (value_counts labels codes)).

Definition price_distribution (res : DataFrame) : outcome (list Bin) :=
  _ ← require_columns res ["Rent Price"];
  let prices := dropna_values (Rent_Price <$> rows res) in
  top ← int (max_of (Some <$> prices));
  histogram prices top.

(** 5. MAP DATA *)
Definition map_bounds (m : DataFrame) : outcome (Z * Z) :=
  _ ← require_columns m ["Rent Price"];
  map_min ← int (min_of (Rent_Price <$> rows m));
  map_max ← int (max_of (Rent_Price <$> rows m));
  mret (map_min, map_max).

Definition map_data (all_results : loc) : M MapData :=
  map_results <- dropna all_results ["Latitude"; "Longitude"] ;;
  m <- frame map_results ;;
  if decide (rows m = []) then
    ret (mkMapData [] default_center 0 0)
  else
    let center_lat := mean (Latitude <$> rows m) in
    let center_lng := mean (Longitude <$> rows m) in
    bounds <- lift (map_bounds m) ;;
    map_results <- (if decide (2000 < length (rows m))%nat
                    then sample map_results 2000 else ret map_results) ;;
    m <- frame map_results ;;
    ret (mkMapData (point_of <$> rows m) (center_lat, center_lng) bounds.1 bounds.2).

(** [search_rentals(state, district, houseType)] *)
Definition search_rentals (state district houseType : string) : M Response :=
  g <- get_globals ;;
  match df g with
  | None => ret NotLoaded
  | Some d =>
      (* 1. BASE FILTER *)
      all_results <- getitem_mask d ["State"; "District"; "Standard Type"]
        (mask state district houseType) ;;
      res <- frame all_results ;;
      if decide (rows res = []) then ret NotFound
      else
        (* 2. STATS & FEATURES *)
        median_rent <- lift (median_rent_of res) ;;
        let features := features_of res in
        (* 3. COMPARISON LOGIC *)
        district_df <- getitem_mask d ["State"; "District"]
          (district_mask state district) ;;
        ddf <- frame district_df ;;
        comparison_list <- lift (comparison_of ddf houseType median_rent) ;;
        (* 4. CHARTS *)
        trend_data <- trend_series all_results ;;
        res <- frame all_results ;;
        distribution_data <- lift (price_distribution res) ;;
        (* 5. MAP DATA *)
        md <- map_data all_results ;;
        res <- frame all_results ;;
        ret (IsFound (mkFound
               (district +:+ ", " +:+ state)
               median_rent
               (median_rent * 3)
               (md_center md)
               (md_points md)
               (md_min md)
               (md_max md)
               features
               (length (rows res))
               comparison_list
               trend_data
               distribution_data))
  end.

(** *** The value of a search

    What [search_rentals] returns, as a function of the frame that [df]
    refers to and of the random draws; [search_rentals_value] below
    proves that it is. *)

Definition trend_frame (res : DataFrame) : DataFrame :=
  mkFrame
    (add_column "month_year" (add_column "date" (columns res)))
    ((λ r, set_month_year r (day_label <$> date r))
       <$> dropna_rows ["date"]
             ((λ r, set_date r (Extract_Date r ≫= to_datetime)) <$> rows res)).

Definition trend_value (res : DataFrame) : outcome (list Trend) :=
  if decide ("Extract Date" ∈ columns res) then trends_of (trend_frame res)
  else Return [].

Definition map_value (res : DataFrame) (draw : nat → nat) : outcome MapData :=
  _ ← require_columns res ["Latitude"; "Longitude"];
  let m := mkFrame (columns res) (dropna_rows ["Latitude"; "Longitude"] (rows res)) in
  if decide (rows m = []) then Return (mkMapData [] default_center 0 0)
  else
    bounds ← map_bounds m;
    Return (mkMapData
      (point_of <$> (if decide (2000 < length (rows m))%nat
                     then sample_rows draw 2000 (rows m) else rows m))
      (mean (Latitude <$> rows m), mean (Longitude <$> rows m))
      bounds.1 bounds.2).

Definition search_value (d : DataFrame) (draw : nat → nat)
    (state district houseType : string) : outcome Response :=
  _ ← require_columns d ["State"; "District"; "Standard Type"];
  let res := mkFrame (columns d) (filter (mask state district houseType) (rows d)) in
  if decide (rows res = []) then Return NotFound
  else
    median_rent ← median_rent_of res;
    _ ← require_columns d ["State"; "District"];
    comparison_list ← comparison_of
      (mkFrame (columns d) (filter (district_mask state district) (rows d)))
      houseType median_rent;
    trend_data ← trend_value res;
    distribution_data ← price_distribution res;
    md ← map_value res draw;
    Return (IsFound (mkFound
              (district +:+ ", " +:+ state)
              median_rent
              (median_rent * 3)
              (md_center md)
              (md_points md)
              (md_min md)
              (md_max md)
              (features_of res)
              (length (rows res))
              comparison_list
              trend_data
              distribution_data)).

End app.

(** ** The snapshot *)

(** The frame that the global [df] refers to. *)
Definition snapshot_frame (w : World) : option DataFrame :=
  l ← df (globals w); heap w !! l.

(** The Dataset Snapshot: the records, the property-type catalog and the
    location tree. *)
Definition snapshot (w : World)
    : option DataFrame * list string * gmap string (gmap string (list string)) :=
  (snapshot_frame w, all_property_types (globals w), location_tree (globals w)).

(** What [load_data] establishes of the frame: the four required columns
    exist and no row misses one of them. *)
Definition complete (r : Row) : Prop :=
  is_Some (State r) ∧ is_Some (District r) ∧ is_Some (Standard_Type r)
  ∧ is_Some (Rent_Price r).

Definition clean (d : DataFrame) : Prop :=
  Forall (λ c, c ∈ columns d) ["State"; "District"; "Standard Type"; "Rent Price"]
  ∧ Forall complete (rows d).

Definition loaded (w : World) (d : DataFrame) : Prop :=
  snapshot_frame w = Some d ∧ clean d.

(** The world with one more frame on the heap. *)
Definition alloc (w : World) (f : DataFrame) : World :=
  mkWorld (globals w) (heap w ++ [f]) (random_state w).

(** [w'] has the globals of [w] and its heap, with frames added. *)
Definition extends (w w' : World) : Prop :=
  globals w' = globals w ∧ heap w `prefix_of` heap w'.

(** ** Notions used in the statements *)

Definition priced (r : Row) : Prop := is_Some (Rent_Price r).

(** The numbers that a float64 holds: a significand below 2^53 times a
    power of two whose exponent is between -1074 and 971.  Adding two
    float64 values gives their sum exactly when the sum is such a number,
    and rounds it to the nearest one otherwise. *)
Definition float64 (x : number) : Prop :=
  ∃ m e : Z, Z.abs m < 2 ^ 53 ∧ -1074 ≤ e ≤ 971
             ∧ x = (of_Z m * Q2Qc (Qpower 2 e))%Qc.

(** The entry that a group of the comparison contributes. *)
Definition entries_of (houseType : string) (median_rent : Z) (kv : string * cell)
    : list Comparison :=
  match kv.2 with
  | Some x =>
      if decide (kv.1 ≠ houseType)
      then [mkComparison kv.1 (int_of x) (int_of x - median_rent)] else []
  | None => []
  end.

Definition trend_of (kv : string * cell) : Trend :=
  mkTrend kv.1 (default 0 (int_of <$> kv.2)).

(** The coordinate-bearing part of a selection, and the rows that become
    points. *)
Definition with_coordinates (rs : list Row) : list Row :=
  dropna_rows ["Latitude"; "Longitude"] rs.

Definition plotted (draw : nat → nat) (rs : list Row) : list Row :=
  if decide (2000 < length (with_coordinates rs))%nat
  then sample_rows draw 2000 (with_coordinates rs) else with_coordinates rs.

(** When a search answers. *)
Definition answerable (d : DataFrame) (state district houseType : string) : Prop :=
  "Latitude" ∈ columns d ∧ "Longitude" ∈ columns d
  ∧ ∀ x, max_of (Rent_Price <$> filter (mask state district houseType) (rows d)) = Some x
         → -500 < int_of x.

(** [tree[S][D]], when both keys are there. *)
Definition lookup2 (tree : gmap string (gmap string (list string))) (S D : string)
    : option (list string) :=
  tree !! S ≫= (λ m, m !! D).

(** A response with its points left out. *)
Definition without_points (o : outcome Response) : outcome Response :=
  match o with
  | Return (IsFound r) =>
      Return (IsFound (mkFound (location r) (medianRent r) (suitableIncome r)
        (coordinates r) [] (mapMin r) (mapMax r) (commonFeatures r) (count r)
        (comparison r) (trends r) (distribution r)))
  | _ => o
  end.

(** The rows of the file that [load_data] keeps: those with a numeric
    rent and, where [astype(str)] leaves a missing text missing, with a
    state, a district and a type. *)
Definition kept (str_dtype : bool) (raw : CsvRow) : Prop :=
  is_Some (to_numeric (Rent_Price raw))
  ∧ (str_dtype = true →
     is_Some (State raw) ∧ is_Some (District raw) ∧ is_Some (Standard_Type raw)).

Global Instance kept_dec str_dtype raw : Decision (kept str_dtype raw).
Proof. unfold kept. apply _. Defined.

(** The first [n] edges 0, 500, 1000, ... *)
Definition edges (n : nat) : list Z := (λ k : nat, Z.of_nat k * 500) <$> seq 0 n.

(** The rent [x] lies in the [k]-th interval, from 500 k up to but not
    including 500 k + 500. *)
Definition in_bin (k : nat) (x : number) : Prop :=
  (of_Z (Z.of_nat k * 500) ≤ x)%Qc ∧ (x < of_Z (Z.of_nat (S k) * 500))%Qc.

Global Instance in_bin_dec k x : Decision (in_bin k x).
Proof. unfold in_bin. apply _. Defined.

Definition bin_label (k : nat) : string :=
  str_of_int (Z.of_nat k * 500) +:+ "-" +:+ str_of_int (Z.of_nat k * 500 + 500).

(** The day under which a row enters the trend series: the label of its
    'Extract Date', when that parses. *)
Definition day_of (to_datetime : string → option Timestamp) (r : Row) : option string :=
  day_label <$> (Extract_Date r ≫= to_datetime).

(** ** Example data *)

Definition empty_world : World := mkWorld (mkGlobals None [] ∅) [] (λ k, k).

Definition listing (state district type : option string) (rent : csv_cell)
    (lat lng : cell) : CsvRow :=
  mkRow _ state district type rent None None None None None lat lng None None.

Definition example_columns : list string :=
  ["State"; "District"; "Standard Type"; "Rent Price"; "Latitude"; "Longitude"].

(** The three listings of a small district: two condominiums and a
    studio; the first has coordinates. *)
Definition example_csv : CsvFrame :=
  mkFrame example_columns
    [ listing (Some "KL") (Some "Ampang") (Some "Condo") (CsvNumber (of_Z 1500))
        (Some (Q2Qc (315 # 100))) (Some (Q2Qc (10176 # 100)));
      listing (Some "KL") (Some "Ampang") (Some "Condo") (CsvNumber (of_Z 1700))
        None None;
      listing (Some "KL") (Some "Ampang") (Some "Studio") (CsvNumber (of_Z 1200))
        None None ].

Definition example_world : World := (load_data false example_csv empty_world).2.

Definition no_dates (s : string) : option Timestamp := None.

Definition found_of (o : outcome Response) : option Found :=
  match o with
  | Return (IsFound r) => Some r
  | _ => None
  end.

(** One listing whose rent is a multiple of 500. *)
Definition edge_csv : CsvFrame :=
  mkFrame example_columns
    [ listing (Some "KL") (Some "Ampang") (Some "Condo") (CsvNumber (of_Z 1500))
        None None ].

(** One listing with coordinates whose rent is not a whole number. *)
Definition fraction_csv : CsvFrame :=
  mkFrame example_columns
    [ listing (Some "KL") (Some "Ampang") (Some "Condo")
        (CsvNumber (Q2Qc (3001 # 2)))
        (Some (Q2Qc (315 # 100))) (Some (Q2Qc (10176 # 100))) ].

(** A listing whose state is blank, and one whose state is missing. *)
Definition blank_csv : CsvFrame :=
  mkFrame example_columns
    [ listing (Some "   ") (Some "Ampang") (Some "Condo") (CsvNumber (of_Z 1500))
        None None ].

Definition missing_csv : CsvFrame :=
  mkFrame example_columns
    [ listing None (Some "Ampang") (Some "Condo") (CsvNumber (of_Z 1500))
        None None ].

Definition example_frame : DataFrame := cleaned false example_csv.
Definition fraction_frame : DataFrame := cleaned false fraction_csv.
Definition fraction_world : World := (load_data false fraction_csv empty_world).2.

(** The world in which a second search runs: that which a first search
    has left. *)
Definition world_after_search : World :=
  (search_rentals no_dates "KL" "Ampang" "Condo" example_world).2.

(** Four condominiums with furnishing, bedrooms and the day of extraction,
    none with coordinates; the last day does not parse. *)
Definition dated_columns : list string :=
  example_columns ++ ["Furnishing Type"; "No of Bedroom"; "Extract Date"].

Definition dated_listing (rent : Z) (furnishing : string) (beds : Z) (day : string)
    : CsvRow :=
  mkRow _ (Some "KL") (Some "Ampang") (Some "Condo") (CsvNumber (of_Z rent))
    (Some furnishing) None (Some (of_Z beds)) None (Some day) None None None None.

Definition dated_csv : CsvFrame :=
  mkFrame dated_columns
    [ dated_listing 1300 "Fully" 3 "2024-01-05";
      dated_listing 1700 "Fully" 2 "2024-01-05";
      dated_listing 1800 "Partly" 3 "2024-01-06";
      dated_listing 1900 "Partly" 1 "soon" ].

Definition example_dates (s : string) : option Timestamp :=
  if decide (s = "2024-01-05")
  then Some {| ts_year := 2024; ts_month := 1; ts_day := 5; ts_time := 0 |}
  else if decide (s = "2024-01-06")
  then Some {| ts_year := 2024; ts_month := 1; ts_day := 6; ts_time := 0 |}
  else None.

Definition dated_frame : DataFrame := cleaned false dated_csv.
Definition dated_world : World := (load_data false dated_csv empty_world).2.

(** A file with the four required columns only, and one without 'State'. *)
Definition bare_csv : CsvFrame :=
  mkFrame required
    [ listing (Some "KL") (Some "Ampang") (Some "Condo") (CsvNumber (of_Z 1300))
        None None ].

Definition bare_frame : DataFrame := cleaned false bare_csv.
Definition bare_world : World := (load_data false bare_csv empty_world).2.

Definition stateless_csv : CsvFrame :=
  mkFrame ["Rent Price"; "District"; "Standard Type"]
    [ listing None (Some "Ampang") (Some "Condo") (CsvNumber (of_Z 1300)) None None ].

(** Two condominiums whose rents, 1500 and 1701, have a median that is
    not a whole number. *)
Definition uneven_csv : CsvFrame :=
  mkFrame example_columns
    [ listing (Some "KL") (Some "Ampang") (Some "Condo") (CsvNumber (of_Z 1500))
        None None;
      listing (Some "KL") (Some "Ampang") (Some "Condo") (CsvNumber (of_Z 1701))
        None None ].

Definition uneven_frame : DataFrame := cleaned false uneven_csv.
Definition uneven_world : World := (load_data false uneven_csv empty_world).2.

(** * Properties *)

Ltac by_evaluation := apply (bool_decide_unpack _); vm_compute; exact I.

(** ** Facts about the building blocks *)

Section sorting_facts.
Context {A : Type} (R : relation A) `{!∀ x y, Decision (R x y)}.

Lemma insert_sorted_Permutation x l : insert_sorted R x l ≡ₚ x :: l.
Proof.
  induction l as [|y l IH]; simpl; [done|].
  case_decide; [done|]. rewrite IH. apply Permutation_swap.
Qed.

Lemma sorted_Permutation l : sorted R l ≡ₚ l.
Proof.
  induction l as [|x l IH]; simpl; [done|].
  rewrite insert_sorted_Permutation. by rewrite IH.
Qed.

Lemma sorted_length l : length (sorted R l) = length l.
Proof. apply Permutation_length, sorted_Permutation. Qed.

Lemma elem_of_sorted x l : x ∈ sorted R l ↔ x ∈ l.
Proof. by rewrite sorted_Permutation. Qed.

Lemma NoDup_sorted l : NoDup l → NoDup (sorted R l).
Proof. by rewrite sorted_Permutation. Qed.

Lemma sorted_nil_inv l : sorted R l = [] → l = [].
Proof.
  intros Hs. apply length_zero_iff_nil. rewrite <-sorted_length, Hs. done.
Qed.

Context `{!Total R}.

Lemma insert_sorted_Sorted x l : Sorted R l → Sorted R (insert_sorted R x l).
Proof.
  induction 1 as [|y l Hl IH Hhd]; simpl; [by repeat constructor|].
  case_decide as Hxy.
  - by repeat constructor.
  - constructor; [done|].
    destruct (total R x y) as [|Hyx]; [done|].
    destruct Hhd as [|z l Hyz]; simpl; [by constructor|].
    case_decide; by constructor.
Qed.

Lemma sorted_Sorted l : Sorted R (sorted R l).
Proof.
  induction l as [|x l IH]; simpl; [constructor|].
  by apply insert_sorted_Sorted.
Qed.
End sorting_facts.

Lemma elem_of_unique `{EqDecision A} (x : A) l : x ∈ unique l ↔ x ∈ l.
Proof.
  induction l as [|y l IH]; simpl; [done|].
  rewrite !elem_of_cons, list_elem_of_filter, IH.
  destruct (decide (x = y)); intuition.
Qed.

Lemma NoDup_unique `{EqDecision A} (l : list A) : NoDup (unique l).
Proof.
  induction l as [|y l IH]; simpl; [constructor|].
  constructor.
  - rewrite list_elem_of_filter. intros [Hne _]. by apply Hne.
  - by apply list.NoDup_filter.
Qed.

Global Instance str_le_total : Total str_le.
Proof. intros s1 s2. apply String.leb_total. Qed.

Global Instance str_le_antisymm : AntiSymm (=) str_le.
Proof. intros s1 s2. apply String.leb_antisym. Qed.

Global Instance by_medianRent_total : Total by_medianRent.
Proof. intros a b. unfold by_medianRent. lia. Qed.

Lemma dropna_values_Permutation {A} (s1 s2 : list (option A)) :
  s1 ≡ₚ s2 → dropna_values s1 ≡ₚ dropna_values s2.
Proof. intros H. unfold dropna_values. by rewrite H. Qed.

Lemma sorted_numbers_unique (v1 v2 : list number) :
  v1 ≡ₚ v2 → sorted Qcle v1 = sorted Qcle v2.
Proof.
  intros H. apply (Sorted_unique Qcle).
  - apply sorted_Sorted; apply _.
  - apply sorted_Sorted; apply _.
  - by rewrite !sorted_Permutation.
Qed.

Lemma median_Permutation (s1 s2 : list cell) : s1 ≡ₚ s2 → median s1 = median s2.
Proof.
  intros H. unfold median.
  by rewrite (sorted_numbers_unique _ _ (dropna_values_Permutation _ _ H)).
Qed.

(** ** Running the operations *)

Lemma extends_refl w : extends w w.
Proof. by split. Qed.

Lemma extends_trans w1 w2 w3 : extends w1 w2 → extends w2 w3 → extends w1 w3.
Proof. intros [? ?] [? ?]. split; [congruence|by etrans]. Qed.

Lemma extends_alloc w f : extends w (alloc w f).
Proof. split; [done|]. by apply prefix_app_r. Qed.

Lemma extends_lookup w w' l f : extends w w' → heap w !! l = Some f → heap w' !! l = Some f.
Proof. intros [_ [k ->]] H. by apply lookup_app_l_Some. Qed.

Lemma lookup_alloc w f : heap (alloc w f) !! length (heap w) = Some f.
Proof. simpl. by rewrite list_lookup_middle. Qed.

Lemma alloc_lookup w f l g : heap w !! l = Some g → heap (alloc w f) !! l = Some g.
Proof. apply extends_lookup, extends_alloc. Qed.

Lemma frame_run w l f : heap w !! l = Some f → frame l w = (Return f, w).
Proof. intros H. unfold frame. by rewrite H. Qed.

Lemma set_frame_alloc w f g : set_frame (length (heap w)) g (alloc w f) = (Return (), alloc w g).
Proof.
  unfold set_frame, alloc. simpl. do 2 f_equal.
  rewrite insert_app_r_alt by lia. by rewrite Nat.sub_diag.
Qed.

Lemma bind_run {A B} (m : M A) (k : A → M B) w a w' :
  m w = (Return a, w') → bind m k w = k a w'.
Proof. intros H. unfold bind. by rewrite H. Qed.

Lemma bind_raise {A B} (m : M A) (k : A → M B) w e w' :
  m w = (Raise e, w') → bind m k w = (Raise e, w').
Proof. intros H. unfold bind. by rewrite H. Qed.

Lemma bind_lift {A B} (o : outcome A) (k : A → M B) w :
  bind (lift o) k w = match o with Return a => k a w | Raise e => (Raise e, w) end.
Proof. unfold bind, lift. by destruct o. Qed.

Lemma require_columns_Return f names :
  Forall (λ c, c ∈ columns f) names → require_columns f names = Return ().
Proof.
  induction 1 as [|c names Hc _ IH]; simpl; [done|]. by rewrite decide_True.
Qed.

Lemma elem_of_add_column x c cols : x ∈ add_column c cols ↔ x = c ∨ x ∈ cols.
Proof.
  unfold add_column. case_decide.
  - split; [auto|]. by intros [->|].
  - rewrite elem_of_app, list_elem_of_singleton. tauto.
Qed.

Lemma getitem_mask_run w l f names (P : Row → Prop) `{!∀ r, Decision (P r)} :
  heap w !! l = Some f →
  getitem_mask l names P w =
    match require_columns f names with
    | Return _ => (Return (length (heap w)), alloc w (mkFrame (columns f) (filter P (rows f))))
    | Raise e => (Raise e, w)
    end.
Proof.
  intros Hl. unfold getitem_mask. rewrite (bind_run _ _ _ _ _ (frame_run _ _ _ Hl)).
  rewrite bind_lift. by destruct (require_columns f names).
Qed.

Lemma dropna_run w l f subset :
  heap w !! l = Some f →
  dropna l subset w =
    match require_columns f subset with
    | Return _ => (Return (length (heap w)),
                   alloc w (mkFrame (columns f) (dropna_rows subset (rows f))))
    | Raise e => (Raise e, w)
    end.
Proof.
  intros H. unfold dropna. rewrite (bind_run _ _ _ _ _ (frame_run _ _ _ H)).
  rewrite bind_lift. by destruct (require_columns f subset).
Qed.

Lemma copy_run w l f :
  heap w !! l = Some f → copy l w = (Return (length (heap w)), alloc w f).
Proof.
  intros H. unfold copy. by rewrite (bind_run _ _ _ _ _ (frame_run _ _ _ H)).
Qed.

(** In-place operations on the frame allocated last. *)
Lemma setitem_alloc w f c reads upd :
  Forall (λ c, c ∈ columns f) reads →
  setitem (length (heap w)) c reads upd (alloc w f) =
    (Return (), alloc w (mkFrame (add_column c (columns f)) (upd <$> rows f))).
Proof.
  intros H. unfold setitem.
  rewrite (bind_run _ _ _ _ _ (frame_run _ _ _ (lookup_alloc w f))).
  rewrite bind_lift, require_columns_Return by done.
  apply set_frame_alloc.
Qed.

Lemma dropna_inplace_alloc w f subset :
  Forall (λ c, c ∈ columns f) subset →
  dropna_inplace (length (heap w)) subset (alloc w f) =
    (Return (), alloc w (mkFrame (columns f) (dropna_rows subset (rows f)))).
Proof.
  intros H. unfold dropna_inplace.
  rewrite (bind_run _ _ _ _ _ (frame_run _ _ _ (lookup_alloc w f))).
  rewrite bind_lift, require_columns_Return by done.
  apply set_frame_alloc.
Qed.

Section runs.
Context (to_datetime : string → option Timestamp).

Lemma trend_series_run w l res :
  heap w !! l = Some res →
  ∃ w', trend_series to_datetime l w = (trend_value to_datetime res, w')
        ∧ extends w w' ∧ random_state w' = random_state w.
Proof.
  intros H. unfold trend_series, trend_value.
  rewrite (bind_run _ _ _ _ _ (frame_run _ _ _ H)).
  case_decide as Hcol; [|by eexists; split; [done|split; [apply extends_refl|done]]].
  rewrite (bind_run _ _ _ _ _ (copy_run _ _ _ H)).
  erewrite bind_run; [|by apply setitem_alloc; repeat constructor].
  erewrite bind_run;
    [|by apply dropna_inplace_alloc; repeat constructor; apply elem_of_add_column; left].
  erewrite bind_run;
    [|by apply setitem_alloc; repeat constructor; apply elem_of_add_column; left].
  erewrite bind_run; [|by apply frame_run, lookup_alloc].
  eexists. split; [done|]. split; [apply extends_alloc|done].
Qed.

Lemma sample_run w l f n :
  heap w !! l = Some f → (n ≤ length (rows f))%nat →
  sample l n w =
    (Return (length (heap w)),
     mkWorld (globals w)
       (heap w ++ [mkFrame (columns f) (sample_rows (random_state w) n (rows f))])
       (λ k, random_state w (n + k)%nat)).
Proof.
  intros H Hn. unfold sample. rewrite (bind_run _ _ _ _ _ (frame_run _ _ _ H)).
  by rewrite decide_False by lia.
Qed.

Lemma map_data_run w l res :
  heap w !! l = Some res →
  ∃ w', map_data l w = (map_value res (random_state w), w') ∧ extends w w'.
Proof.
  intros H. unfold map_data, map_value.
  unfold bind at 1. rewrite (dropna_run _ _ _ _ H).
  destruct (require_columns res _) as [[]|e]; cbn [mbind outcome_bind];
    [|by eexists; split; [done|apply extends_refl]].
  set (m := mkFrame (columns res) (dropna_rows ["Latitude"; "Longitude"] (rows res))).
  rewrite (bind_run _ _ _ _ _ (frame_run _ _ _ (lookup_alloc _ _))).
  case_decide as Hrows; [by eexists; split; [done|apply extends_alloc]|].
  rewrite bind_lift.
  destruct (map_bounds m) as [bounds|e]; cbn [mbind outcome_bind];
    [|by eexists; split; [done|apply extends_alloc]].
  case_decide as Hlen.
  - erewrite bind_run; [|by apply sample_run; [apply lookup_alloc|lia]].
    erewrite bind_run;
      [|by apply frame_run; cbn [heap alloc]; rewrite list_lookup_middle].
    eexists. split; [done|]. split; [done|]. cbn [heap alloc].
    rewrite <-(assoc_L (++)). by apply prefix_app_r.
  - unfold ret at 1. unfold bind at 1.
    rewrite (bind_run _ _ _ _ _ (frame_run _ _ _ (lookup_alloc _ _))).
    eexists. split; [done|]. apply extends_alloc.
Qed.

(** What [search_rentals] returns is [search_value] of the snapshot frame
    and of the random state, and it only adds frames to the heap. *)
Lemma search_rentals_run w d state district houseType :
  snapshot_frame w = Some d →
  ∃ w', search_rentals to_datetime state district houseType w
          = (search_value to_datetime d (random_state w) state district houseType, w')
        ∧ extends w w'.
Proof.
  unfold snapshot_frame. intros H.
  destruct (df (globals w)) as [l|] eqn:Hl; simpl in H; [|done].
  unfold search_rentals, search_value.
  unfold bind at 1, get_globals at 1. rewrite Hl.
  unfold bind at 1. rewrite (getitem_mask_run _ _ _ _ _ H).
  destruct (require_columns d _) as [[]|e]; cbn [mbind outcome_bind];
    [|by eexists; split; [done|apply extends_refl]].
  set (res := mkFrame (columns d) (filter (mask state district houseType) (rows d))).
  rewrite (bind_run _ _ _ _ _ (frame_run _ _ _ (lookup_alloc _ _))).
  fold res. cbn [rows].
  case_decide as Hrows; [by eexists; split; [done|apply extends_alloc]|].
  rewrite bind_lift.
  destruct (median_rent_of res) as [median_rent|e]; cbn [mbind outcome_bind];
    [|by eexists; split; [done|apply extends_alloc]].
  unfold bind at 1.
  rewrite (getitem_mask_run _ _ _ _ _ (alloc_lookup _ res _ _ H)).
  destruct (require_columns d _) as [[]|e]; cbn [mbind outcome_bind];
    [|by eexists; split; [done|apply extends_alloc]].
  set (w1 := alloc w res).
  set (ddf := mkFrame (columns d) (filter (district_mask state district) (rows d))).
  rewrite (bind_run _ _ _ _ _ (frame_run _ _ _ (lookup_alloc _ _))).
  rewrite bind_lift.
  assert (extends w (alloc w1 ddf)) as Hw2
    by (eapply extends_trans; apply extends_alloc).
  destruct (comparison_of ddf houseType median_rent) as [comparison_list|e]; cbn [mbind outcome_bind];
    [|by eexists].
  assert (heap (alloc w1 ddf) !! length (heap w) = Some res) as Hres
    by (apply alloc_lookup, lookup_alloc).
  destruct (trend_series_run _ _ _ Hres) as (w3 & Htrend & Hw3 & Hrs).
  unfold bind at 1. rewrite Htrend.
  pose proof (extends_trans _ _ _ Hw2 Hw3) as Hw03.
  destruct (trend_value to_datetime res) as [trend_data|e]; cbn [mbind outcome_bind]; [|by eexists].
  rewrite (bind_run _ _ _ _ _ (frame_run _ _ _ (extends_lookup _ _ _ _ Hw3 Hres))).
  rewrite bind_lift.
  destruct (price_distribution res) as [distribution_data|e]; cbn [mbind outcome_bind]; [|by eexists].
  destruct (map_data_run _ _ _ (extends_lookup _ _ _ _ Hw3 Hres)) as (w4 & Hmap & Hw4).
  unfold bind at 1. rewrite Hmap.
  pose proof (extends_trans _ _ _ Hw03 Hw4) as Hw04.
  rewrite Hrs. change (random_state (alloc w1 ddf)) with (random_state w).
  destruct (map_value res (random_state w)) as [md|e]; cbn [mbind outcome_bind]; [|by eexists].
  rewrite (bind_run _ _ _ _ _ (frame_run _ _ _
    (extends_lookup _ _ _ _ Hw4 (extends_lookup _ _ _ _ Hw3 Hres)))).
  by eexists.
Qed.
End runs.

(** ** Truncation, minimum and maximum *)

Lemma int_of_nonneg (x : number) : (0 ≤ Qnum x) → int_of x = Qnum x / Zpos (Qden x).
Proof. intros H. unfold int_of. apply Z.quot_div_nonneg; lia. Qed.

Lemma int_of_neg (x : number) : (Qnum x < 0) → int_of x = - ((- Qnum x) / Zpos (Qden x)).
Proof.
  intros H. unfold int_of.
  rewrite <-(Z.opp_involutive (Qnum x)) at 1.
  rewrite Z.quot_opp_l by lia. f_equal. apply Z.quot_div_nonneg; lia.
Qed.

Lemma int_of_mono (x y : number) : (x ≤ y)%Qc → int_of x ≤ int_of y.
Proof.
  unfold Qcle, Qle. destruct x as [[a b] ?], y as [[c d] ?]. simpl. intros H.
  destruct (Z_lt_le_dec a 0) as [Ha|Ha], (Z_lt_le_dec c 0) as [Hc|Hc].
  - rewrite !int_of_neg by done. simpl.
    apply Z.opp_le_mono. rewrite !Z.opp_involutive.
    apply Z.div_le_lower_bound; [lia|].
    pose proof (Z.mul_div_le (- c) (Zpos d)). 
    pose proof (Z.mod_pos_bound (-c) (Zpos d)).
    pose proof (Z.div_mod (-c) (Zpos d)). nia.
  - rewrite int_of_neg, int_of_nonneg by done. simpl.
    pose proof (Z.div_pos (- a) (Zpos b)).
    pose proof (Z.div_pos c (Zpos d)). lia.
  - simpl in *. nia.
  - rewrite !int_of_nonneg by done. simpl.
    apply Z.div_le_lower_bound; [lia|].
    pose proof (Z.mul_div_le a (Zpos b)). nia.
Qed.

Lemma int_of_of_Z (z : Z) : int_of (of_Z z) = z.
Proof. unfold int_of, of_Z, Qc_of_Z. simpl. apply Z.quot_1_r. Qed.

Lemma smaller_le_l x y : (smaller x y ≤ x)%Qc.
Proof.
  unfold smaller. case_decide as H; [apply Qcle_refl|].
  apply Qclt_le_weak, Qcnot_le_lt, H.
Qed.

Lemma smaller_le_r x y : (smaller x y ≤ y)%Qc.
Proof. unfold smaller. case_decide as H; [done|apply Qcle_refl]. Qed.

Lemma larger_ge_l x y : (x ≤ larger x y)%Qc.
Proof. unfold larger. case_decide as H; [done|apply Qcle_refl]. Qed.

Lemma larger_ge_r x y : (y ≤ larger x y)%Qc.
Proof.
  unfold larger. case_decide as H; [apply Qcle_refl|].
  apply Qclt_le_weak, Qcnot_le_lt, H.
Qed.

Lemma foldr_smaller_le x v y : y ∈ x :: v → (foldr smaller x v ≤ y)%Qc.
Proof.
  induction v as [|z v IH]; simpl.
  - rewrite list_elem_of_singleton. intros ->. apply Qcle_refl.
  - rewrite !elem_of_cons. intros [->|[->|Hy]].
    + eapply Qcle_trans; [apply smaller_le_r|]. apply IH. by left.
    + apply smaller_le_l.
    + eapply Qcle_trans; [apply smaller_le_r|]. apply IH. by right.
Qed.

Lemma foldr_larger_ge x v y : y ∈ x :: v → (y ≤ foldr larger x v)%Qc.
Proof.
  induction v as [|z v IH]; simpl.
  - rewrite list_elem_of_singleton. intros ->. apply Qcle_refl.
  - rewrite !elem_of_cons. intros [->|[->|Hy]].
    + eapply Qcle_trans; [|apply larger_ge_r]. apply IH. by left.
    + apply larger_ge_l.
    + eapply Qcle_trans; [|apply larger_ge_r]. apply IH. by right.
Qed.

Lemma foldr_smaller_elem x v : foldr smaller x v ∈ x :: v.
Proof.
  induction v as [|z v IH]; simpl; [by left|].
  unfold smaller at 1. case_decide; [by right; left|].
  apply elem_of_cons in IH as [->|IH]; [by left|by do 2 right].
Qed.

Lemma foldr_larger_elem x v : foldr larger x v ∈ x :: v.
Proof.
  induction v as [|z v IH]; simpl; [by left|].
  unfold larger at 1. case_decide; [|by right; left].
  apply elem_of_cons in IH as [->|IH]; [by left|by do 2 right].
Qed.

Lemma elem_of_dropna_values {A} (x : A) (s : list (option A)) :
  x ∈ dropna_values s ↔ Some x ∈ s.
Proof.
  unfold dropna_values. rewrite list_elem_of_omap. split.
  - intros (o & Ho & Hx). simpl in Hx. by subst.
  - intros Hx. by exists (Some x).
Qed.

Lemma min_of_Some s x : min_of s = Some x → Some x ∈ s ∧ ∀ y, Some y ∈ s → (x ≤ y)%Qc.
Proof.
  unfold min_of. destruct (dropna_values s) as [|z v] eqn:Hv; [done|].
  intros [= <-]. split.
  - apply elem_of_dropna_values. rewrite Hv. apply foldr_smaller_elem.
  - intros y Hy. apply foldr_smaller_le. rewrite <-Hv. by apply elem_of_dropna_values.
Qed.

Lemma max_of_Some s x : max_of s = Some x → Some x ∈ s ∧ ∀ y, Some y ∈ s → (y ≤ x)%Qc.
Proof.
  unfold max_of. destruct (dropna_values s) as [|z v] eqn:Hv; [done|].
  intros [= <-]. split.
  - apply elem_of_dropna_values. rewrite Hv. apply foldr_larger_elem.
  - intros y Hy. apply foldr_larger_ge. rewrite <-Hv. by apply elem_of_dropna_values.
Qed.

Lemma min_of_is_Some s : dropna_values s ≠ [] → is_Some (min_of s).
Proof. unfold min_of. by destruct (dropna_values s). Qed.

Lemma max_of_is_Some s : dropna_values s ≠ [] → is_Some (max_of s).
Proof. unfold max_of. by destruct (dropna_values s). Qed.

Lemma dropna_values_Some {A} (v : list A) : dropna_values (Some <$> v) = v.
Proof. induction v as [|x v IH]; [done|]. unfold dropna_values in *. simpl. by f_equal. Qed.

(** ** The median *)

Lemma median_is_Some s : dropna_values s ≠ [] → is_Some (median s).
Proof.
  intros Hs. unfold median, cell, number in *.
  assert (length (sorted Qcle (dropna_values s)) ≠ 0%nat) as Hn.
  { intros Hn. apply Hs, (sorted_nil_inv Qcle). by apply length_zero_iff_nil. }
  generalize dependent (sorted Qcle (dropna_values s)). intros v Hn.
  rewrite decide_False by done.
  assert (length v / 2 < length v)%nat as H2 by (apply Nat.div_lt; lia).
  destruct (lookup_lt_is_Some_2 v (length v / 2)%nat H2) as [b Hb].
  destruct (Nat.odd (length v)); [by rewrite Hb|].
  destruct (lookup_lt_is_Some_2 v (length v / 2 - 1)%nat ltac:(lia)) as [a Ha].
  by rewrite Ha, Hb.
Qed.

(** The median by the book: of the values in ascending order, the middle
    one, or the mean of the two in the middle. *)
Lemma median_spec s v :
  Sorted Qcle v → v ≡ₚ dropna_values s → v ≠ [] →
  (Nat.odd (length v) = true → median s = v !! (length v / 2)%nat) ∧
  (Nat.odd (length v) = false →
     ∃ a b, v !! (length v / 2 - 1)%nat = Some a ∧ v !! (length v / 2)%nat = Some b
            ∧ median s = Some ((a + b) / of_Z 2)%Qc).
Proof.
  intros Hsorted Hperm Hne.
  assert (sorted Qcle (dropna_values s) = v) as Hv.
  { apply (Sorted_unique Qcle); [apply sorted_Sorted; apply _|done|].
    by rewrite sorted_Permutation. }
  unfold median, cell, number in *. rewrite Hv.
  assert (length v ≠ 0%nat) as Hn by (by destruct v).
  rewrite decide_False by done.
  split; intros Hodd; rewrite Hodd; [done|].
  assert (length v / 2 < length v)%nat as H2 by (apply Nat.div_lt; lia).
  destruct (lookup_lt_is_Some_2 v (length v / 2)%nat H2) as [b Hb].
  destruct (lookup_lt_is_Some_2 v (length v / 2 - 1)%nat ltac:(lia)) as [a Ha].
  exists a, b. by rewrite Ha, Hb.
Qed.

(** ** Sampling *)

Lemma sample_rows_length draw n rs :
  (n ≤ length rs)%nat → length (sample_rows draw n rs) = n.
Proof.
  revert draw rs. induction n as [|n IH]; intros draw rs Hn; simpl; [done|].
  assert (draw 0%nat mod length rs < length rs)%nat as Hi
    by (apply Nat.mod_upper_bound; lia).
  destruct (lookup_lt_is_Some_2 rs _ Hi) as [r Hr]. rewrite Hr. simpl.
  rewrite IH; [done|]. rewrite length_delete by eauto. lia.
Qed.

Lemma sample_rows_subseteq draw n rs r : r ∈ sample_rows draw n rs → r ∈ rs.
Proof.
  revert draw rs. induction n as [|n IH]; intros draw rs; simpl.
  - by intros ?%elem_of_nil.
  - destruct (rs !! _) as [r'|] eqn:Hr; [|by intros ?%elem_of_nil].
    rewrite elem_of_cons. intros [->|Hin].
    + by eapply list_elem_of_lookup_2.
    + apply IH in Hin. by eapply list_elem_of_delete_inv.
Qed.

(** ** The steps of a search, one by one *)

Lemma complete_priced r : complete r → priced r.
Proof. by intros (_ & _ & _ & ?). Qed.

Lemma priced_values rs :
  Forall priced rs → rs ≠ [] → dropna_values (Rent_Price <$> rs) ≠ [].
Proof.
  destruct 1 as [|r rs [x Hx] _]; [done|]. intros _.
  unfold dropna_values. simpl. by rewrite Hx.
Qed.

Lemma mapM_Return {A B} (f : A → outcome B) (g : A → B) (l : list A) :
  Forall (λ x, f x = Return (g x)) l → mapM f l = Return (g <$> l).
Proof.
  induction 1 as [|x l Hx _ IH]; [done|].
  cbn [mapM]. rewrite Hx. cbn [mbind outcome_bind]. rewrite IH. done.
Qed.

Section groups.
Context {K : Type} `{EqDecision K} (R : relation K) `{!∀ x y, Decision (R x y)}.
Context (key : Row → option K).

Lemma elem_of_groupby_median k c rs :
  (k, c) ∈ groupby_median R key rs ↔
    (∃ r, r ∈ rs ∧ key r = Some k)
    ∧ c = median (Rent_Price <$> filter (λ r, key r = Some k) rs).
Proof.
  unfold groupby_median. rewrite list_elem_of_fmap. split.
  - intros (k' & [= -> ->] & Hk). split; [|done].
    apply elem_of_sorted, elem_of_unique, elem_of_dropna_values in Hk.
    apply list_elem_of_fmap in Hk as (r & Hr & Hin). by exists r.
  - intros [(r & Hin & Hr) ->]. exists k. split; [done|].
    apply elem_of_sorted, elem_of_unique, elem_of_dropna_values.
    apply list_elem_of_fmap. by exists r.
Qed.



Lemma groupby_median_Some rs :
  Forall priced rs → Forall (λ kv, is_Some kv.2) (groupby_median R key rs).
Proof.
  intros Hrs. apply list.Forall_forall. intros [k c] [(r & Hin & Hr) ->]%elem_of_groupby_median.
  apply median_is_Some, priced_values.
  - apply list.Forall_forall. intros r' [_ Hr']%list_elem_of_filter.
    by eapply list.Forall_forall in Hrs.
  - intros Hnil. eapply (filter_nil_not_elem_of _ _ r); [exact Hnil|done..].
Qed.
End groups.


Lemma comparison_of_Return ddf houseType m :
  "Standard Type" ∈ columns ddf → "Rent Price" ∈ columns ddf →
  Forall priced (rows ddf) →
  comparison_of ddf houseType m =
    Return (sorted by_medianRent
              (concat (entries_of houseType m
                         <$> groupby_median str_le Standard_Type (rows ddf)))).
Proof.
  intros Ht Hp Hrows. unfold comparison_of.
  rewrite require_columns_Return by (by repeat constructor).
  cbn [mbind outcome_bind].
  erewrite (mapM_Return _ (entries_of houseType m)); [done|].
  eapply Forall_impl; [by apply groupby_median_Some|].
  intros [t c] [x Hx]. simpl in Hx. subst c. done.
Qed.



Lemma range0_length stop step :
  length (range0 stop step) = Z.to_nat ((stop + step - 1) / step).
Proof. unfold range0. by rewrite length_fmap, length_seq. Qed.

Lemma cut_Return prices (bins : list Z) labels :
  bins ≠ [] → length labels = (length bins - 1)%nat →
  ∃ codes, cut prices bins labels = Return codes.
Proof.
  intros Hb Hl. unfold cut. rewrite decide_False; [by eexists|].
  destruct bins; [done|]. simpl in *. lia.
Qed.

Lemma histogram_Return prices top :
  -500 < top → ∃ bins, histogram prices top = Return bins.
Proof.
  intros Htop. unfold histogram.
  edestruct (cut_Return prices (range0 (top + 500) 500)) as [codes ->];
    [| |by eexists].
  - intros Hnil. apply (f_equal length) in Hnil. rewrite range0_length in Hnil.
    simpl in Hnil. assert (1 ≤ (top + 500 + 500 - 1) / 500); [|lia].
    apply Z.div_le_lower_bound; lia.
  - rewrite length_fmap, length_take. lia.
Qed.

Lemma max_of_dropna s : max_of (Some <$> dropna_values s) = max_of s.
Proof. unfold max_of. by rewrite dropna_values_Some. Qed.

Lemma price_distribution_Return res :
  "Rent Price" ∈ columns res → Forall priced (rows res) → rows res ≠ [] →
  (∀ x, max_of (Rent_Price <$> rows res) = Some x → -500 < int_of x) →
  ∃ x bins, max_of (Rent_Price <$> rows res) = Some x
       ∧ histogram (dropna_values (Rent_Price <$> rows res)) (int_of x) = Return bins
       ∧ price_distribution res = Return bins.
Proof.
  intros Hcol Hp Hne Htop.
  destruct (max_of_is_Some (Rent_Price <$> rows res)) as [x Hx];
    [by apply priced_values|].
  destruct (histogram_Return (dropna_values (Rent_Price <$> rows res)) (int_of x))
    as [bins Hbins]; [by apply Htop|].
  exists x, bins. split; [done|]. split; [done|].
  unfold price_distribution.
  rewrite require_columns_Return by (by repeat constructor).
  cbn [mbind outcome_bind]. rewrite max_of_dropna.
  unfold cell, number in *. rewrite Hx. done.
Qed.

Lemma dropna_rows_subseteq subset rs r : r ∈ dropna_rows subset rs → r ∈ rs.
Proof. unfold dropna_rows. by intros [_ ?]%list_elem_of_filter. Qed.

Lemma Forall_dropna_rows (P : Row → Prop) subset rs :
  Forall P rs → Forall P (dropna_rows subset rs).
Proof.
  rewrite !Forall_forall. intros H r Hr. by eapply H, dropna_rows_subseteq.
Qed.

Lemma Forall_filter_rows (P Q : Row → Prop) `{!∀ r, Decision (Q r)} rs :
  Forall P rs → Forall P (filter Q rs).
Proof.
  rewrite !Forall_forall. intros HP r [_ Hr]%list_elem_of_filter. by apply HP.
Qed.

Lemma map_bounds_Return m :
  "Rent Price" ∈ columns m → Forall priced (rows m) → rows m ≠ [] →
  ∃ lo hi, min_of (Rent_Price <$> rows m) = Some lo
           ∧ max_of (Rent_Price <$> rows m) = Some hi
           ∧ map_bounds m = Return (int_of lo, int_of hi).
Proof.
  intros Hcol Hp Hne. unfold map_bounds.
  rewrite require_columns_Return by (by repeat constructor).
  destruct (min_of_is_Some (Rent_Price <$> rows m)) as [lo Hlo];
    [by apply priced_values|].
  destruct (max_of_is_Some (Rent_Price <$> rows m)) as [hi Hhi];
    [by apply priced_values|].
  exists lo, hi. by rewrite Hlo, Hhi.
Qed.

Lemma map_value_Return res draw :
  "Latitude" ∈ columns res → "Longitude" ∈ columns res →
  "Rent Price" ∈ columns res → Forall priced (rows res) →
  ∃ md, map_value res draw = Return md
    ∧ md_points md = point_of <$> plotted draw (rows res)
    ∧ (with_coordinates (rows res) = [] → md_min md = 0 ∧ md_max md = 0)
    ∧ (with_coordinates (rows res) ≠ [] →
         ∃ lo hi, min_of (Rent_Price <$> with_coordinates (rows res)) = Some lo
                ∧ max_of (Rent_Price <$> with_coordinates (rows res)) = Some hi
                ∧ md_min md = int_of lo ∧ md_max md = int_of hi).
Proof.
  intros Hlat Hlng Hcol Hp. unfold map_value, plotted, with_coordinates.
  rewrite require_columns_Return by (by repeat constructor).
  cbn [mbind outcome_bind rows columns].
  case_decide as Hrows.
  - eexists. split; [done|]. cbn [md_points md_min md_max]. rewrite Hrows.
    split; [by rewrite decide_False by (cbn [length]; lia)|]. by split.
  - edestruct (map_bounds_Return
      (mkFrame (columns res) (dropna_rows ["Latitude"; "Longitude"] (rows res))))
      as (lo & hi & Hlo & Hhi & ->); [done|by apply Forall_dropna_rows|done|].
    cbn [mbind outcome_bind rows columns] in *.
    eexists. split; [done|]. cbn [md_points md_min md_max fst snd].
    split; [done|]. split; [done|]. intros _. by exists lo, hi.
Qed.

Section found.
Context (to_datetime : string → option Timestamp).

Lemma trend_value_Return res :
  "Rent Price" ∈ columns res → Forall priced (rows res) →
  ∃ tr, trend_value to_datetime res = Return tr.
Proof.
  intros Hcol Hp. unfold trend_value. case_decide; [|by eexists].
  unfold trends_of. rewrite require_columns_Return.
  - cbn [mbind outcome_bind].
    erewrite (mapM_Return _ trend_of); [by eexists|].
    apply Forall_forall. intros [name c] Hin%elem_of_sorted.
    assert (is_Some c) as [x ->]; [|done].
    eapply (Forall_forall (λ kv, is_Some kv.2)) in Hin; [exact Hin|].
    apply groupby_median_Some. unfold trend_frame. cbn [rows].
    apply Forall_fmap, Forall_dropna_rows, Forall_fmap.
    eapply Forall_impl; [exact Hp|]. done.
  - unfold trend_frame. cbn [columns]. repeat constructor.
    + apply elem_of_add_column. by left.
    + do 2 (apply elem_of_add_column; right). done.
Qed.

Lemma search_value_found d draw state district houseType :
  clean d → answerable d state district houseType →
  filter (mask state district houseType) (rows d) ≠ [] →
  let res := mkFrame (columns d) (filter (mask state district houseType) (rows d)) in
  let ddf := mkFrame (columns d) (filter (district_mask state district) (rows d)) in
  ∃ xm tr top dist md,
    median (Rent_Price <$> rows res) = Some xm
    ∧ max_of (Rent_Price <$> rows res) = Some top
    ∧ histogram (dropna_values (Rent_Price <$> rows res)) (int_of top) = Return dist
    ∧ map_value res draw = Return md
    ∧ trend_value to_datetime res = Return tr
    ∧ search_value to_datetime d draw state district houseType =
        Return (IsFound (mkFound
          (district +:+ ", " +:+ state) (int_of xm) (int_of xm * 3)
          (md_center md) (md_points md) (md_min md) (md_max md)
          (features_of res) (length (rows res))
          (sorted by_medianRent
             (concat (entries_of houseType (int_of xm)
                        <$> groupby_median str_le Standard_Type (rows ddf))))
          tr dist)).
Proof.
  intros [Hcols Hrows] (Hlat & Hlng & Htop) Hne res ddf.
  apply Forall_cons in Hcols as [Hs Hcols].
  apply Forall_cons in Hcols as [Hd Hcols].
  apply Forall_cons in Hcols as [Ht Hcols].
  apply Forall_cons in Hcols as [Hp _].
  assert (Forall priced (rows d)) as Hpriced
    by (eapply Forall_impl; [exact Hrows|apply complete_priced]).
  assert (Forall priced (rows res)) as Hpres by (by apply Forall_filter_rows).
  destruct (median_is_Some (Rent_Price <$> rows res)) as [xm Hxm];
    [by apply priced_values|].
  destruct (price_distribution_Return res) as (top & dist & Hmax & Hhist & Hdist);
    [done..|].
  destruct (map_value_Return res draw) as (md & Hmd & _); [done..|].
  destruct (trend_value_Return res) as [tr Htr]; [done..|].
  exists xm, tr, top, dist, md. split_and!; [done..|].
  unfold search_value. fold res ddf.
  rewrite require_columns_Return by (by repeat constructor).
  cbn [mbind outcome_bind]. rewrite decide_False by done.
  unfold median_rent_of. rewrite require_columns_Return by (by repeat constructor).
  cbn [mbind outcome_bind]. rewrite Hxm. cbn [int mbind outcome_bind].
  rewrite require_columns_Return by (by repeat constructor).
  cbn [mbind outcome_bind].
  rewrite comparison_of_Return; [|done|done|by apply Forall_filter_rows].
  cbn [mbind outcome_bind]. rewrite Htr. cbn [mbind outcome_bind].
  rewrite Hdist. cbn [mbind outcome_bind]. rewrite Hmd. done.
Qed.
End found.

Section loading.
Context (str_dtype : bool).

Lemma add_column_elem c cols : c ∈ cols → add_column c cols = cols.
Proof. intros H. unfold add_column. by rewrite decide_True. Qed.

Lemma load_data_run csv w :
  Forall (λ c, c ∈ columns csv) required →
  load_data str_dtype csv w = (Return (), loaded_world str_dtype csv w).
Proof.
  intros Hcols.
  assert ("Rent Price" ∈ columns csv ∧ "State" ∈ columns csv
          ∧ "District" ∈ columns csv ∧ "Standard Type" ∈ columns csv)
    as (Hp & Hs & Hd & Ht).
  { unfold required in Hcols. rewrite !Forall_cons in Hcols. tauto. }
  unfold load_data.
  unfold bind at 1, new_frame at 1.
  unfold bind at 1, get_globals at 1. cbn [globals].
  unfold bind at 1, set_globals at 1. cbn [globals heap random_state].
  set (g := mkGlobals (Some (length (heap w))) (all_property_types (globals w))
              (location_tree (globals w))).
  set (w0 := mkWorld g (heap w) (random_state w)).
  set (f0 := mkFrame (columns csv) _).
  change (mkWorld g (heap w ++ [f0]) (random_state w)) with (alloc w0 f0).
  change (length (heap w)) with (length (heap w0)).
  do 4 (erewrite bind_run; [|by apply (setitem_alloc w0); repeat constructor];
        cbn [columns rows]; rewrite add_column_elem by done).
  erewrite bind_run;
    [|by apply (dropna_inplace_alloc w0); cbn [columns]; apply Hcols].
  cbn [columns rows].
  erewrite bind_run; [|by apply frame_run, (lookup_alloc w0)].
  unfold bind, get_globals, set_globals. cbn.
  rewrite list_fmap_id, <-!list_fmap_compose.
  done.
Qed.
End loading.

(** ** The location tree *)

Lemma lookup2_insert tree s d v S D :
  lookup2 (<[s := <[d := v]> (default ∅ (tree !! s))]> tree) S D =
    if decide ((S, D) = (s, d)) then Some v else lookup2 tree S D.
Proof.
  unfold lookup2. destruct (decide (S = s)) as [->|HS].
  - rewrite lookup_insert_eq. simpl. destruct (decide (D = d)) as [->|HD].
    + rewrite lookup_insert_eq. by rewrite decide_True.
    + rewrite lookup_insert_ne by done. rewrite decide_False by congruence.
      destruct (tree !! s); simpl; [done|apply lookup_empty].
  - rewrite lookup_insert_ne by done. by rewrite decide_False by congruence.
Qed.

Lemma build_tree_snoc grouped s d types :
  build_tree (grouped ++ [((s, d), types)]) =
    <[s := <[d := sorted str_le (dropna_values types)]>
             (default ∅ (build_tree grouped !! s))]> (build_tree grouped).
Proof. unfold build_tree. by rewrite foldl_snoc. Qed.

Lemma build_tree_lookup grouped S D tys :
  lookup2 (build_tree grouped) S D = Some tys →
  ∃ types, ((S, D), types) ∈ grouped ∧ tys = sorted str_le (dropna_values types).
Proof.
  induction grouped as [|[[s d] types] grouped IH] using rev_ind.
  - unfold build_tree, lookup2. simpl. by rewrite lookup_empty.
  - rewrite build_tree_snoc, lookup2_insert. case_decide as Heq.
    + intros [= <-]. injection Heq as -> ->. exists types.
      split; [|done]. apply elem_of_app. right. by left.
    + intros (types' & Hin & ->)%IH. exists types'. split; [|done].
      apply elem_of_app. by left.
Qed.

Lemma build_tree_lookup_2 grouped S D types :
  NoDup grouped.*1 → ((S, D), types) ∈ grouped →
  lookup2 (build_tree grouped) S D = Some (sorted str_le (dropna_values types)).
Proof.
  induction grouped as [|[[s d] types'] grouped IH] using rev_ind.
  - by intros _ ?%elem_of_nil.
  - rewrite fmap_app, NoDup_app. intros (Hnd & Hfresh & _).
    rewrite build_tree_snoc, lookup2_insert.
    intros [Hin|Hin%list_elem_of_singleton]%elem_of_app.
    + rewrite decide_False; [by apply IH|].
      intros [= -> ->]. eapply Hfresh; [|by left].
      apply list_elem_of_fmap. by exists ((s, d), types).
    + injection Hin as -> -> ->. by rewrite decide_True.
Qed.

Lemma elem_of_groupby_unique k types rs :
  (k, types) ∈ groupby_unique rs ↔
    (∃ r, r ∈ rs ∧ state_district r = Some k)
    ∧ types = unique (Standard_Type <$> filter (λ r, state_district r = Some k) rs).
Proof.
  unfold groupby_unique. rewrite list_elem_of_fmap. split.
  - intros (k' & [= -> ->] & Hk). split; [|done].
    apply elem_of_sorted, elem_of_unique, elem_of_dropna_values in Hk.
    apply list_elem_of_fmap in Hk as (r & Hr & Hin). by exists r.
  - intros [(r & Hin & Hr) ->]. exists k. split; [done|].
    apply elem_of_sorted, elem_of_unique, elem_of_dropna_values.
    apply list_elem_of_fmap. by exists r.
Qed.

Lemma NoDup_groupby_unique rs : NoDup (groupby_unique rs).*1.
Proof.
  unfold groupby_unique. rewrite <-list_fmap_compose.
  rewrite (list_fmap_ext _ id) by done. rewrite list_fmap_id.
  apply NoDup_sorted, NoDup_unique.
Qed.

Lemma state_district_Some r S D :
  state_district r = Some (S, D) ↔ State r = Some S ∧ District r = Some D.
Proof.
  unfold state_district.
  destruct (State r) as [s|], (District r) as [d|]; split;
    try (by intros [= -> ->]); try (by intros [[= ->] [= ->]]);
    try (by intros [? ?]); done.
Qed.

(** The tree holds, for a pair of state and district, the types of the
    rows of that pair: sorted and without repetition. *)
Lemma location_tree_lookup rs S D tys :
  lookup2 (build_tree (groupby_unique rs)) S D = Some tys ↔
    (∃ r, r ∈ rs ∧ State r = Some S ∧ District r = Some D)
    ∧ tys = sorted str_le (dropna_values (unique
              (Standard_Type <$> filter (λ r, state_district r = Some (S, D)) rs))).
Proof.
  split.
  - intros (types & [(r & Hin & Hr) ->]%elem_of_groupby_unique & ->)%build_tree_lookup.
    split; [|done]. exists r. by apply state_district_Some in Hr as [? ?].
  - intros [(r & Hin & HS & HD) ->].
    apply build_tree_lookup_2; [apply NoDup_groupby_unique|].
    apply elem_of_groupby_unique. split; [|done].
    exists r. split; [done|]. by apply state_district_Some.
Qed.

Lemma elem_of_location_types rs S D T :
  T ∈ sorted str_le (dropna_values (unique
        (Standard_Type <$> filter (λ r, state_district r = Some (S, D)) rs))) ↔
  ∃ r, r ∈ rs ∧ State r = Some S ∧ District r = Some D ∧ Standard_Type r = Some T.
Proof.
  rewrite elem_of_sorted, elem_of_dropna_values, elem_of_unique, list_elem_of_fmap.
  split.
  - intros (r & HT & [Hr Hin]%list_elem_of_filter).
    apply state_district_Some in Hr as [? ?]. by exists r.
  - intros (r & Hin & HS & HD & HT). exists r. split; [done|].
    apply list_elem_of_filter. split; [|done]. by apply state_district_Some.
Qed.

Lemma NoDup_dropna_values {A} (s : list (option A)) : NoDup s → NoDup (dropna_values s).
Proof.
  induction 1 as [|o s Ho _ IH]; [constructor|].
  unfold dropna_values in *. destruct o as [x|]; simpl; [|done].
  constructor; [|done]. intros Hx. apply Ho. by apply elem_of_dropna_values.
Qed.

Section claims.
Context (to_datetime : string → option Timestamp).

Lemma search_rentals_found w d state district houseType :
  loaded w d → answerable d state district houseType →
  filter (mask state district houseType) (rows d) ≠ [] →
  let res := mkFrame (columns d) (filter (mask state district houseType) (rows d)) in
  let ddf := mkFrame (columns d) (filter (district_mask state district) (rows d)) in
  ∃ xm tr top dist md w',
    median (Rent_Price <$> rows res) = Some xm
    ∧ max_of (Rent_Price <$> rows res) = Some top
    ∧ histogram (dropna_values (Rent_Price <$> rows res)) (int_of top) = Return dist
    ∧ map_value res (random_state w) = Return md
    ∧ trend_value to_datetime res = Return tr
    ∧ extends w w'
    ∧ search_rentals to_datetime state district houseType w =
        (Return (IsFound (mkFound
          (district +:+ ", " +:+ state) (int_of xm) (int_of xm * 3)
          (md_center md) (md_points md) (md_min md) (md_max md)
          (features_of res) (length (rows res))
          (sorted by_medianRent
             (concat (entries_of houseType (int_of xm)
                        <$> groupby_median str_le Standard_Type (rows ddf))))
          tr dist)), w').
Proof.
  intros [Hw Hclean] Hans Hne res ddf.
  destruct (search_value_found to_datetime d (random_state w) _ _ _ Hclean Hans Hne)
    as (xm & tr & top & dist & md & Hxm & Htop & Hdist & Hmd & Htr & Hval).
  destruct (search_rentals_run to_datetime w d state district houseType Hw)
    as (w' & Hrun & Hext).
  exists xm, tr, top, dist, md, w'. split_and!; try done.
  by rewrite Hrun, Hval.
Qed.

(** C1. For a non-empty selection whose rents are float64 values
    [search_rentals] answers, and [medianRent] is the median of the
    selected rents truncated to an integer: with the rents in ascending
    order [v], the middle one when their number is odd; when it is even,
    the mean of the two in the middle, provided that their sum is a
    float64 value, so that the float64 addition of numpy's median does
    not round it (halving a float64 value is exact, except below the
    least normal number, where the half and the rounded half both
    truncate to 0).  Two snapshots whose selections are reorderings of
    each other give the same [medianRent]. *)
Theorem medianRent_is_truncated_median w d state district houseType :
  loaded w d → answerable d state district houseType →
  filter (mask state district houseType) (rows d) ≠ [] →
  (∀ x, x ∈ dropna_values
              (Rent_Price <$> filter (mask state district houseType) (rows d)) →
        float64 x) →
  ∃ r w',
    search_rentals to_datetime state district houseType w = (Return (IsFound r), w')
    ∧ (∀ v, Sorted Qcle v →
         v ≡ₚ dropna_values (Rent_Price <$> filter (mask state district houseType) (rows d)) →
         (Nat.odd (length v) = true →
            ∃ x, v !! (length v / 2)%nat = Some x ∧ medianRent r = int_of x)
         ∧ (Nat.odd (length v) = false →
            ∃ a b, v !! (length v / 2 - 1)%nat = Some a
                   ∧ v !! (length v / 2)%nat = Some b
                   ∧ (float64 (a + b)%Qc →
                      medianRent r = int_of ((a + b) / of_Z 2)%Qc)))
    ∧ (∀ w2 d2, loaded w2 d2 → answerable d2 state district houseType →
         filter (mask state district houseType) (rows d2)
           ≡ₚ filter (mask state district houseType) (rows d) →
         ∃ r2 w2',
           search_rentals to_datetime state district houseType w2
             = (Return (IsFound r2), w2')
           ∧ medianRent r2 = medianRent r).
Proof.
  intros Hw Hans Hne _.
  destruct (search_rentals_found w d _ _ _ Hw Hans Hne)
    as (xm & tr & top & dist & md & w' & Hxm & _ & _ & _ & _ & _ & Hrun).
  cbn [rows] in Hxm.
  eexists _, w'. split; [exact Hrun|]. cbn [medianRent]. split.
  - intros v Hsorted Hperm.
    assert (v ≠ []) as Hv.
    { intros ->. apply Permutation_nil_l in Hperm.
      destruct Hw as [_ [_ Hrows]].
      eapply priced_values; [|exact Hne|done].
      apply Forall_filter_rows. eapply Forall_impl; [exact Hrows|apply complete_priced]. }
    destruct (median_spec _ v Hsorted Hperm Hv) as [Hodd Heven]. split.
    + intros Ho. exists xm. split; [|done]. etrans; [symmetry; by apply Hodd|exact Hxm].
    + intros He. destruct (Heven He) as (a & b & Ha & Hb & Hm).
      exists a, b. split_and!; [done..|]. intros _.
      assert (Some xm = Some ((a + b) / of_Z 2)%Qc) as [= ->]
        by (etrans; [symmetry; exact Hxm|exact Hm]).
      done.
  - intros w2 d2 Hw2 Hans2 Hperm.
    assert (filter (mask state district houseType) (rows d2) ≠ []) as Hne2.
    { intros Hnil. rewrite Hnil in Hperm. by apply Permutation_nil_l in Hperm. }
    destruct (search_rentals_found w2 d2 _ _ _ Hw2 Hans2 Hne2)
      as (xm2 & tr2 & top2 & dist2 & md2 & w2' & Hxm2 & _ & _ & _ & _ & _ & Hrun2).
    cbn [rows] in Hxm2.
    eexists _, w2'. split; [exact Hrun2|]. cbn [medianRent].
    rewrite (median_Permutation _ (Rent_Price <$> filter (mask state district houseType) (rows d)))
      in Hxm2 by (by rewrite Hperm).
    assert (Some xm2 = Some xm) as [= ->]
      by (etrans; [symmetry; exact Hxm2|exact Hxm]).
    done.
Qed.


Lemma found_map w d state district houseType :
  loaded w d → answerable d state district houseType →
  filter (mask state district houseType) (rows d) ≠ [] →
  let sel := filter (mask state district houseType) (rows d) in
  ∃ r w',
    search_rentals to_datetime state district houseType w = (Return (IsFound r), w')
    ∧ points r = point_of <$> plotted (random_state w) sel
    ∧ (with_coordinates sel ≠ [] →
         ∃ lo hi, min_of (Rent_Price <$> with_coordinates sel) = Some lo
                ∧ max_of (Rent_Price <$> with_coordinates sel) = Some hi
                ∧ mapMin r = int_of lo ∧ mapMax r = int_of hi).
Proof.
  intros Hw Hans Hne sel.
  destruct (search_rentals_found w d _ _ _ Hw Hans Hne)
    as (xm & tr & top & dist & md & w' & _ & _ & _ & Hmd & _ & _ & Hrun).
  destruct Hw as [_ [Hcols Hrows]]. destruct Hans as (Hlat & Hlng & _).
  destruct (map_value_Return
    (mkFrame (columns d) (filter (mask state district houseType) (rows d)))
    (random_state w)) as (md' & Hmd' & Hpoints & _ & Hbounds); [done..| | |].
  { rewrite !Forall_cons in Hcols. tauto. }
  { apply Forall_filter_rows. eapply Forall_impl; [exact Hrows|apply complete_priced]. }
  rewrite Hmd in Hmd'. injection Hmd' as <-.
  eexists _, w'. split; [exact Hrun|]. cbn [points mapMin mapMax]. by split.
Qed.

(** C5. The number of points is the number of selected rows that have
    both coordinates, capped at 2000. *)
Theorem points_length w d state district houseType :
  loaded w d → answerable d state district houseType →
  filter (mask state district houseType) (rows d) ≠ [] →
  ∃ r w',
    search_rentals to_datetime state district houseType w = (Return (IsFound r), w')
    ∧ length (points r)
      = Nat.min (length (with_coordinates
                   (filter (mask state district houseType) (rows d)))) 2000.
Proof.
  intros Hw Hans Hne.
  destruct (found_map w d _ _ _ Hw Hans Hne) as (r & w' & Hrun & Hpoints & _).
  exists r, w'. split; [done|]. rewrite Hpoints, length_fmap. unfold plotted.
  case_decide.
  - rewrite sample_rows_length by lia. lia.
  - lia.
Qed.

(** C6, as it holds: [mapMin] and [mapMax] are the least and the
    greatest rent of all selected rows with coordinates, each truncated
    to an integer; every point carries a rent between that least and
    that greatest rent, and so its truncated rent lies between [mapMin]
    and [mapMax]. *)
Theorem map_bounds_are_truncated w d state district houseType :
  loaded w d → answerable d state district houseType →
  filter (mask state district houseType) (rows d) ≠ [] →
  with_coordinates (filter (mask state district houseType) (rows d)) ≠ [] →
  ∃ r w' lo hi,
    search_rentals to_datetime state district houseType w = (Return (IsFound r), w')
    ∧ min_of (Rent_Price <$> with_coordinates
                (filter (mask state district houseType) (rows d))) = Some lo
    ∧ max_of (Rent_Price <$> with_coordinates
                (filter (mask state district houseType) (rows d))) = Some hi
    ∧ mapMin r = int_of lo ∧ mapMax r = int_of hi
    ∧ ∀ lat lng c, (lat, lng, c) ∈ points r →
        ∃ x, c = Some x ∧ (lo ≤ x ≤ hi)%Qc ∧ mapMin r ≤ int_of x ≤ mapMax r.
Proof.
  intros Hw Hans Hne Hcoord.
  destruct (found_map w d _ _ _ Hw Hans Hne) as (r & w' & Hrun & Hpoints & Hbounds).
  destruct (Hbounds Hcoord) as (lo & hi & Hlo & Hhi & Hmin & Hmax).
  exists r, w', lo, hi. split_and!; [done..|].
  intros lat lng c. rewrite Hpoints.
  intros (row & [= -> -> ->] & Hrow)%list_elem_of_fmap.
  assert (row ∈ with_coordinates (filter (mask state district houseType) (rows d)))
    as Hin.
  { unfold plotted in Hrow. case_decide; [|done]. by eapply sample_rows_subseteq. }
  assert (priced row) as [x Hx].
  { destruct Hw as [_ [_ Hrows]]. rewrite Forall_forall in Hrows.
    apply complete_priced, Hrows.
    apply dropna_rows_subseteq in Hin. by apply list_elem_of_filter in Hin as [_ ?]. }
  exists x. split; [done|].
  assert (Some x ∈ Rent_Price <$> with_coordinates
            (filter (mask state district houseType) (rows d))) as Hxin.
  { apply list_elem_of_fmap. by exists row. }
  apply min_of_Some in Hlo as [_ Hlo]. apply max_of_Some in Hhi as [_ Hhi].
  assert (lo ≤ x)%Qc as Hlox by (by apply Hlo).
  assert (x ≤ hi)%Qc as Hxhi by (by apply Hhi).
  split; [done|]. rewrite Hmin, Hmax. split; by apply int_of_mono.
Qed.

(** C8. When no row matches, [search_rentals] answers that nothing was
    found, and all it has done is to build the empty selection: the
    heap holds that one frame more and the random state is untouched. *)
Theorem no_match_is_NotFound w d state district houseType :
  loaded w d →
  filter (mask state district houseType) (rows d) = [] →
  search_rentals to_datetime state district houseType w
    = (Return NotFound, alloc w (mkFrame (columns d) [])).
Proof.
  intros [Hw [Hcols _]] Hnil. unfold snapshot_frame in Hw.
  destruct (df (globals w)) as [l|] eqn:Hl; [|done]. simpl in Hw.
  unfold search_rentals. unfold bind at 1, get_globals at 1. rewrite Hl.
  unfold bind at 1. rewrite (getitem_mask_run _ _ _ _ _ Hw).
  rewrite require_columns_Return
    by (rewrite !Forall_cons in Hcols; repeat constructor; tauto).
  rewrite Hnil.
  rewrite (bind_run _ _ _ _ _ (frame_run _ _ _ (lookup_alloc _ _))).
  by rewrite decide_True.
Qed.

(** C9. A search leaves the snapshot as it was: the globals are the
    same, and every frame of the heap, the one that [df] refers to among
    them, is unchanged; the search only adds frames of its own. *)
Theorem search_preserves_snapshot w state district houseType :
  snapshot (search_rentals to_datetime state district houseType w).2 = snapshot w
  ∧ extends w (search_rentals to_datetime state district houseType w).2.
Proof.
  destruct (snapshot_frame w) as [d|] eqn:Hd.
  - destruct (search_rentals_run to_datetime w d state district houseType Hd)
      as (w' & -> & Hext). split; [|done]. cbn [snd].
    unfold snapshot, snapshot_frame in *. destruct Hext as [Hg Hpre]. rewrite Hg.
    destruct (df (globals w)) as [l|]; [|done]. simpl in *.
    destruct Hpre as [k Hk]. rewrite Hk, (lookup_app_l_Some _ _ _ _ Hd), Hd. done.
  - assert ((search_rentals to_datetime state district houseType w).2 = w) as ->;
      [|split; [done|apply extends_refl]].
    unfold snapshot_frame in Hd. unfold search_rentals.
    unfold bind at 1, get_globals at 1.
    destruct (df (globals w)) as [l|]; [|done]. simpl in Hd.
    unfold bind at 1, getitem_mask, bind at 1, frame. by rewrite Hd.
Qed.
End claims.

Lemma map_value_draw res draw1 draw2 :
  match map_value res draw1, map_value res draw2 with
  | Return m1, Return m2 =>
      md_center m1 = md_center m2 ∧ md_min m1 = md_min m2 ∧ md_max m1 = md_max m2
      ∧ ((length (with_coordinates (rows res)) ≤ 2000)%nat → m1 = m2)
  | Raise e1, Raise e2 => e1 = e2
  | _, _ => False
  end.
Proof.
  unfold map_value, with_coordinates.
  destruct (require_columns res _) as [[]|e]; cbn [mbind outcome_bind]; [|done].
  cbn [rows]. case_decide; [done|].
  destruct (map_bounds _) as [bounds|e]; cbn [mbind outcome_bind]; [|done].
  cbn [md_center md_min md_max]. split_and!; [done..|].
  intros Hlen. by rewrite !decide_False by lia.
Qed.

Section determinism.
Context (to_datetime : string → option Timestamp).

Lemma search_value_draw d draw1 draw2 state district houseType :
  without_points (search_value to_datetime d draw1 state district houseType)
    = without_points (search_value to_datetime d draw2 state district houseType)
  ∧ ((length (with_coordinates (filter (mask state district houseType) (rows d)))
        ≤ 2000)%nat →
     search_value to_datetime d draw1 state district houseType
       = search_value to_datetime d draw2 state district houseType).
Proof.
  unfold search_value.
  destruct (require_columns d _) as [[]|e]; cbn [mbind outcome_bind]; [|done].
  cbn [rows]. case_decide; [done|].
  destruct (median_rent_of _) as [median_rent|e]; cbn [mbind outcome_bind]; [|done].
  destruct (require_columns d _) as [[]|e]; cbn [mbind outcome_bind]; [|done].
  destruct (comparison_of _ _ _) as [comparison_list|e]; cbn [mbind outcome_bind];
    [|done].
  destruct (trend_value _ _) as [trend_data|e]; cbn [mbind outcome_bind]; [|done].
  destruct (price_distribution _) as [distribution_data|e];
    cbn [mbind outcome_bind]; [|done].
  pose proof (map_value_draw
    (mkFrame (columns d) (filter (mask state district houseType) (rows d)))
    draw1 draw2) as Hmap.
  destruct (map_value _ draw1) as [m1|e1], (map_value _ draw2) as [m2|e2];
    cbn [mbind outcome_bind]; try done.
  - destruct Hmap as (Hc & Hmin & Hmax & Hsame). cbn [without_points].
    cbn [location medianRent suitableIncome coordinates mapMin mapMax
         commonFeatures count comparison trends distribution].
    rewrite Hc, Hmin, Hmax. split; [done|].
    intros Hlen. by rewrite (Hsame Hlen).
  - by subst.
Qed.

(** C10. Two searches with the same arguments on the same snapshot
    return the same, whatever the random state and the rest of the heap,
    but for the points; and the same points too when at most 2000 of the
    selected rows have coordinates. *)
Theorem search_repeats_but_for_points w1 w2 d state district houseType :
  snapshot_frame w1 = Some d → snapshot_frame w2 = Some d →
  without_points (search_rentals to_datetime state district houseType w1).1
    = without_points (search_rentals to_datetime state district houseType w2).1
  ∧ ((length (with_coordinates (filter (mask state district houseType) (rows d)))
        ≤ 2000)%nat →
     (search_rentals to_datetime state district houseType w1).1
       = (search_rentals to_datetime state district houseType w2).1).
Proof.
  intros H1 H2.
  destruct (search_rentals_run to_datetime w1 d state district houseType H1)
    as (w1' & -> & _).
  destruct (search_rentals_run to_datetime w2 d state district houseType H2)
    as (w2' & -> & _).
  apply search_value_draw.
Qed.
End determinism.

Section loading_claims.
Context (str_dtype : bool).

Lemma dropna_required_complete r :
  forallb (λ c, negb (isna c r)) required = true → complete r.
Proof.
  unfold required. cbn [forallb].
  change (isna "Rent Price" r) with (bool_decide (Rent_Price r = None)).
  change (isna "State" r) with (bool_decide (State r = None)).
  change (isna "District" r) with (bool_decide (District r = None)).
  change (isna "Standard Type" r) with (bool_decide (Standard_Type r = None)).
  rewrite !andb_true_iff, !negb_true_iff, !bool_decide_eq_false.
  intros (Hp & Hs & Hd & Ht & _). unfold complete.
  rewrite <-!not_eq_None_Some. tauto.
Qed.

Lemma cleaned_clean csv :
  Forall (λ c, c ∈ columns csv) required → clean (cleaned str_dtype csv).
Proof.
  intros Hcols. split.
  - unfold required in Hcols. rewrite !Forall_cons in *. cbn [cleaned columns]. tauto.
  - apply Forall_forall. intros r [Hr _]%list_elem_of_filter.
    by apply dropna_required_complete.
Qed.

(** What [load_data] establishes. *)
Lemma load_data_loaded csv w :
  Forall (λ c, c ∈ columns csv) required →
  loaded (load_data str_dtype csv w).2 (cleaned str_dtype csv).
Proof.
  intros Hcols. rewrite load_data_run by done. split; [|by apply cleaned_clean].
  unfold snapshot_frame, loaded_world. simpl. by rewrite list_lookup_middle.
Qed.

(** C7. After [load_data], the location tree that [get_form_options]
    returns lists [T] under [S] and [D] exactly when a row of the
    snapshot has that state, district and type; the list found there is
    in ascending order and without repetition; and there is no entry
    for a state and district that no row has. *)
Theorem location_tree_matches_rows csv w S D T :
  Forall (λ c, c ∈ columns csv) required →
  ∃ opts d w',
    load_data str_dtype csv w = (Return (), w')
    ∧ snapshot_frame w' = Some d
    ∧ get_form_options w' = (Return opts, w')
    ∧ ((∃ types, lookup2 (options_location_tree opts) S D = Some types ∧ T ∈ types)
       ↔ ∃ r, r ∈ rows d ∧ State r = Some S ∧ District r = Some D
              ∧ Standard_Type r = Some T)
    ∧ (∀ types, lookup2 (options_location_tree opts) S D = Some types →
         Sorted str_le types ∧ NoDup types)
    ∧ ((¬ ∃ r, r ∈ rows d ∧ State r = Some S ∧ District r = Some D) →
         lookup2 (options_location_tree opts) S D = None).
Proof.
  intros Hcols.
  destruct (load_data_loaded csv w Hcols) as [Hd _].
  rewrite load_data_run in Hd |- * by done.
  eexists _, _, _. split; [done|]. split; [exact Hd|]. split; [done|].
  cbn [options_location_tree globals location_tree loaded_world].
  split_and!.
  - split.
    + intros (types & [_ ->]%location_tree_lookup & HT).
      by apply elem_of_location_types.
    + intros (r & Hin & HS & HD & HT). eexists. split.
      * apply location_tree_lookup. split; [|done]. by exists r.
      * apply elem_of_location_types. by exists r.
  - intros types [_ ->]%location_tree_lookup. split.
    + apply sorted_Sorted. apply _.
    + apply NoDup_sorted, NoDup_dropna_values, NoDup_unique.
  - intros Hnone.
    destruct (lookup2 _ S D) as [types|] eqn:Hl; [|done].
    apply location_tree_lookup in Hl as [Hr _]. by destruct Hnone.
Qed.
End loading_claims.

Example scenario :
  ∃ r, found_of (search_rentals no_dates "KL" "Ampang" "Condo" example_world).1 = Some r
       ∧ medianRent r = 1600 ∧ count r = 2%nat
       ∧ comparison r = [mkComparison "Studio" 1200 (-400)].
Proof. eexists. split; [vm_compute; reflexivity|]. by vm_compute. Qed.

Example scenario_nowhere :
  (search_rentals no_dates "Selangor" "Nowhere" "Condo" example_world).1 = Return NotFound.
Proof. vm_compute. reflexivity. Qed.

(** C3. A single listing at 1500: the selection has one rent, but the
    edges are 0, 500, 1000 and 1500, the last interval ends before 1500,
    and the distribution comes out empty. *)
Theorem rent_on_last_edge_is_not_counted (to_datetime : string → option Timestamp) :
  ∃ r, found_of (search_rentals to_datetime "KL" "Ampang" "Condo"
                   (load_data false edge_csv empty_world).2).1 = Some r
       ∧ count r = 1%nat
       ∧ range0 (1500 + 500) 500 = [0; 500; 1000; 1500]
       ∧ distribution r = []
       ∧ foldr Nat.add 0%nat (bin_count <$> distribution r) ≠ count r.
Proof.
  eexists. split; [vm_compute; reflexivity|]. by vm_compute.
Qed.

(** C2. [load_data] keeps a listing whose state is blank: the state is
    the empty text after [strip], which [dropna] does not take for a
    missing value, and a search for the empty state finds the listing.
    On an object column it also keeps a listing whose state is missing,
    under the state "nan". *)
Theorem blank_state_is_kept (to_datetime : string → option Timestamp) (str_dtype : bool) :
  (∃ d r found,
     snapshot_frame (load_data str_dtype blank_csv empty_world).2 = Some d
     ∧ r ∈ rows d ∧ State r = Some ""
     ∧ found_of (search_rentals to_datetime "" "Ampang" "Condo"
                   (load_data str_dtype blank_csv empty_world).2).1 = Some found
     ∧ count found = 1%nat)
  ∧ (∃ d r,
       snapshot_frame (load_data false missing_csv empty_world).2 = Some d
       ∧ r ∈ rows d ∧ State r = Some "nan").
Proof.
  split.
  - destruct str_dtype.
    + eexists _, _, _. split; [vm_compute; reflexivity|].
      split; [by left|]. split; [done|]. split; [vm_compute; reflexivity|]. done.
    + eexists _, _, _. split; [vm_compute; reflexivity|].
      split; [by left|]. split; [done|]. split; [vm_compute; reflexivity|]. done.
  - eexists _, _. split; [vm_compute; reflexivity|]. split; [by left|]. done.
Qed.

(** C6 as stated fails: a point whose rent is 1500.5 lies above [mapMax],
    which is 1500. *)
Lemma point_above_mapMax :
  ∃ r lat lng x,
    found_of (search_rentals no_dates "KL" "Ampang" "Condo"
                (load_data false fraction_csv empty_world).2).1 = Some r
    ∧ (lat, lng, Some x) ∈ points r
    ∧ mapMax r = 1500
    ∧ ¬ (x ≤ of_Z (mapMax r))%Qc.
Proof.
  eexists _, _, _, _. split; [vm_compute; reflexivity|].
  split; [by left|]. split; [done|]. vm_compute. intros H. by apply H.
Qed.

Lemma example_columns_required : Forall (λ c, c ∈ columns example_csv) required.
Proof. by_evaluation. Qed.

Lemma example_loaded : loaded example_world (cleaned false example_csv).
Proof. apply load_data_loaded, example_columns_required. Qed.

Lemma example_answerable houseType :
  houseType = "Condo" ∨ houseType = "Nowhere" →
  answerable (cleaned false example_csv) "KL" "Ampang" houseType.
Proof.
  intros Hq. split; [by_evaluation|]. split; [by_evaluation|].
  intros x Hx. destruct Hq as [-> | ->]; vm_compute in Hx; [|done].
  injection Hx as <-. by vm_compute.
Qed.

Lemma example_selection :
  filter (mask "KL" "Ampang" "Condo") (rows (cleaned false example_csv)) ≠ [].
Proof. by vm_compute. Qed.

Lemma fraction_loaded : loaded fraction_world fraction_frame.
Proof. apply load_data_loaded. by_evaluation. Qed.

Lemma fraction_answerable : answerable fraction_frame "KL" "Ampang" "Condo".
Proof.
  split; [by_evaluation|]. split; [by_evaluation|].
  intros x Hx. vm_compute in Hx. injection Hx as <-. by vm_compute.
Qed.

Lemma fraction_selection :
  filter (mask "KL" "Ampang" "Condo") (rows fraction_frame) ≠ [].
Proof. by vm_compute. Qed.

Lemma fraction_coordinates :
  with_coordinates (filter (mask "KL" "Ampang" "Condo") (rows fraction_frame)) ≠ [].
Proof. by vm_compute. Qed.

Lemma uneven_loaded : loaded uneven_world uneven_frame.
Proof. apply load_data_loaded. by_evaluation. Qed.

Lemma uneven_answerable : answerable uneven_frame "KL" "Ampang" "Condo".
Proof.
  split; [by_evaluation|]. split; [by_evaluation|].
  intros x Hx. vm_compute in Hx. injection Hx as <-. by vm_compute.
Qed.

Lemma uneven_selection :
  filter (mask "KL" "Ampang" "Condo") (rows uneven_frame) ≠ [].
Proof. by vm_compute. Qed.

(** A whole number below 2^53 is a float64 value. *)
Lemma float64_of_Z m : Z.abs m < 2 ^ 53 → float64 (of_Z m).
Proof.
  intros Hm. exists m, 0. split; [exact Hm|]. split; [lia|].
  change (Q2Qc (Qpower 2 0)) with 1%Qc. by rewrite Qcmult_1_r.
Qed.

Lemma uneven_rents :
  dropna_values (Rent_Price <$> filter (mask "KL" "Ampang" "Condo") (rows uneven_frame))
  = [of_Z 1500; of_Z 1701].
Proof. vm_compute. reflexivity. Qed.

(** C1 on two condominiums at 1500 and 1701: both rents and their sum
    3201 are float64 values, the median is 1600.5 and [medianRent] is
    1600. *)
Lemma medianRent_is_truncated_median_witness :
  loaded uneven_world uneven_frame
  ∧ answerable uneven_frame "KL" "Ampang" "Condo"
  ∧ filter (mask "KL" "Ampang" "Condo") (rows uneven_frame) ≠ []
  ∧ (∀ x, x ∈ dropna_values
                (Rent_Price <$> filter (mask "KL" "Ampang" "Condo") (rows uneven_frame)) →
          float64 x)
  ∧ float64 (of_Z 1500 + of_Z 1701)%Qc
  ∧ ∃ r w',
      search_rentals no_dates "KL" "Ampang" "Condo" uneven_world
        = (Return (IsFound r), w')
      ∧ medianRent r = 1600.
Proof.
  assert (∀ x, x ∈ dropna_values
                 (Rent_Price <$> filter (mask "KL" "Ampang" "Condo") (rows uneven_frame)) →
           float64 x) as Hrents.
  { rewrite uneven_rents. intros x Hx.
    apply elem_of_cons in Hx as [->|Hx]; [apply float64_of_Z; lia|].
    apply elem_of_cons in Hx as [->|Hx]; [apply float64_of_Z; lia|].
    by apply elem_of_nil in Hx. }
  assert (float64 (of_Z 1500 + of_Z 1701)%Qc) as Hsum.
  { replace (of_Z 1500 + of_Z 1701)%Qc with (of_Z 3201) by (by apply Qc_is_canon).
    apply float64_of_Z. lia. }
  split; [exact uneven_loaded|]. split; [exact uneven_answerable|].
  split; [exact uneven_selection|]. split; [exact Hrents|]. split; [exact Hsum|].
  destruct (medianRent_is_truncated_median no_dates uneven_world uneven_frame
              "KL" "Ampang" "Condo" uneven_loaded uneven_answerable uneven_selection
              Hrents)
    as (r & w' & Hrun & Hmed & _).
  exists r, w'. split; [exact Hrun|].
  destruct (Hmed [of_Z 1500; of_Z 1701]) as [_ Heven].
  - repeat constructor. by vm_compute.
  - vm_compute. reflexivity.
  - destruct (Heven eq_refl) as (a & b & Ha & Hb & Hm).
    injection Ha as <-. injection Hb as <-. rewrite (Hm Hsum). vm_compute. reflexivity.
Defined.


(** C5 on the three listings: one selected row has coordinates. *)
Lemma points_length_witness :
  loaded example_world example_frame
  ∧ answerable example_frame "KL" "Ampang" "Condo"
  ∧ filter (mask "KL" "Ampang" "Condo") (rows example_frame) ≠ []
  ∧ ∃ r w',
      search_rentals no_dates "KL" "Ampang" "Condo" example_world
        = (Return (IsFound r), w')
      ∧ length (points r) = 1%nat.
Proof.
  split; [exact example_loaded|].
  split; [exact (example_answerable "Condo" (or_introl eq_refl))|].
  split; [exact example_selection|].
  destruct (points_length no_dates example_world example_frame
              "KL" "Ampang" "Condo" example_loaded
              (example_answerable "Condo" (or_introl eq_refl)) example_selection)
    as (r & w' & Hrun & Hlen).
  exists r, w'. split; [exact Hrun|]. rewrite Hlen. vm_compute. reflexivity.
Defined.

(** C6, as it holds, on the listing at 1500.5: both bounds are 1500. *)
Lemma map_bounds_are_truncated_witness :
  loaded fraction_world fraction_frame
  ∧ answerable fraction_frame "KL" "Ampang" "Condo"
  ∧ filter (mask "KL" "Ampang" "Condo") (rows fraction_frame) ≠ []
  ∧ with_coordinates (filter (mask "KL" "Ampang" "Condo") (rows fraction_frame)) ≠ []
  ∧ ∃ r w',
      search_rentals no_dates "KL" "Ampang" "Condo" fraction_world
        = (Return (IsFound r), w')
      ∧ mapMin r = 1500 ∧ mapMax r = 1500
      ∧ ∀ lat lng c, (lat, lng, c) ∈ points r →
          ∃ x, c = Some x ∧ mapMin r ≤ int_of x ≤ mapMax r.
Proof.
  split; [exact fraction_loaded|]. split; [exact fraction_answerable|].
  split; [exact fraction_selection|]. split; [exact fraction_coordinates|].
  destruct (map_bounds_are_truncated no_dates fraction_world fraction_frame
              "KL" "Ampang" "Condo" fraction_loaded fraction_answerable
              fraction_selection fraction_coordinates)
    as (r & w' & lo & hi & Hrun & Hlo & Hhi & Hmin & Hmax & Hpoints).
  exists r, w'. split; [exact Hrun|].
  vm_compute in Hlo. injection Hlo as <-. vm_compute in Hhi. injection Hhi as <-.
  split; [rewrite Hmin; vm_compute; reflexivity|].
  split; [rewrite Hmax; vm_compute; reflexivity|].
  intros lat lng c Hin. destruct (Hpoints lat lng c Hin) as (x & Hc & _ & Hx).
  exists x. split; [exact Hc|exact Hx].
Defined.

(** C7 on the three listings. *)
Lemma location_tree_matches_rows_witness :
  Forall (λ c, c ∈ columns example_csv) required
  ∧ ∃ opts d w',
      load_data false example_csv empty_world = (Return (), w')
      ∧ snapshot_frame w' = Some d
      ∧ get_form_options w' = (Return opts, w')
      ∧ ((∃ types, lookup2 (options_location_tree opts) "KL" "Ampang" = Some types
                   ∧ "Condo" ∈ types)
         ↔ ∃ r, r ∈ rows d ∧ State r = Some "KL" ∧ District r = Some "Ampang"
                ∧ Standard_Type r = Some "Condo")
      ∧ (∀ types, lookup2 (options_location_tree opts) "KL" "Ampang" = Some types →
           Sorted str_le types ∧ NoDup types)
      ∧ ((¬ ∃ r, r ∈ rows d ∧ State r = Some "KL" ∧ District r = Some "Ampang") →
           lookup2 (options_location_tree opts) "KL" "Ampang" = None).
Proof.
  split; [exact example_columns_required|].
  exact (location_tree_matches_rows false example_csv empty_world
           "KL" "Ampang" "Condo" example_columns_required).
Defined.

(** C8 on the three listings, for a district that none of them has. *)
Lemma no_match_is_NotFound_witness :
  loaded example_world example_frame
  ∧ filter (mask "Selangor" "Nowhere" "Condo") (rows example_frame) = []
  ∧ search_rentals no_dates "Selangor" "Nowhere" "Condo" example_world
    = (Return NotFound, alloc example_world (mkFrame (columns example_frame) [])).
Proof.
  split; [exact example_loaded|].
  assert (filter (mask "Selangor" "Nowhere" "Condo") (rows example_frame) = [])
    as Hnone by (vm_compute; reflexivity).
  split; [exact Hnone|].
  exact (no_match_is_NotFound no_dates example_world example_frame
           "Selangor" "Nowhere" "Condo" example_loaded Hnone).
Defined.

(** C10 for a search and the same search run again after it. *)
Lemma search_repeats_but_for_points_witness :
  snapshot_frame example_world = Some example_frame
  ∧ snapshot_frame world_after_search = Some example_frame
  ∧ without_points (search_rentals no_dates "KL" "Ampang" "Condo" example_world).1
    = without_points (search_rentals no_dates "KL" "Ampang" "Condo" world_after_search).1
  ∧ (search_rentals no_dates "KL" "Ampang" "Condo" example_world).1
    = (search_rentals no_dates "KL" "Ampang" "Condo" world_after_search).1.
Proof.
  assert (snapshot_frame example_world = Some example_frame) as H1
    by (vm_compute; reflexivity).
  assert (snapshot_frame world_after_search = Some example_frame) as H2
    by (vm_compute; reflexivity).
  split; [exact H1|]. split; [exact H2|].
  destruct (search_repeats_but_for_points no_dates example_world world_after_search
              example_frame "KL" "Ampang" "Condo" H1 H2) as [Hsame Hall].
  split; [exact Hsame|]. apply Hall. vm_compute. lia.
Defined.

(** * Further properties *)

(** ** More on what a search returns *)

Section outcomes.
Context (to_datetime : string → option Timestamp).

(** What [search_value] can return: nothing found for an empty selection,
    and otherwise the response assembled from the steps, each of which has
    returned. *)
Lemma search_value_inv d draw state district houseType resp :
  search_value to_datetime d draw state district houseType = Return resp →
  let res := mkFrame (columns d) (filter (mask state district houseType) (rows d)) in
  let ddf := mkFrame (columns d) (filter (district_mask state district) (rows d)) in
  (rows res = [] ∧ resp = NotFound)
  ∨ (rows res ≠ []
     ∧ ∃ m cmp tr dist md,
         median_rent_of res = Return m
         ∧ comparison_of ddf houseType m = Return cmp
         ∧ trend_value to_datetime res = Return tr
         ∧ price_distribution res = Return dist
         ∧ map_value res draw = Return md
         ∧ resp = IsFound (mkFound (district +:+ ", " +:+ state) m (m * 3)
                    (md_center md) (md_points md) (md_min md) (md_max md)
                    (features_of res) (length (rows res)) cmp tr dist)).
Proof.
  intros Hval res ddf. revert Hval. unfold search_value. fold res ddf.
  destruct (require_columns d ["State"; "District"; "Standard Type"]) as [[]|e];
    cbn [mbind outcome_bind]; [|done].
  destruct (decide (rows res = [])) as [Hnil|Hne].
  - intros [= <-]. by left.
  - intros Hval. right. split; [done|]. revert Hval.
    destruct (median_rent_of res) as [m|e]; cbn [mbind outcome_bind]; [|done].
    destruct (require_columns d _) as [[]|e]; cbn [mbind outcome_bind]; [|done].
    destruct (comparison_of ddf houseType m) as [cmp|e] eqn:Hcmp;
      cbn [mbind outcome_bind]; [|done].
    destruct (trend_value to_datetime res) as [tr|e];
      cbn [mbind outcome_bind]; [|done].
    destruct (price_distribution res) as [dist|e];
      cbn [mbind outcome_bind]; [|done].
    destruct (map_value res draw) as [md|e]; cbn [mbind outcome_bind]; [|done].
    intros [= <-]. exists m, cmp, tr, dist, md. by rewrite Hcmp.
Qed.

Lemma search_value_NotFound d draw state district houseType :
  Forall (λ c, c ∈ columns d) ["State"; "District"; "Standard Type"] →
  search_value to_datetime d draw state district houseType = Return NotFound
  ↔ filter (mask state district houseType) (rows d) = [].
Proof.
  intros Hcols. split.
  - intros [[Hnil _]|(_ & m & cmp & tr & dist & md & _ & _ & _ & _ & _ & ?)]%search_value_inv;
      [exact Hnil|done].
  - intros Hnil. unfold search_value. rewrite (require_columns_Return d _ Hcols).
    cbn [mbind outcome_bind rows]. by rewrite decide_True.
Qed.

Lemma clean_columns d :
  clean d → Forall (λ c, c ∈ columns d) ["State"; "District"; "Standard Type"].
Proof. intros [Hcols _]. rewrite !Forall_cons in *. tauto. Qed.

Lemma search_NotFound_value w d state district houseType :
  loaded w d →
  (search_rentals to_datetime state district houseType w).1 = Return NotFound
  ↔ filter (mask state district houseType) (rows d) = [].
Proof.
  intros [Hw Hclean].
  destruct (search_rentals_run to_datetime w d state district houseType Hw)
    as (w' & -> & _).
  by apply search_value_NotFound, clean_columns.
Qed.

(** X1. A search answers "data not loaded" exactly when the global [df]
    is still [None]. *)
Theorem search_NotLoaded_iff w state district houseType :
  (search_rentals to_datetime state district houseType w).1 = Return NotLoaded
  ↔ df (globals w) = None.
Proof.
  split.
  - intros Hout. destruct (df (globals w)) as [l|] eqn:Hl; [|done]. exfalso.
    destruct (heap w !! l) as [d|] eqn:Hd.
    + assert (snapshot_frame w = Some d) as Hw
        by (unfold snapshot_frame; by rewrite Hl).
      destruct (search_rentals_run to_datetime w d state district houseType Hw)
        as (w' & Hrun & _).
      rewrite Hrun in Hout.
      by apply search_value_inv in Hout
        as [[_ ?]|(_ & m & cmp & tr & dist & md & _ & _ & _ & _ & _ & ?)].
    + revert Hout. unfold search_rentals. unfold bind at 1, get_globals at 1.
      rewrite Hl. unfold bind at 1, getitem_mask, bind at 1, frame. by rewrite Hd.
  - intros Hl. unfold search_rentals. unfold bind at 1, get_globals at 1.
    by rewrite Hl.
Qed.

(** X2. On a loaded snapshot a search answers "not found" exactly when
    no row has the state, the district and the type asked for. *)
Theorem search_NotFound_iff w d state district houseType :
  loaded w d →
  (search_rentals to_datetime state district houseType w).1 = Return NotFound
  ↔ ¬ ∃ r, r ∈ rows d ∧ State r = Some state ∧ District r = Some district
           ∧ Standard_Type r = Some houseType.
Proof.
  intros Hw. rewrite (search_NotFound_value w d) by done. split.
  - intros Hnil (r & Hin & Hr). eapply (filter_nil_not_elem_of _ _ r); [exact Hnil| |done].
    exact Hr.
  - intros Hnone. destruct (filter _ _) as [|r rs] eqn:Hf; [done|]. exfalso.
    apply Hnone. exists r.
    assert (r ∈ filter (mask state district houseType) (rows d)) as Hin
      by (rewrite Hf; by left).
    apply list_elem_of_filter in Hin as [Hr Hin]. by split.
Qed.

(** X3. A found response counts the rows selected, names the place as
    "district, state", and has three times [medianRent] as
    [suitableIncome]. *)
Theorem found_summary w d state district houseType :
  loaded w d → answerable d state district houseType →
  filter (mask state district houseType) (rows d) ≠ [] →
  ∃ r w',
    search_rentals to_datetime state district houseType w = (Return (IsFound r), w')
    ∧ count r = length (filter (mask state district houseType) (rows d))
    ∧ suitableIncome r = 3 * medianRent r
    ∧ location r = district +:+ ", " +:+ state.
Proof.
  intros Hw Hans Hne.
  destruct (search_rentals_found to_datetime w d _ _ _ Hw Hans Hne)
    as (xm & tr & top & dist & md & w' & _ & _ & _ & _ & _ & _ & Hrun).
  eexists _, w'. split; [exact Hrun|].
  cbn [count suitableIncome medianRent location rows]. split; [done|]. split; [lia|done].
Qed.
End outcomes.

(** ** More on the map data *)

Lemma sample_rows_submseteq draw n rs : sample_rows draw n rs ⊆+ rs.
Proof.
  revert draw rs. induction n as [|n IH]; intros draw rs; simpl.
  - apply submseteq_nil_l.
  - destruct (rs !! _) as [r|] eqn:Hr; [|apply submseteq_nil_l].
    etrans; [apply submseteq_skip, IH|].
    apply Permutation_submseteq. symmetry. by apply delete_Permutation.
Qed.

Lemma with_coordinates_located r rs :
  r ∈ with_coordinates rs → is_Some (Latitude r) ∧ is_Some (Longitude r).
Proof.
  unfold with_coordinates, dropna_rows. intros [Hr _]%list_elem_of_filter.
  revert Hr. cbn [forallb].
  change (isna "Latitude" r) with (bool_decide (Latitude r = None)).
  change (isna "Longitude" r) with (bool_decide (Longitude r = None)).
  rewrite !andb_true_iff, !negb_true_iff, !bool_decide_eq_false.
  rewrite <-!not_eq_None_Some. tauto.
Qed.

Lemma plotted_submseteq draw rs : plotted draw rs ⊆+ with_coordinates rs.
Proof. unfold plotted. case_decide; [apply sample_rows_submseteq|done]. Qed.

Lemma Return_inj {A} (a b : A) : Return a = Return b → a = b.
Proof. by intros [= ->]. Qed.

Lemma map_value_center res draw md :
  map_value res draw = Return md →
  (with_coordinates (rows res) = [] → md = mkMapData [] default_center 0 0)
  ∧ (with_coordinates (rows res) ≠ [] →
       md_center md = (mean (Latitude <$> with_coordinates (rows res)),
                       mean (Longitude <$> with_coordinates (rows res)))).
Proof.
  unfold map_value, with_coordinates.
  destruct (require_columns res _) as [[]|e]; cbn [mbind outcome_bind]; [|done].
  cbn [rows]. case_decide as Hrows.
  - intros [= <-]. by split.
  - destruct (map_bounds _) as [bounds|e]; cbn [mbind outcome_bind]; [|done].
    intros <-%Return_inj. split; [intros Hnil; by destruct Hrows|intros _; reflexivity].
Qed.

Section map.
Context (to_datetime : string → option Timestamp).

Lemma found_map_data w d state district houseType :
  loaded w d → answerable d state district houseType →
  filter (mask state district houseType) (rows d) ≠ [] →
  ∃ r w' md,
    search_rentals to_datetime state district houseType w = (Return (IsFound r), w')
    ∧ map_value (mkFrame (columns d) (filter (mask state district houseType) (rows d)))
        (random_state w) = Return md
    ∧ coordinates r = md_center md ∧ points r = md_points md
    ∧ mapMin r = md_min md ∧ mapMax r = md_max md.
Proof.
  intros Hw Hans Hne.
  destruct (search_rentals_found to_datetime w d _ _ _ Hw Hans Hne)
    as (xm & tr & top & dist & md & w' & _ & _ & _ & Hmd & _ & _ & Hrun).
  eexists _, w', md. split; [exact Hrun|]. split; [exact Hmd|]. done.
Qed.

(** X4. When no selected row has both coordinates, the response has no
    points, the fixed centre (3.1319, 101.6841), and 0 for both [mapMin]
    and [mapMax]. *)
Theorem map_without_coordinates w d state district houseType :
  loaded w d → answerable d state district houseType →
  filter (mask state district houseType) (rows d) ≠ [] →
  with_coordinates (filter (mask state district houseType) (rows d)) = [] →
  ∃ r w',
    search_rentals to_datetime state district houseType w = (Return (IsFound r), w')
    ∧ points r = [] ∧ coordinates r = default_center
    ∧ mapMin r = 0 ∧ mapMax r = 0.
Proof.
  intros Hw Hans Hne Hnone.
  destruct (found_map_data w d _ _ _ Hw Hans Hne)
    as (r & w' & md & Hrun & Hmd & Hc & Hp & Hmin & Hmax).
  exists r, w'. split; [done|].
  apply map_value_center in Hmd as [Hmd _]. rewrite (Hmd Hnone) in *. done.
Qed.

(** X5. When some selected row has both coordinates, the centre is the
    mean latitude and the mean longitude of all such rows, also when only
    a sample of them is plotted. *)
Theorem map_centre_is_mean w d state district houseType :
  loaded w d → answerable d state district houseType →
  filter (mask state district houseType) (rows d) ≠ [] →
  with_coordinates (filter (mask state district houseType) (rows d)) ≠ [] →
  ∃ r w',
    search_rentals to_datetime state district houseType w = (Return (IsFound r), w')
    ∧ coordinates r
      = (mean (Latitude <$> with_coordinates
                 (filter (mask state district houseType) (rows d))),
         mean (Longitude <$> with_coordinates
                 (filter (mask state district houseType) (rows d)))).
Proof.
  intros Hw Hans Hne Hsome.
  destruct (found_map_data w d _ _ _ Hw Hans Hne)
    as (r & w' & md & Hrun & Hmd & Hc & _).
  exists r, w'. split; [done|].
  apply map_value_center in Hmd as [_ Hmd]. rewrite Hc. by apply Hmd.
Qed.

(** X6. The points are selected rows that have both coordinates, none
    taken more often than it occurs: every point has a latitude, a
    longitude and a rent, and when at most 2000 rows have coordinates the
    points are those rows in their order. *)
Theorem points_are_located_rows w d state district houseType :
  loaded w d → answerable d state district houseType →
  filter (mask state district houseType) (rows d) ≠ [] →
  ∃ r w',
    search_rentals to_datetime state district houseType w = (Return (IsFound r), w')
    ∧ points r ⊆+ point_of <$> with_coordinates
                     (filter (mask state district houseType) (rows d))
    ∧ (∀ lat lng c, (lat, lng, c) ∈ points r → is_Some lat ∧ is_Some lng ∧ is_Some c)
    ∧ ((length (with_coordinates (filter (mask state district houseType) (rows d)))
          ≤ 2000)%nat →
       points r = point_of <$> with_coordinates
                    (filter (mask state district houseType) (rows d))).
Proof.
  intros Hw Hans Hne.
  destruct (found_map to_datetime w d _ _ _ Hw Hans Hne) as (r & w' & Hrun & Hpoints & _).
  exists r, w'. split; [done|]. rewrite Hpoints. split_and!.
  - apply fmap_submseteq, plotted_submseteq.
  - intros lat lng c (row & [= -> -> ->] & Hrow)%list_elem_of_fmap.
    eapply elem_of_submseteq in Hrow; [|apply plotted_submseteq].
    destruct (with_coordinates_located _ _ Hrow) as [Hlat Hlng].
    split_and!; [done..|].
    destruct Hw as [_ [_ Hrows]]. rewrite Forall_forall in Hrows.
    apply complete_priced, Hrows.
    apply dropna_rows_subseteq in Hrow. by apply list_elem_of_filter in Hrow as [_ ?].
  - intros Hlen. unfold plotted. by rewrite decide_False by lia.
Qed.

(** X7. A snapshot without a 'Latitude' or without a 'Longitude' column
    cannot be searched: for a selection that is not empty the search
    raises [KeyError] for that column. *)
Theorem search_needs_coordinate_columns w d state district houseType :
  loaded w d →
  filter (mask state district houseType) (rows d) ≠ [] →
  (∀ x, max_of (Rent_Price <$> filter (mask state district houseType) (rows d)) = Some x
        → -500 < int_of x) →
  "Latitude" ∉ columns d ∨ "Longitude" ∉ columns d →
  ∃ c, (search_rentals to_datetime state district houseType w).1 = Raise (KeyError c)
       ∧ (c = "Latitude" ∨ c = "Longitude") ∧ c ∉ columns d.
Proof.
  intros [Hw [Hcols Hrows]] Hne Htop Hmissing.
  destruct (search_rentals_run to_datetime w d state district houseType Hw)
    as (w' & -> & _). cbn [fst].
  set (res := mkFrame (columns d) (filter (mask state district houseType) (rows d))).
  assert ("State" ∈ columns d ∧ "District" ∈ columns d
          ∧ "Standard Type" ∈ columns d ∧ "Rent Price" ∈ columns d)
    as (Hs & Hd & Ht & Hp) by (rewrite !Forall_cons in Hcols; tauto).
  assert (Forall priced (rows d)) as Hpriced
    by (eapply Forall_impl; [exact Hrows|apply complete_priced]).
  assert (Forall priced (rows res)) as Hpres by (by apply Forall_filter_rows).
  destruct (median_is_Some (Rent_Price <$> rows res)) as [xm Hxm];
    [by apply priced_values|].
  destruct (price_distribution_Return res) as (top & dist & _ & _ & Hdist); [done..|].
  destruct (trend_value_Return to_datetime res) as [tr Htr]; [done..|].
  unfold search_value. fold res.
  rewrite require_columns_Return by (by repeat constructor).
  cbn [mbind outcome_bind]. rewrite decide_False by done.
  unfold median_rent_of. rewrite require_columns_Return by (by repeat constructor).
  cbn [mbind outcome_bind]. rewrite Hxm. cbn [int mbind outcome_bind].
  rewrite require_columns_Return by (by repeat constructor).
  cbn [mbind outcome_bind].
  rewrite comparison_of_Return; [|done|done|by apply Forall_filter_rows].
  cbn [mbind outcome_bind]. rewrite Htr. cbn [mbind outcome_bind].
  rewrite Hdist. cbn [mbind outcome_bind].
  unfold map_value. cbn [require_columns columns res].
  destruct (decide ("Latitude" ∈ columns d)) as [Hlat|Hlat].
  - destruct (decide ("Longitude" ∈ columns d)) as [Hlng|Hlng]; [tauto|].
    exists "Longitude". cbn [mbind outcome_bind]. auto.
  - exists "Latitude". cbn [mbind outcome_bind]. auto.
Qed.
End map.

(** ** More on loading *)

Section loading_more.
Context (str_dtype : bool).






(** X9. The catalog that [get_form_options] returns after [load_data]
    lists the types of the snapshot's rows, each once and in ascending
    order; every type that the location tree lists is in the catalog. *)
Theorem all_types_is_the_catalog csv w :
  Forall (λ c, c ∈ columns csv) required →
  ∃ opts d w',
    load_data str_dtype csv w = (Return (), w')
    ∧ snapshot_frame w' = Some d
    ∧ get_form_options w' = (Return opts, w')
    ∧ (∀ T, T ∈ all_types opts ↔ ∃ r, r ∈ rows d ∧ Standard_Type r = Some T)
    ∧ Sorted str_le (all_types opts) ∧ NoDup (all_types opts)
    ∧ (∀ S D types T, lookup2 (options_location_tree opts) S D = Some types →
         T ∈ types → T ∈ all_types opts).
Proof.
  intros Hcols. destruct (load_data_loaded str_dtype csv w Hcols) as [Hd _].
  rewrite load_data_run in Hd |- * by done.
  eexists _, _, _. split; [done|]. split; [exact Hd|]. split; [done|].
  cbn [all_types options_location_tree globals all_property_types location_tree
       loaded_world].
  assert (∀ T, T ∈ sorted str_le (unique (dropna_values
                 (Standard_Type <$> rows (cleaned str_dtype csv))))
             ↔ ∃ r, r ∈ rows (cleaned str_dtype csv) ∧ Standard_Type r = Some T) as Hiff.
  { intros T.
    rewrite elem_of_sorted, elem_of_unique, elem_of_dropna_values, list_elem_of_fmap.
    split; intros (r & ? & ?); by exists r. }
  split_and!; [exact Hiff| | |].
  - apply sorted_Sorted. apply _.
  - apply NoDup_sorted, NoDup_unique.
  - intros S D types T [_ ->]%location_tree_lookup HT.
    apply elem_of_location_types in HT as (r & Hin & _ & _ & HT).
    apply Hiff. by exists r.
Qed.
End loading_more.

Lemma setitem_alloc_raise w f c c' upd :
  c' ∉ columns f →
  setitem (length (heap w)) c [c'] upd (alloc w f) = (Raise (KeyError c'), alloc w f).
Proof.
  intros Hc. unfold setitem.
  rewrite (bind_run _ _ _ _ _ (frame_run _ _ _ (lookup_alloc w f))).
  rewrite bind_lift. cbn [require_columns]. by rewrite decide_False.
Qed.

Section loading_errors.
Context (str_dtype : bool).

Lemma load_data_raises csv w :
  ¬ Forall (λ c, c ∈ columns csv) required →
  ∃ c, (load_data str_dtype csv w).1 = Raise (KeyError c)
       ∧ c ∈ required ∧ c ∉ columns csv.
Proof.
  intros Hmissing.
  unfold load_data.
  unfold bind at 1, new_frame at 1.
  unfold bind at 1, get_globals at 1. cbn [globals].
  unfold bind at 1, set_globals at 1. cbn [globals heap random_state].
  set (g := mkGlobals (Some (length (heap w))) (all_property_types (globals w))
              (location_tree (globals w))).
  set (w0 := mkWorld g (heap w) (random_state w)).
  set (f0 := mkFrame (columns csv) _).
  change (mkWorld g (heap w ++ [f0]) (random_state w)) with (alloc w0 f0).
  change (length (heap w)) with (length (heap w0)).
  destruct (decide ("Rent Price" ∈ columns csv)) as [Hp|Hp]; last first.
  { exists "Rent Price". erewrite bind_raise; [|by apply (setitem_alloc_raise w0)].
    split; [done|]. split; [|done]. unfold required. set_solver. }
  erewrite bind_run; [|by apply (setitem_alloc w0); repeat constructor].
  cbn [columns rows]. rewrite add_column_elem by done.
  destruct (decide ("State" ∈ columns csv)) as [Hs|Hs]; last first.
  { exists "State". erewrite bind_raise; [|by apply (setitem_alloc_raise w0)].
    split; [done|]. split; [|done]. unfold required. set_solver. }
  erewrite bind_run; [|by apply (setitem_alloc w0); repeat constructor].
  cbn [columns rows]. rewrite add_column_elem by done.
  destruct (decide ("District" ∈ columns csv)) as [Hd|Hd]; last first.
  { exists "District". erewrite bind_raise; [|by apply (setitem_alloc_raise w0)].
    split; [done|]. split; [|done]. unfold required. set_solver. }
  erewrite bind_run; [|by apply (setitem_alloc w0); repeat constructor].
  cbn [columns rows]. rewrite add_column_elem by done.
  destruct (decide ("Standard Type" ∈ columns csv)) as [Ht|Ht]; last first.
  { exists "Standard Type". erewrite bind_raise; [|by apply (setitem_alloc_raise w0)].
    split; [done|]. split; [|done]. unfold required. set_solver. }
  destruct Hmissing. unfold required. by repeat constructor.
Qed.

(** X10. [load_data] returns exactly when the file has the columns
    'Rent Price', 'State', 'District' and 'Standard Type'; without one of
    them it raises [KeyError] for a column that is not there. *)
Theorem load_data_needs_columns csv w :
  ((load_data str_dtype csv w).1 = Return ()
   ↔ Forall (λ c, c ∈ columns csv) required)
  ∧ (¬ Forall (λ c, c ∈ columns csv) required →
     ∃ c, (load_data str_dtype csv w).1 = Raise (KeyError c)
          ∧ c ∈ required ∧ c ∉ columns csv).
Proof.
  split; [|apply load_data_raises]. split.
  - intros Hret. destruct (decide (Forall (λ c, c ∈ columns csv) required)) as [|Hno];
      [done|].
    destruct (load_data_raises csv w Hno) as (c & Hc & _). by rewrite Hc in Hret.
  - intros Hcols. by rewrite load_data_run.
Qed.

End loading_errors.

(** ** More on the price distribution *)

Lemma of_Z_le a b : a ≤ b → (of_Z a ≤ of_Z b)%Qc.
Proof. intros H. unfold Qcle, of_Z, Qc_of_Z. cbn [this]. by rewrite <-Zle_Qle. Qed.

Lemma edges_S n : edges (S n) = edges n ++ [Z.of_nat n * 500].
Proof. unfold edges. by rewrite seq_S, fmap_app. Qed.

Lemma edges_length n : length (edges n) = n.
Proof. unfold edges. by rewrite length_fmap, length_seq. Qed.

(** The edges that are at most [x] are the first few: all of those before
    the count, and not the one at the count. *)
Lemma searchsorted_right_edges n x :
  let j := searchsorted_right (edges n) x in
  (j ≤ n)%nat
  ∧ (∀ i, (i < j)%nat → (of_Z (Z.of_nat i * 500) ≤ x)%Qc)
  ∧ ((j < n)%nat → (x < of_Z (Z.of_nat j * 500))%Qc).
Proof.
  induction n as [|n (Hle & Hbelow & Habove)]; cbn zeta.
  - unfold searchsorted_right. simpl. split; [done|]. split; [lia|lia].
  - unfold searchsorted_right in *. rewrite edges_S, filter_app, length_app.
    set (j := length (filter _ (edges n))) in *.
    rewrite filter_cons, filter_nil.
    destruct (decide (of_Z (Z.of_nat n * 500) ≤ x)%Qc) as [Hn|Hn]; cbn [length].
    + assert (j = n) as ->.
      { destruct (decide (j < n)%nat) as [Hlt|]; [|lia]. exfalso.
        apply Habove in Hlt. eapply Qclt_not_le; [exact Hlt|].
        eapply Qcle_trans; [|exact Hn]. apply of_Z_le. lia. }
      split; [lia|]. split; [|lia].
      intros i Hi. destruct (decide (i = n)) as [->|]; [done|]. apply Hbelow. lia.
    + rewrite Nat.add_0_r. split; [lia|]. split; [done|].
      intros _. destruct (decide (j < n)%nat) as [Hlt|]; [by apply Habove|].
      assert (j = n) as -> by lia. by apply Qcnot_le_lt.
Qed.

Lemma searchsorted_right_in_bin n k x :
  (S k < n)%nat →
  searchsorted_right (edges n) x = S k ↔ in_bin k x.
Proof.
  intros Hk. destruct (searchsorted_right_edges n x) as (Hle & Hbelow & Habove).
  cbn zeta in *. unfold in_bin. split.
  - intros Hj. rewrite Hj in *. split; [apply Hbelow; lia|apply Habove; lia].
  - intros [Hlo Hhi].
    set (j := searchsorted_right (edges n) x) in *.
    destruct (decide (j ≤ k)%nat) as [Hjk|Hjk].
    { exfalso. eapply Qclt_not_le; [apply Habove; lia|].
      eapply Qcle_trans; [|exact Hlo]. apply of_Z_le. lia. }
    destruct (decide (S k < j)%nat) as [Hkj|Hkj]; [|lia].
    exfalso. eapply Qclt_not_le; [exact Hhi|]. apply Hbelow. lia.
Qed.

Lemma imap_seq_diag {B} (f : nat → nat → B) m :
  imap f (seq 0 m) = (λ k, f k k) <$> seq 0 m.
Proof.
  apply list_eq. intros i. rewrite list_lookup_imap, list_lookup_fmap.
  destruct (decide (i < m)%nat).
  - by rewrite lookup_seq_lt by done.
  - by rewrite lookup_seq_ge by lia.
Qed.

Lemma filter_fmap_comm {A B} (f : A → B) (P : B → Prop) `{!∀ y, Decision (P y)}
    (l : list A) :
  filter P (f <$> l) = f <$> filter (λ x, P (f x)) l.
Proof.
  induction l as [|x l IH]; [done|].
  rewrite fmap_cons, !filter_cons. case_decide; [|done].
  by rewrite fmap_cons, IH.
Qed.

Lemma length_filter_ext {A} (P Q : A → Prop) `{!∀ x, Decision (P x)}
    `{!∀ x, Decision (Q x)} (l : list A) :
  (∀ x, x ∈ l → P x ↔ Q x) → length (filter P l) = length (filter Q l).
Proof.
  induction l as [|x l IH]; intros Hext; [done|].
  rewrite !filter_cons.
  assert (P x ↔ Q x) as Hx by (apply Hext; by left).
  assert (length (filter P l) = length (filter Q l)) as Hl
    by (apply IH; intros y Hy; apply Hext; by right).
  destruct (decide (P x)), (decide (Q x)); simpl; try tauto; by rewrite ?Hl.
Qed.

Lemma filter_ext_elem {A} (P Q : A → Prop) `{!∀ x, Decision (P x)}
    `{!∀ x, Decision (Q x)} (l : list A) :
  (∀ x, x ∈ l → P x ↔ Q x) → filter P l = filter Q l.
Proof.
  induction l as [|x l IH]; intros Hext; [done|].
  rewrite !filter_cons.
  assert (P x ↔ Q x) as Hx by (apply Hext; by left).
  assert (filter P l = filter Q l) as Hl
    by (apply IH; intros y Hy; apply Hext; by right).
  destruct (decide (P x)), (decide (Q x)); try tauto; by rewrite ?Hl.
Qed.

(** The distribution, bin by bin. *)
Lemma histogram_bins prices top :
  -500 < top →
  let n := Z.to_nat ((top + 500 + 500 - 1) / 500) in
  let held k := length (filter (in_bin k) prices) in
  histogram prices top
  = Return ((λ k, mkBin (bin_label k) (held k))
              <$> filter (λ k, 0 < held k)%nat (seq 0 (n - 1))).
Proof.
  intros Htop n held. unfold histogram.
  change (range0 (top + 500) 500) with (edges n).
  assert (1 ≤ n)%nat as Hn.
  { subst n. assert (1 ≤ (top + 500 + 500 - 1) / 500); [|lia].
    apply Z.div_le_lower_bound; lia. }
  rewrite edges_length.
  assert ((λ i, str_of_int i +:+ "-" +:+ str_of_int (i + 500)) <$> take (n - 1) (edges n)
          = bin_label <$> seq 0 (n - 1)) as ->.
  { unfold edges. rewrite <-fmap_take, take_seq, <-list_fmap_compose.
    rewrite Nat.min_l by lia. done. }
  unfold cut. rewrite length_fmap, length_seq, edges_length.
  rewrite decide_False by lia. cbn [mbind outcome_bind mret outcome_ret].
  f_equal. unfold value_counts.
  rewrite imap_fmap. unfold compose. rewrite imap_seq_diag.
  rewrite filter_fmap_comm, <-list_fmap_compose. cbn [snd fst compose].
  assert (∀ k, (k < n - 1)%nat →
            length (filter (λ c, c = Some k)
              ((λ x, if decide (searchsorted_right (edges n) x = n
                                ∨ searchsorted_right (edges n) x = 0%nat) then None
                     else Some (searchsorted_right (edges n) x - 1)%nat) <$> prices))
            = held k) as Hheld.
  { intros k Hk. rewrite filter_fmap_comm, length_fmap. apply length_filter_ext.
    intros x _. rewrite <-(searchsorted_right_in_bin n) by lia. cbn zeta.
    case_decide as Hids; split.
    - done.
    - intros Hj. rewrite Hj in Hids. lia.
    - intros [= <-]. lia.
    - intros ->. f_equal. lia. }
  assert (∀ k, k ∈ seq 0 (n - 1) → (k < n - 1)%nat) as Hseq.
  { intros k Hk%elem_of_seq. lia. }
  rewrite (filter_ext_elem _ (λ k, 0 < held k)%nat).
  - apply Forall_fmap_ext, Forall_forall. intros k [_ Hk]%list_elem_of_filter.
    unfold compose. cbn [fst snd]. f_equal. apply Hheld, Hseq, Hk.
  - intros k Hk. cbn beta. by rewrite (Hheld k (Hseq k Hk)).
Qed.

Lemma in_bin_unique k k' x : in_bin k x → in_bin k' x → k = k'.
Proof.
  intros [Hlo Hhi] [Hlo' Hhi'].
  destruct (decide (k < k')%nat) as [Hlt|].
  { exfalso. eapply Qclt_not_le; [exact Hhi|].
    eapply Qcle_trans; [|exact Hlo']. apply of_Z_le. lia. }
  destruct (decide (k' < k)%nat) as [Hlt|]; [|lia].
  exfalso. eapply Qclt_not_le; [exact Hhi'|].
  eapply Qcle_trans; [|exact Hlo]. apply of_Z_le. lia.
Qed.

Lemma sum_list_with_ext {A} (f g : A → nat) (l : list A) :
  (∀ x, x ∈ l → f x = g x) → sum_list_with f l = sum_list_with g l.
Proof.
  induction l as [|x l IH]; intros Hext; [done|]. simpl.
  rewrite (Hext x) by (by left). rewrite IH; [done|].
  intros y Hy. apply Hext. by right.
Qed.

Lemma sum_list_with_add {A} (f g : A → nat) (l : list A) :
  sum_list_with (λ x, f x + g x)%nat l = (sum_list_with f l + sum_list_with g l)%nat.
Proof. induction l as [|x l IH]; [done|]. simpl. lia. Qed.

Lemma sum_list_with_zero {A} (l : list A) : sum_list_with (λ _, 0%nat) l = 0%nat.
Proof. induction l as [|x l IH]; [done|]. done. Qed.

Lemma sum_list_with_indicator k0 m :
  (k0 < m)%nat →
  sum_list_with (λ k, if decide (k = k0) then 1 else 0)%nat (seq 0 m) = 1%nat.
Proof.
  induction m as [|m IH]; [lia|]. intros Hk.
  rewrite seq_S, sum_list_with_app. simpl.
  destruct (decide (k0 = m)) as [->|Hne].
  - rewrite decide_True by done.
    rewrite (sum_list_with_ext _ (λ _, 0%nat)), sum_list_with_zero; [lia|].
    intros k Hk'%elem_of_seq. rewrite decide_False by lia. done.
  - rewrite decide_False by done. rewrite IH by lia. lia.
Qed.

Lemma sum_list_with_filter_pos {A} (f : A → nat) (l : list A) :
  sum_list_with f (filter (λ x, 0 < f x)%nat l) = sum_list_with f l.
Proof.
  induction l as [|x l IH]; [done|]. rewrite filter_cons. simpl.
  case_decide; simpl; lia.
Qed.

Lemma sum_list_with_fmap {A B} (f : B → nat) (g : A → B) (l : list A) :
  sum_list_with f (g <$> l) = sum_list_with (f ∘ g) l.
Proof.
  induction l as [|x l IH]; [done|].
  rewrite fmap_cons. cbn [sum_list_with]. by rewrite IH.
Qed.

(** When every rent lies in one of the first [m] intervals, the numbers
    held by these intervals add up to the number of rents. *)
Lemma bins_partition m (prices : list number) :
  (∀ x, x ∈ prices → ∃ k, (k < m)%nat ∧ in_bin k x) →
  sum_list_with (λ k, length (filter (in_bin k) prices)) (seq 0 m) = length prices.
Proof.
  induction prices as [|x ps IH]; intros Hall.
  - simpl. apply sum_list_with_zero.
  - destruct (Hall x) as (k0 & Hk0 & Hin); [by left|].
    rewrite (sum_list_with_ext _
      (λ k, (if decide (k = k0) then 1 else 0) + length (filter (in_bin k) ps))%nat).
    + rewrite sum_list_with_add, sum_list_with_indicator by done.
      rewrite IH; [done|]. intros y Hy. apply Hall. by right.
    + intros k _. rewrite filter_cons.
      destruct (decide (in_bin k x)) as [Hk|Hk].
      * rewrite (in_bin_unique _ _ _ Hk Hin), decide_True by done. done.
      * rewrite decide_False; [done|]. by intros ->.
Qed.

Lemma int_of_floor (x : number) : (of_Z 0 ≤ x)%Qc → int_of x = Qfloor x.
Proof.
  intros H. rewrite int_of_nonneg.
  - by destruct x as [[a b] ?].
  - unfold Qcle, Qle in H. destruct x as [[a b] ?]. simpl in *. lia.
Qed.

Lemma lt_int_of_succ (x : number) : (of_Z 0 ≤ x)%Qc → (x < of_Z (int_of x + 1))%Qc.
Proof.
  intros H. rewrite int_of_floor by done.
  unfold Qclt, of_Z, Qc_of_Z. cbn [this]. apply Qlt_floor.
Qed.

(** With no negative rent, and the greatest rent [top] not truncating to
    a multiple of 500, every rent lies in one of the intervals of the
    distribution. *)
Lemma every_rent_in_a_bin (prices : list number) top x :
  (∀ y, y ∈ prices → (of_Z 0 ≤ y)%Qc ∧ (y ≤ top)%Qc) →
  int_of top `mod` 500 ≠ 0 → x ∈ prices →
  ∃ k, (k < Z.to_nat ((int_of top + 500 + 500 - 1) / 500) - 1)%nat ∧ in_bin k x.
Proof.
  intros Hall Hmod Hx. destruct (Hall x Hx) as [H0 Htop].
  assert (of_Z 0 ≤ top)%Qc as Htop0 by (by eapply Qcle_trans).
  assert (0 ≤ int_of top) as Hm.
  { rewrite <-(int_of_of_Z 0). by apply int_of_mono. }
  set (m := int_of top) in *.
  set (n := Z.to_nat ((m + 500 + 500 - 1) / 500)).
  assert (Z.of_nat n = m / 500 + 2) as Hn.
  { subst n. rewrite Z2Nat.id by (apply Z.div_pos; lia).
    pose proof (Z.div_mod m 500 ltac:(lia)) as Hdm.
    pose proof (Z.mod_pos_bound m 500 ltac:(lia)) as Hb.
    replace (m + 500 + 500 - 1) with ((m `mod` 500 + 499) + (m / 500 + 1) * 500) by lia.
    rewrite Z.div_add by lia.
    assert ((m `mod` 500 + 499) / 500 = 1) as ->; [|lia].
    symmetry. apply (Z.div_unique _ _ _ (m `mod` 500 - 1)); lia. }
  assert (0 ≤ m / 500) as Hq by (apply Z.div_pos; lia).
  destruct (searchsorted_right_edges n x) as (Hle & Hbelow & Habove). cbn zeta in *.
  set (j := searchsorted_right (edges n) x) in *.
  assert (j ≠ 0%nat) as Hj0.
  { intros Hj. rewrite Hj in Habove. eapply Qclt_not_le; [apply Habove; lia|].
    exact H0. }
  assert (j < n)%nat as Hjn.
  { destruct (decide (j < n)%nat) as [|Hge]; [done|]. exfalso.
    assert (j = n) as Hj by lia. 
    assert (of_Z (Z.of_nat (n - 1) * 500) ≤ x)%Qc as Hedge by (apply Hbelow; lia).
    eapply Qclt_not_le; [apply (lt_int_of_succ top Htop0)|].
    eapply Qcle_trans; [|exact Htop]. eapply Qcle_trans; [|exact Hedge].
    apply of_Z_le. fold m.
    pose proof (Z.div_mod m 500 ltac:(lia)) as Hdm.
    pose proof (Z.mod_pos_bound m 500 ltac:(lia)) as Hb. lia. }
  exists (j - 1)%nat. split; [lia|].
  apply (searchsorted_right_in_bin n); [lia|]. fold j. lia.
Qed.

Lemma priced_values_length rs :
  Forall priced rs → length (dropna_values (Rent_Price <$> rs)) = length rs.
Proof.
  induction 1 as [|r rs [x Hx] _ IH]; [done|].
  unfold dropna_values in *. rewrite fmap_cons. cbn [omap list_omap].
  rewrite Hx. cbn [id length]. f_equal. exact IH.
Qed.

Section distribution.
Context (to_datetime : string → option Timestamp).

Lemma found_distribution w d state district houseType :
  loaded w d → answerable d state district houseType →
  filter (mask state district houseType) (rows d) ≠ [] →
  let prices := dropna_values
                  (Rent_Price <$> filter (mask state district houseType) (rows d)) in
  ∃ r w' top,
    search_rentals to_datetime state district houseType w = (Return (IsFound r), w')
    ∧ max_of (Some <$> prices) = Some top
    ∧ -500 < int_of top
    ∧ histogram prices (int_of top) = Return (distribution r)
    ∧ count r = length prices.
Proof.
  intros Hw Hans Hne prices.
  destruct (search_rentals_found to_datetime w d _ _ _ Hw Hans Hne)
    as (xm & tr & top & dist & md & w' & _ & Htop & Hdist & _ & _ & _ & Hrun).
  cbn [rows] in *.
  subst prices.
  eexists _, w', top. split; [exact Hrun|]. cbn [distribution count rows].
  split; [by rewrite max_of_dropna|].
  split; [by apply Hans|]. split; [exact Hdist|].
  symmetry. apply priced_values_length, Forall_filter_rows.
  destruct Hw as [_ [_ Hrows]]. eapply Forall_impl; [exact Hrows|apply complete_priced].
Qed.

(** X12. The distribution, bin by bin: with [top] the greatest selected
    rent there are [(int(top) + 999) div 500] edges 0, 500, 1000, ...; the
    response lists, in ascending order, the intervals between consecutive
    edges that hold a rent, under the label "lo-hi", with the number of
    selected rents from [lo] up to but not including [hi]. *)
Theorem distribution_bin_by_bin w d state district houseType :
  loaded w d → answerable d state district houseType →
  filter (mask state district houseType) (rows d) ≠ [] →
  let prices := dropna_values
                  (Rent_Price <$> filter (mask state district houseType) (rows d)) in
  let held k := length (filter (in_bin k) prices) in
  ∃ r w' top,
    search_rentals to_datetime state district houseType w = (Return (IsFound r), w')
    ∧ max_of (Some <$> prices) = Some top
    ∧ distribution r
      = (λ k, mkBin (bin_label k) (held k))
          <$> filter (λ k, 0 < held k)%nat
                (seq 0 (Z.to_nat ((int_of top + 500 + 500 - 1) / 500) - 1))
    ∧ ∀ b, b ∈ distribution r → (0 < bin_count b)%nat.
Proof.
  intros Hw Hans Hne prices held.
  destruct (found_distribution w d _ _ _ Hw Hans Hne)
    as (r & w' & top & Hrun & Htop & Hlow & Hdist & _).
  exists r, w', top. split; [done|]. split; [done|].
  rewrite (histogram_bins _ _ Hlow) in Hdist. apply Return_inj in Hdist.
  rewrite <-Hdist. split; [done|].
  intros b (k & -> & [Hk _]%list_elem_of_filter)%list_elem_of_fmap. exact Hk.
Qed.

(** X13. When no selected rent is negative and the greatest does not
    truncate to a multiple of 500, the counts of the distribution add up
    to [count]: every selected rent is in a bin. *)
Theorem distribution_counts_every_rent w d state district houseType :
  loaded w d → answerable d state district houseType →
  filter (mask state district houseType) (rows d) ≠ [] →
  (∀ x, x ∈ dropna_values
              (Rent_Price <$> filter (mask state district houseType) (rows d)) →
        (of_Z 0 ≤ x)%Qc) →
  (∀ top, max_of (Rent_Price <$> filter (mask state district houseType) (rows d))
          = Some top → int_of top `mod` 500 ≠ 0) →
  ∃ r w',
    search_rentals to_datetime state district houseType w = (Return (IsFound r), w')
    ∧ sum_list_with bin_count (distribution r) = count r.
Proof.
  intros Hw Hans Hne Hpos Hedge.
  destruct (found_distribution w d _ _ _ Hw Hans Hne)
    as (r & w' & top & Hrun & Htop & Hlow & Hdist & Hcount).
  exists r, w'. split; [done|].
  rewrite (histogram_bins _ _ Hlow) in Hdist. apply Return_inj in Hdist.
  rewrite <-Hdist, Hcount, sum_list_with_fmap.
  unfold compose. cbn [bin_count].
  rewrite (sum_list_with_filter_pos
    (λ k, length (filter (in_bin k) (dropna_values (Rent_Price <$>
            filter (mask state district houseType) (rows d)))))).
  apply bins_partition. intros x Hx.
  eapply (every_rent_in_a_bin _ top); [|by apply Hedge; rewrite <-max_of_dropna|exact Hx].
  intros y Hy. split; [by apply Hpos|].
  apply max_of_Some in Htop as [_ Htop]. apply Htop.
  apply list_elem_of_fmap. by exists y.
Qed.
End distribution.

(** ** More on the trend series *)

Global Instance by_month_year_total : Total by_month_year.
Proof. intros a b. unfold by_month_year. apply (total str_le). Qed.

Section trends.
Context (to_datetime : string → option Timestamp).

Lemma trend_frame_days rs :
  month_year <$>
    ((λ r, set_month_year r (day_label <$> date r))
       <$> dropna_rows ["date"]
             ((λ r, set_date r (Extract_Date r ≫= to_datetime)) <$> rs))
  = Some <$> dropna_values (day_of to_datetime <$> rs).
Proof.
  induction rs as [|r rs IH]; [done|].
  rewrite !fmap_cons. unfold dropna_rows in *. rewrite filter_cons.
  unfold dropna_values in *. cbn [omap list_omap id].
  unfold day_of at 1. cbn [forallb] in *.
  change (isna "date" (set_date r (Extract_Date r ≫= to_datetime)))
    with (bool_decide (Extract_Date r ≫= to_datetime = None)).
  destruct (Extract_Date r ≫= to_datetime) as [t|] eqn:Ht.
  - rewrite bool_decide_eq_false_2 by done. cbn [negb andb].
    rewrite decide_True by done. rewrite !fmap_cons. cbn [month_year set_month_year date set_date].
    cbn [fmap option_fmap option_map]. rewrite fmap_cons. f_equal. exact IH.
  - rewrite bool_decide_eq_true_2 by done. cbn [negb andb].
    rewrite decide_False by done. cbn [fmap option_fmap option_map]. exact IH.
Qed.

Lemma trend_frame_rents k rs :
  Rent_Price <$> filter (λ r, month_year r = Some k)
    ((λ r, set_month_year r (day_label <$> date r))
       <$> dropna_rows ["date"]
             ((λ r, set_date r (Extract_Date r ≫= to_datetime)) <$> rs))
  = Rent_Price <$> filter (λ r, day_of to_datetime r = Some k) rs.
Proof.
  induction rs as [|r rs IH]; [done|].
  rewrite !fmap_cons. unfold dropna_rows in *. rewrite !filter_cons.
  cbn [forallb] in *.
  change (isna "date" (set_date r (Extract_Date r ≫= to_datetime)))
    with (bool_decide (Extract_Date r ≫= to_datetime = None)).
  assert (day_of to_datetime r = day_label <$> (Extract_Date r ≫= to_datetime)) as Hd
    by done.
  destruct (Extract_Date r ≫= to_datetime) as [t|] eqn:Ht.
  - rewrite bool_decide_eq_false_2 by done. cbn [negb andb].
    rewrite decide_True by done. rewrite fmap_cons, filter_cons.
    cbn [month_year set_month_year date set_date fmap option_fmap option_map] in *.
    destruct (decide (day_of to_datetime r = Some k)) as [Hk|Hk]; rewrite Hd in Hk.
    + rewrite decide_True by done.
      rewrite !fmap_cons. cbn [Rent_Price set_month_year set_date]. f_equal. exact IH.
    + rewrite decide_False by done. exact IH.
  - rewrite bool_decide_eq_true_2 by done. cbn [negb andb].
    rewrite decide_False by done.
    rewrite (decide_False (P := day_of to_datetime r = Some k)) by (by rewrite Hd).
    exact IH.
Qed.

(** The groups of the trend copy are the days of the selection, each with
    the median of the rents of that day. *)
Lemma trend_groups res :
  groupby_median str_le month_year (rows (trend_frame to_datetime res))
  = (λ k, (k, median (Rent_Price <$>
                        filter (λ r, day_of to_datetime r = Some k) (rows res))))
      <$> sorted str_le (unique (dropna_values (day_of to_datetime <$> rows res))).
Proof.
  unfold groupby_median, trend_frame. cbn [rows].
  rewrite trend_frame_days, dropna_values_Some.
  apply list_fmap_ext. intros _ k _. by rewrite trend_frame_rents.
Qed.

Lemma trend_value_eq res :
  "Rent Price" ∈ columns res → Forall priced (rows res) →
  trend_value to_datetime res
  = Return (if decide ("Extract Date" ∈ columns res)
            then trend_of <$> sorted by_month_year
                   (groupby_median str_le month_year (rows (trend_frame to_datetime res)))
            else []).
Proof.
  intros Hcol Hp. unfold trend_value. case_decide; [|done].
  unfold trends_of. rewrite require_columns_Return.
  - cbn [mbind outcome_bind].
    apply (mapM_Return _ trend_of).
    apply Forall_forall. intros [name c] Hin%elem_of_sorted.
    assert (is_Some c) as [x ->]; [|done].
    eapply (Forall_forall (λ kv, is_Some kv.2)) in Hin; [exact Hin|].
    apply groupby_median_Some. unfold trend_frame. cbn [rows].
    apply Forall_fmap, Forall_dropna_rows, Forall_fmap.
    eapply Forall_impl; [exact Hp|]. by intros r [x Hx]; exists x.
  - unfold trend_frame. cbn [columns]. repeat constructor.
    + apply elem_of_add_column. by left.
    + do 2 (apply elem_of_add_column; right). done.
Qed.

Lemma found_trends w d state district houseType :
  loaded w d → answerable d state district houseType →
  filter (mask state district houseType) (rows d) ≠ [] →
  let sel := filter (mask state district houseType) (rows d) in
  ∃ r w',
    search_rentals to_datetime state district houseType w = (Return (IsFound r), w')
    ∧ trends r
      = if decide ("Extract Date" ∈ columns d)
        then trend_of <$> sorted by_month_year
               ((λ k, (k, median (Rent_Price <$>
                                    filter (λ r, day_of to_datetime r = Some k) sel)))
                  <$> sorted str_le (unique (dropna_values (day_of to_datetime <$> sel))))
        else [].
Proof.
  intros Hw Hans Hne sel.
  destruct (search_rentals_found to_datetime w d _ _ _ Hw Hans Hne)
    as (xm & tr & top & dist & md & w' & _ & _ & _ & _ & Htr & _ & Hrun).
  eexists _, w'. split; [exact Hrun|]. cbn [trends].
  destruct Hw as [_ [Hcols Hrows]].
  rewrite trend_value_eq in Htr.
  - apply Return_inj in Htr. cbn [columns] in Htr. subst tr.
    case_decide; [|done]. by rewrite trend_groups.
  - cbn [columns]. apply (proj1 (Forall_forall _ _) Hcols). set_solver.
  - cbn [rows]. apply Forall_filter_rows.
    eapply Forall_impl; [exact Hrows|apply complete_priced].
Qed.



(** X15. The trend series is empty exactly when the frame has no
    'Extract Date' column or no selected row has a date that parses. *)
Theorem trends_empty_iff w d state district houseType :
  loaded w d → answerable d state district houseType →
  filter (mask state district houseType) (rows d) ≠ [] →
  ∃ r w',
    search_rentals to_datetime state district houseType w = (Return (IsFound r), w')
    ∧ (trends r = [] ↔
         "Extract Date" ∉ columns d
         ∨ ∀ row, row ∈ filter (mask state district houseType) (rows d) →
                  Extract_Date row ≫= to_datetime = None).
Proof.
  intros Hw Hans Hne.
  destruct (found_trends w d _ _ _ Hw Hans Hne) as (r & w' & Hrun & Htr).
  exists r, w'. split; [exact Hrun|]. rewrite Htr. clear Htr.
  case_decide as Hcol; [|split; [by left|done]].
  split.
  - intros Hnil%fmap_nil_inv%sorted_nil_inv%fmap_nil_inv%sorted_nil_inv.
    right. intros row Hin.
    destruct (Extract_Date row ≫= to_datetime) as [t|] eqn:Ht; [|done].
    assert (day_label t ∈ unique (dropna_values
              (day_of to_datetime <$> filter (mask state district houseType) (rows d))))
      as Hel; [|by rewrite Hnil in Hel; apply elem_of_nil in Hel].
    apply elem_of_unique, elem_of_dropna_values, list_elem_of_fmap.
    exists row. split; [|done]. unfold day_of. by rewrite Ht.
  - intros [?|Hall]; [done|].
    assert (dropna_values
              (day_of to_datetime <$> filter (mask state district houseType) (rows d)) = [])
      as ->; [|done].
    apply elem_of_nil_inv. intros k (row & Hk & Hin)%elem_of_dropna_values%list_elem_of_fmap.
    unfold day_of in Hk. by rewrite (Hall row Hin) in Hk.
Qed.
End trends.

(** ** More on the features *)

Lemma string_compare_trans (s1 s2 s3 : string) :
  String.compare s1 s2 ≠ Gt → String.compare s2 s3 ≠ Gt → String.compare s1 s3 ≠ Gt.
Proof.
  revert s2 s3. induction s1 as [|a1 s1 IH]; intros [|a2 s2] [|a3 s3];
    cbn [String.compare]; try done.
  unfold Ascii.compare.
  destruct (N.compare_spec (N_of_ascii a1) (N_of_ascii a2)) as [H12|H12|H12];
    destruct (N.compare_spec (N_of_ascii a2) (N_of_ascii a3)) as [H23|H23|H23];
    destruct (N.compare_spec (N_of_ascii a1) (N_of_ascii a3)) as [H13|H13|H13];
    try done; try lia.
  apply IH.
Qed.

Global Instance str_le_trans : Transitive str_le.
Proof.
  intros s1 s2 s3. unfold str_le, String.leb. intros H12 H23.
  pose proof (string_compare_trans s1 s2 s3) as H.
  destruct (String.compare s1 s2), (String.compare s2 s3), (String.compare s1 s3);
    try done; by destruct H.
Qed.

Lemma occurrences_le_max `{EqDecision A} (x : A) (v l : list A) :
  x ∈ l → (occurrences x v ≤ foldr Nat.max 0 ((λ y, occurrences y v) <$> l))%nat.
Proof.
  induction l as [|y l IH]; [by intros ?%elem_of_nil|].
  rewrite fmap_cons. cbn [foldr]. intros [->|Hin%IH]%elem_of_cons; lia.
Qed.

Lemma occurrences_pos `{EqDecision A} (x : A) (v : list A) :
  (0 < occurrences x v)%nat ↔ x ∈ v.
Proof.
  unfold occurrences. split.
  - intros Hpos. destruct (filter (λ y, y = x) v) as [|y f] eqn:Hf; [simpl in Hpos; lia|].
    assert (y ∈ filter (λ y, y = x) v) as [-> Hin]%list_elem_of_filter
      by (rewrite Hf; by left).
    done.
  - intros Hin. destruct (filter (λ y, y = x) v) as [|y f] eqn:Hf; [|simpl; lia].
    by eapply (filter_nil_not_elem_of _ _ x) in Hf.
Qed.

(** [mode()[0]]: the first mode occurs at least as often as any value, and
    comes first among the values that occur as often. *)
Lemma mode_first `{EqDecision A} (R : relation A) `{!∀ x y, Decision (R x y)}
    `{!Total R} `{!Transitive R} (s : list (option A)) m rest :
  mode R s = m :: rest →
  Some m ∈ s
  ∧ ∀ g, (occurrences g (dropna_values s) ≤ occurrences m (dropna_values s))%nat
         ∧ (occurrences g (dropna_values s) = occurrences m (dropna_values s) → R m g).
Proof.
  unfold mode. set (v := dropna_values s).
  set (top := foldr Nat.max 0%nat ((λ x, occurrences x v) <$> v)).
  intros Hmode.
  assert (m ∈ sorted R (filter (λ x, occurrences x v = top) (unique v))) as Hm
    by (rewrite Hmode; by left).
  apply elem_of_sorted, list_elem_of_filter in Hm as [Hocc Hm].
  apply (proj1 (elem_of_unique _ _)) in Hm.
  split; [by apply elem_of_dropna_values|]. intros g.
  assert (occurrences g v ≤ occurrences m v)%nat as Hle.
  { rewrite Hocc. destruct (decide (g ∈ v)) as [Hg|Hg].
    - unfold top. by apply occurrences_le_max.
    - destruct (occurrences g v) eqn:Hz; [lia|].
      destruct Hg. apply occurrences_pos. lia. }
  split; [exact Hle|]. intros Heq.
  assert (g ∈ m :: rest) as Hg.
  { rewrite <-Hmode. apply elem_of_sorted, list_elem_of_filter.
    split; [by rewrite Heq|]. apply elem_of_unique, occurrences_pos.
    rewrite Heq. by apply occurrences_pos. }
  apply elem_of_cons in Hg as [->|Hg].
  - by destruct (total R m m).
  - pose proof (sorted_Sorted R (filter (λ x, occurrences x v = top) (unique v))) as Hs.
    rewrite Hmode in Hs. apply Sorted_StronglySorted in Hs; [|done].
    apply StronglySorted_inv in Hs as [_ Hall].
    by eapply Forall_forall in Hall.
Qed.

Lemma mode_nonempty `{EqDecision A} (R : relation A) `{!∀ x y, Decision (R x y)}
    (s : list (option A)) x :
  Some x ∈ s → mode R s ≠ [].
Proof.
  intros Hx%elem_of_dropna_values. unfold mode.
  set (v := dropna_values s) in *.
  set (top := foldr Nat.max 0%nat ((λ x, occurrences x v) <$> v)).
  assert (∃ y, y ∈ v ∧ occurrences y v = top) as (y & Hy & Hocc).
  { assert (∀ l, l ≠ [] → ∃ y, y ∈ l ∧ occurrences y v
                      = foldr Nat.max 0%nat ((λ x, occurrences x v) <$> l)) as Hmax.
    { clear. induction l as [|z l IH]; [done|]. intros _. rewrite fmap_cons. cbn [foldr].
      destruct l as [|z' l].
      - exists z. split; [by left|]. simpl. lia.
      - destruct IH as (y & Hy & Hocc); [done|].
        destruct (Nat.max_spec (occurrences z v)
                    (foldr Nat.max 0%nat ((λ x, occurrences x v) <$> z' :: l)))
          as [[_ ->]|[_ ->]].
        + exists y. split; [by right|done].
        + exists z. split; [by left|done]. }
    apply Hmax. intros Hnil. rewrite Hnil in Hx. by apply elem_of_nil in Hx. }
  intros Hnil%sorted_nil_inv.
  eapply (filter_nil_not_elem_of _ _ y); [exact Hnil|exact Hocc|by apply elem_of_unique].
Qed.

Lemma occurrences_rows `{EqDecision A} (key : Row → option A) (g : A) (rs : list Row) :
  occurrences g (dropna_values (key <$> rs))
  = length (filter (λ row, key row = Some g) rs).
Proof.
  unfold occurrences, dropna_values.
  induction rs as [|r rs IH]; [done|].
  rewrite fmap_cons, (filter_cons (λ row, key row = Some g)). cbn [omap list_omap].
  destruct (key r) as [x|] eqn:Hx; cbn [id].
  - rewrite filter_cons. destruct (decide (x = g)) as [->|Hne].
    + rewrite decide_True by done. cbn [length]. by rewrite IH.
    + rewrite decide_False by congruence. exact IH.
  - rewrite decide_False by done. exact IH.
Qed.

Section features.
Context (to_datetime : string → option Timestamp).

Lemma found_features w d state district houseType :
  loaded w d → answerable d state district houseType →
  filter (mask state district houseType) (rows d) ≠ [] →
  ∃ r w',
    search_rentals to_datetime state district houseType w = (Return (IsFound r), w')
    ∧ commonFeatures r
      = features_of (mkFrame (columns d) (filter (mask state district houseType) (rows d)))
    ∧ ∃ xm, median (Rent_Price <$> filter (mask state district houseType) (rows d))
             = Some xm
            ∧ medianRent r = int_of xm.
Proof.
  intros Hw Hans Hne.
  destruct (search_rentals_found to_datetime w d _ _ _ Hw Hans Hne)
    as (xm & tr & top & dist & md & w' & Hxm & _ & _ & _ & _ & _ & Hrun).
  eexists _, w'. split; [exact Hrun|]. split; [done|]. by exists xm.
Qed.

(** X16. When the frame has a 'Furnishing Type' column and a selected row
    has a furnishing, the first feature is the furnishing that most
    selected rows have; among several such it is the first in the order
    of strings. *)
Theorem furnishing_is_the_most_frequent w d state district houseType :
  loaded w d → answerable d state district houseType →
  "Furnishing Type" ∈ columns d →
  (∃ row, row ∈ filter (mask state district houseType) (rows d)
          ∧ is_Some (Furnishing_Type row)) →
  let furnished g :=
    length (filter (λ row, Furnishing_Type row = Some g)
              (filter (mask state district houseType) (rows d))) in
  ∃ r w' f,
    search_rentals to_datetime state district houseType w = (Return (IsFound r), w')
    ∧ head (commonFeatures r) = Some f
    ∧ (0 < furnished f)%nat
    ∧ ∀ g, (furnished g ≤ furnished f)%nat ∧ (furnished g = furnished f → str_le f g).
Proof.
  intros Hw Hans Hcol (row & Hin & [x Hx]) furnished.
  destruct (found_features w d state district houseType Hw Hans)
    as (r & w' & Hrun & Hfeat & _).
  { intros Hnil. rewrite Hnil in Hin. by apply elem_of_nil in Hin. }
  set (sel := filter (mask state district houseType) (rows d)) in *.
  destruct (mode str_le (Furnishing_Type <$> sel)) as [|f rest] eqn:Hmode.
  { destruct (mode_nonempty str_le (Furnishing_Type <$> sel) x); [|done].
    apply list_elem_of_fmap. by exists row. }
  exists r, w', f. split; [exact Hrun|].
  split.
  { rewrite Hfeat. unfold features_of. cbn [columns rows]. fold sel.
    rewrite decide_True by done. by rewrite Hmode. }
  destruct (mode_first str_le _ _ _ Hmode) as [Hf Hall].
  unfold furnished. split.
  - rewrite <-(occurrences_rows Furnishing_Type).
    apply occurrences_pos. by apply elem_of_dropna_values.
  - intros g. rewrite <-!(occurrences_rows Furnishing_Type). apply Hall.
Qed.

(** X17. When the frame has a 'No of Bedroom' column and a selected row
    has a number of bedrooms, the features name, truncated and followed by
    " Beds", the number that most selected rows have; among several such
    it is the least. *)
Theorem bedrooms_are_the_most_frequent w d state district houseType :
  loaded w d → answerable d state district houseType →
  "No of Bedroom" ∈ columns d →
  (∃ row, row ∈ filter (mask state district houseType) (rows d)
          ∧ is_Some (No_of_Bedroom row)) →
  let with_beds g :=
    length (filter (λ row, No_of_Bedroom row = Some g)
              (filter (mask state district houseType) (rows d))) in
  ∃ r w' m,
    search_rentals to_datetime state district houseType w = (Return (IsFound r), w')
    ∧ str_of_int (int_of m) +:+ " Beds" ∈ commonFeatures r
    ∧ (0 < with_beds m)%nat
    ∧ ∀ g, (with_beds g ≤ with_beds m)%nat ∧ (with_beds g = with_beds m → (m ≤ g)%Qc).
Proof.
  intros Hw Hans Hcol (row & Hin & [x Hx]) with_beds.
  destruct (found_features w d state district houseType Hw Hans)
    as (r & w' & Hrun & Hfeat & _).
  { intros Hnil. rewrite Hnil in Hin. by apply elem_of_nil in Hin. }
  set (sel := filter (mask state district houseType) (rows d)) in *.
  destruct (mode Qcle (No_of_Bedroom <$> sel)) as [|m rest] eqn:Hmode.
  { destruct (mode_nonempty Qcle (No_of_Bedroom <$> sel) x); [|done].
    apply list_elem_of_fmap. by exists row. }
  exists r, w', m. split; [exact Hrun|].
  split.
  { rewrite Hfeat. unfold features_of. cbn [columns rows]. fold sel.
    rewrite (decide_True (P := "No of Bedroom" ∈ columns d)) by done. rewrite Hmode.
    rewrite !elem_of_app. right. right. left. by left. }
  destruct (mode_first Qcle _ _ _ Hmode) as [Hf Hall].
  unfold with_beds. split.
  - rewrite <-(occurrences_rows No_of_Bedroom).
    apply occurrences_pos. by apply elem_of_dropna_values.
  - intros g. rewrite <-!(occurrences_rows No_of_Bedroom). apply Hall.
Qed.

Lemma Qc_half_between (lo hi a b : Qc) :
  (lo ≤ a)%Qc → (lo ≤ b)%Qc → (a ≤ hi)%Qc → (b ≤ hi)%Qc →
  (lo ≤ (a + b) / of_Z 2)%Qc ∧ ((a + b) / of_Z 2 ≤ hi)%Qc.
Proof.
  intros Ha Hb Ha' Hb'.
  assert (0 ≤ / of_Z 2)%Qc as Hpos by by_evaluation.
  assert (∀ x : Qc, x = (x + x) / of_Z 2)%Qc as Hhalf.
  { intros y. replace (of_Z 2) with (1 + 1)%Qc by (by apply Qc_is_canon).
    symmetry. rewrite <-(Qcmult_1_r y) at 1 2. rewrite <-Qcmult_plus_distr_r.
    apply Qcdiv_mult_l. by intros ?%(f_equal this). }
  unfold Qcdiv. split.
  - rewrite (Hhalf lo). unfold Qcdiv. apply Qcmult_le_compat_r; [|done].
    by apply Qcplus_le_compat.
  - rewrite (Hhalf hi). unfold Qcdiv. apply Qcmult_le_compat_r; [|done].
    by apply Qcplus_le_compat.
Qed.

Lemma median_between s xm lo hi :
  median s = Some xm → min_of s = Some lo → max_of s = Some hi →
  (lo ≤ xm)%Qc ∧ (xm ≤ hi)%Qc.
Proof.
  intros Hmed [_ Hlo]%min_of_Some [Hin Hhi]%max_of_Some.
  assert (∀ i y, sorted Qcle (dropna_values s) !! i = Some y → (lo ≤ y)%Qc ∧ (y ≤ hi)%Qc)
    as Hel.
  { intros i y Hy%list_elem_of_lookup_2%elem_of_sorted%elem_of_dropna_values.
    split; [by apply Hlo|by apply Hhi]. }
  destruct (median_spec s (sorted Qcle (dropna_values s))) as [Hodd Heven].
  - apply sorted_Sorted; apply _.
  - apply sorted_Permutation.
  - intros Hnil%sorted_nil_inv. apply elem_of_dropna_values in Hin.
    rewrite Hnil in Hin. by apply elem_of_nil in Hin.
  - destruct (Nat.odd (length (sorted Qcle (dropna_values s)))) eqn:Hpar.
    + rewrite Hodd in Hmed by done. by eapply Hel.
    + destruct Heven as (a & b & Ha & Hb & Hm); [done|].
      rewrite Hm in Hmed. injection Hmed as <-.
      destruct (Hel _ _ Ha), (Hel _ _ Hb). by apply Qc_half_between.
Qed.

(** X18. [medianRent] lies between the least and the greatest selected
    rent, both truncated. *)
Theorem medianRent_between_extremes w d state district houseType :
  loaded w d → answerable d state district houseType →
  filter (mask state district houseType) (rows d) ≠ [] →
  ∃ r w' lo hi,
    search_rentals to_datetime state district houseType w = (Return (IsFound r), w')
    ∧ min_of (Rent_Price <$> filter (mask state district houseType) (rows d)) = Some lo
    ∧ max_of (Rent_Price <$> filter (mask state district houseType) (rows d)) = Some hi
    ∧ int_of lo ≤ medianRent r ≤ int_of hi.
Proof.
  intros Hw Hans Hne.
  destruct (found_features w d state district houseType Hw Hans Hne)
    as (r & w' & Hrun & _ & xm & Hxm & Hmed).
  assert (dropna_values (Rent_Price <$> filter (mask state district houseType) (rows d)) ≠ [])
    as Hv.
  { apply priced_values; [|done]. apply Forall_filter_rows.
    destruct Hw as [_ [_ Hrows]]. eapply Forall_impl; [exact Hrows|apply complete_priced]. }
  destruct (min_of_is_Some _ Hv) as [lo Hlo], (max_of_is_Some _ Hv) as [hi Hhi].
  exists r, w', lo, hi. split; [exact Hrun|]. split; [done|]. split; [done|].
  rewrite Hmed. destruct (median_between _ _ _ _ Hxm Hlo Hhi). split; by apply int_of_mono.
Qed.
End features.

Lemma dated_loaded : loaded dated_world dated_frame.
Proof. apply load_data_loaded. by_evaluation. Qed.

Lemma dated_answerable : answerable dated_frame "KL" "Ampang" "Condo".
Proof.
  split; [by_evaluation|]. split; [by_evaluation|].
  intros x Hx. vm_compute in Hx. injection Hx as <-. by vm_compute.
Qed.

Lemma dated_selection :
  filter (mask "KL" "Ampang" "Condo") (rows dated_frame) ≠ [].
Proof. by vm_compute. Qed.

Lemma bare_loaded : loaded bare_world bare_frame.
Proof. apply load_data_loaded. by_evaluation. Qed.

Lemma bare_selection :
  filter (mask "KL" "Ampang" "Condo") (rows bare_frame) ≠ [].
Proof. by vm_compute. Qed.

(** X2 on the three listings, for a district that none of them has. *)
Lemma search_NotFound_iff_witness :
  loaded example_world example_frame
  ∧ (search_rentals no_dates "Selangor" "Nowhere" "Condo" example_world).1
    = Return NotFound.
Proof.
  split; [exact example_loaded|].
  apply (search_NotFound_iff no_dates example_world example_frame
           "Selangor" "Nowhere" "Condo" example_loaded).
  intros (r & Hin & HS & _). revert r Hin HS.
  apply (Forall_forall (λ r, State r = Some "Selangor" → False)). by_evaluation.
Defined.

(** X3 on the three listings: two condominiums in "Ampang, KL". *)
Lemma found_summary_witness :
  loaded example_world example_frame
  ∧ answerable example_frame "KL" "Ampang" "Condo"
  ∧ filter (mask "KL" "Ampang" "Condo") (rows example_frame) ≠ []
  ∧ ∃ r w',
      search_rentals no_dates "KL" "Ampang" "Condo" example_world
        = (Return (IsFound r), w')
      ∧ count r = 2%nat
      ∧ suitableIncome r = 3 * medianRent r
      ∧ location r = "Ampang, KL".
Proof.
  split; [exact example_loaded|].
  split; [exact (example_answerable "Condo" (or_introl eq_refl))|].
  split; [exact example_selection|].
  destruct (found_summary no_dates example_world example_frame
              "KL" "Ampang" "Condo" example_loaded
              (example_answerable "Condo" (or_introl eq_refl)) example_selection)
    as (r & w' & Hrun & Hcount & Hincome & Hloc).
  exists r, w'. split; [exact Hrun|].
  split; [rewrite Hcount; vm_compute; reflexivity|].
  split; [exact Hincome|]. rewrite Hloc. vm_compute. reflexivity.
Defined.

(** X4 on the four dated listings, none of which has coordinates. *)
Lemma map_without_coordinates_witness :
  loaded dated_world dated_frame
  ∧ answerable dated_frame "KL" "Ampang" "Condo"
  ∧ filter (mask "KL" "Ampang" "Condo") (rows dated_frame) ≠ []
  ∧ with_coordinates (filter (mask "KL" "Ampang" "Condo") (rows dated_frame)) = []
  ∧ ∃ r w',
      search_rentals example_dates "KL" "Ampang" "Condo" dated_world
        = (Return (IsFound r), w')
      ∧ points r = [] ∧ coordinates r = default_center
      ∧ mapMin r = 0 ∧ mapMax r = 0.
Proof.
  assert (with_coordinates (filter (mask "KL" "Ampang" "Condo") (rows dated_frame)) = [])
    as Hnone by (vm_compute; reflexivity).
  split; [exact dated_loaded|]. split; [exact dated_answerable|].
  split; [exact dated_selection|]. split; [exact Hnone|].
  exact (map_without_coordinates example_dates dated_world dated_frame
           "KL" "Ampang" "Condo" dated_loaded dated_answerable dated_selection Hnone).
Defined.

(** X5 on the three listings: the centre is that of the one
    condominium with coordinates. *)
Lemma map_centre_is_mean_witness :
  loaded example_world example_frame
  ∧ answerable example_frame "KL" "Ampang" "Condo"
  ∧ filter (mask "KL" "Ampang" "Condo") (rows example_frame) ≠ []
  ∧ with_coordinates (filter (mask "KL" "Ampang" "Condo") (rows example_frame)) ≠ []
  ∧ ∃ r w',
      search_rentals no_dates "KL" "Ampang" "Condo" example_world
        = (Return (IsFound r), w')
      ∧ coordinates r
        = (mean (Latitude <$> with_coordinates
                   (filter (mask "KL" "Ampang" "Condo") (rows example_frame))),
           mean (Longitude <$> with_coordinates
                   (filter (mask "KL" "Ampang" "Condo") (rows example_frame)))).
Proof.
  assert (with_coordinates (filter (mask "KL" "Ampang" "Condo") (rows example_frame)) ≠ [])
    as Hsome by (by vm_compute).
  split; [exact example_loaded|].
  split; [exact (example_answerable "Condo" (or_introl eq_refl))|].
  split; [exact example_selection|]. split; [exact Hsome|].
  exact (map_centre_is_mean no_dates example_world example_frame
           "KL" "Ampang" "Condo" example_loaded
           (example_answerable "Condo" (or_introl eq_refl)) example_selection Hsome).
Defined.

(** X6 on the three listings. *)
Lemma points_are_located_rows_witness :
  loaded example_world example_frame
  ∧ answerable example_frame "KL" "Ampang" "Condo"
  ∧ filter (mask "KL" "Ampang" "Condo") (rows example_frame) ≠ []
  ∧ ∃ r w',
      search_rentals no_dates "KL" "Ampang" "Condo" example_world
        = (Return (IsFound r), w')
      ∧ points r = (point_of <$> with_coordinates
                      (filter (mask "KL" "Ampang" "Condo") (rows example_frame)))
      ∧ ∀ lat lng c, (lat, lng, c) ∈ points r → is_Some lat ∧ is_Some lng ∧ is_Some c.
Proof.
  split; [exact example_loaded|].
  split; [exact (example_answerable "Condo" (or_introl eq_refl))|].
  split; [exact example_selection|].
  destruct (points_are_located_rows no_dates example_world example_frame
              "KL" "Ampang" "Condo" example_loaded
              (example_answerable "Condo" (or_introl eq_refl)) example_selection)
    as (r & w' & Hrun & _ & Hlocated & Hall).
  exists r, w'. split; [exact Hrun|]. split; [|exact Hlocated].
  apply Hall. vm_compute. lia.
Defined.

(** X7 on a file that has the four required columns only. *)
Lemma search_needs_coordinate_columns_witness :
  loaded bare_world bare_frame
  ∧ filter (mask "KL" "Ampang" "Condo") (rows bare_frame) ≠ []
  ∧ ("Latitude" ∉ columns bare_frame)
  ∧ ∃ c, (search_rentals no_dates "KL" "Ampang" "Condo" bare_world).1
         = Raise (KeyError c)
         ∧ (c = "Latitude" ∨ c = "Longitude") ∧ c ∉ columns bare_frame.
Proof.
  assert ("Latitude" ∉ columns bare_frame) as Hlat by by_evaluation.
  split; [exact bare_loaded|]. split; [exact bare_selection|]. split; [exact Hlat|].
  apply (search_needs_coordinate_columns no_dates bare_world bare_frame
           "KL" "Ampang" "Condo" bare_loaded bare_selection).
  - intros x Hx. vm_compute in Hx. injection Hx as <-. by vm_compute.
  - left. exact Hlat.
Defined.


(** X9 on the three listings. *)
Lemma all_types_is_the_catalog_witness :
  Forall (λ c, c ∈ columns example_csv) required
  ∧ ∃ opts d w',
      load_data false example_csv empty_world = (Return (), w')
      ∧ snapshot_frame w' = Some d
      ∧ get_form_options w' = (Return opts, w')
      ∧ (∀ T, T ∈ all_types opts ↔ ∃ r, r ∈ rows d ∧ Standard_Type r = Some T)
      ∧ Sorted str_le (all_types opts) ∧ NoDup (all_types opts).
Proof.
  split; [exact example_columns_required|].
  destruct (all_types_is_the_catalog false example_csv empty_world
              example_columns_required)
    as (opts & d & w' & Hrun & Hd & Hopts & Hiff & Hsorted & Hnd & _).
  exists opts, d, w'. split; [exact Hrun|]. split; [exact Hd|].
  split; [exact Hopts|]. split; [exact Hiff|]. split; [exact Hsorted|exact Hnd].
Defined.

(** X10 on a file without a 'State' column. *)
Lemma load_data_needs_columns_witness :
  ¬ Forall (λ c, c ∈ columns stateless_csv) required
  ∧ ∃ c, (load_data false stateless_csv empty_world).1 = Raise (KeyError c)
         ∧ c ∈ required ∧ c ∉ columns stateless_csv.
Proof.
  assert (¬ Forall (λ c, c ∈ columns stateless_csv) required) as Hno by by_evaluation.
  split; [exact Hno|].
  exact (proj2 (load_data_needs_columns false stateless_csv empty_world) Hno).
Defined.


(** X12 on the four dated listings: the greatest rent is 1900, there are
    five edges, and every bin listed holds a rent. *)
Lemma distribution_bin_by_bin_witness :
  loaded dated_world dated_frame
  ∧ answerable dated_frame "KL" "Ampang" "Condo"
  ∧ filter (mask "KL" "Ampang" "Condo") (rows dated_frame) ≠ []
  ∧ ∃ r w' top,
      search_rentals example_dates "KL" "Ampang" "Condo" dated_world
        = (Return (IsFound r), w')
      ∧ int_of top = 1900
      ∧ bin_range <$> distribution r = ["1000-1500"; "1500-2000"]
      ∧ bin_count <$> distribution r = [1%nat; 3%nat].
Proof.
  split; [exact dated_loaded|]. split; [exact dated_answerable|].
  split; [exact dated_selection|].
  destruct (distribution_bin_by_bin example_dates dated_world dated_frame
              "KL" "Ampang" "Condo" dated_loaded dated_answerable dated_selection)
    as (r & w' & top & Hrun & Htop & Hdist & _).
  exists r, w', top. split; [exact Hrun|].
  vm_compute in Htop. injection Htop as <-.
  split; [vm_compute; reflexivity|]. rewrite Hdist.
  split; vm_compute; reflexivity.
Defined.

(** X13 on the four dated listings. *)
Lemma distribution_counts_every_rent_witness :
  loaded dated_world dated_frame
  ∧ answerable dated_frame "KL" "Ampang" "Condo"
  ∧ filter (mask "KL" "Ampang" "Condo") (rows dated_frame) ≠ []
  ∧ ∃ r w',
      search_rentals example_dates "KL" "Ampang" "Condo" dated_world
        = (Return (IsFound r), w')
      ∧ sum_list_with bin_count (distribution r) = count r.
Proof.
  split; [exact dated_loaded|]. split; [exact dated_answerable|].
  split; [exact dated_selection|].
  apply (distribution_counts_every_rent example_dates dated_world dated_frame
           "KL" "Ampang" "Condo" dated_loaded dated_answerable dated_selection).
  - apply (Forall_forall (λ x, (of_Z 0 ≤ x)%Qc)). by_evaluation.
  - intros top Htop. vm_compute in Htop. injection Htop as <-. by vm_compute.
Defined.


(** X15 on the three listings, which have no 'Extract Date' column. *)
Lemma trends_empty_iff_witness :
  loaded example_world example_frame
  ∧ answerable example_frame "KL" "Ampang" "Condo"
  ∧ filter (mask "KL" "Ampang" "Condo") (rows example_frame) ≠ []
  ∧ ∃ r w',
      search_rentals example_dates "KL" "Ampang" "Condo" example_world
        = (Return (IsFound r), w')
      ∧ trends r = [].
Proof.
  split; [exact example_loaded|].
  split; [exact (example_answerable "Condo" (or_introl eq_refl))|].
  split; [exact example_selection|].
  destruct (trends_empty_iff example_dates example_world example_frame
              "KL" "Ampang" "Condo" example_loaded
              (example_answerable "Condo" (or_introl eq_refl)) example_selection)
    as (r & w' & Hrun & Hiff).
  exists r, w'. split; [exact Hrun|]. apply Hiff. left. by_evaluation.
Defined.

(** X16 on the four dated listings: two are fully and two partly
    furnished. *)
Lemma furnishing_is_the_most_frequent_witness :
  loaded dated_world dated_frame
  ∧ answerable dated_frame "KL" "Ampang" "Condo"
  ∧ "Furnishing Type" ∈ columns dated_frame
  ∧ ∃ r w' f,
      search_rentals example_dates "KL" "Ampang" "Condo" dated_world
        = (Return (IsFound r), w')
      ∧ head (commonFeatures r) = Some f
      ∧ (2 ≤ length (filter (λ row, Furnishing_Type row = Some f)
                       (filter (mask "KL" "Ampang" "Condo") (rows dated_frame))))%nat
      ∧ str_le f "Fully".
Proof.
  assert ("Furnishing Type" ∈ columns dated_frame) as Hcol by by_evaluation.
  split; [exact dated_loaded|]. split; [exact dated_answerable|]. split; [exact Hcol|].
  destruct (furnishing_is_the_most_frequent example_dates dated_world dated_frame
              "KL" "Ampang" "Condo" dated_loaded dated_answerable Hcol)
    as (r & w' & f & Hrun & Hhead & Hpos & Hall).
  { apply (Exists_exists (λ row, is_Some (Furnishing_Type row))). by_evaluation. }
  exists r, w', f. split; [exact Hrun|]. split; [exact Hhead|].
  assert (f = "Fully" ∨ f = "Partly") as Hf.
  { destruct (filter (λ row, Furnishing_Type row = Some f)
                (filter (mask "KL" "Ampang" "Condo") (rows dated_frame)))
      as [|row rs] eqn:Hrows; [simpl in Hpos; lia|].
    assert (row ∈ filter (λ row, Furnishing_Type row = Some f)
                    (filter (mask "KL" "Ampang" "Condo") (rows dated_frame)))
      as [Hrow Hin]%list_elem_of_filter by (rewrite Hrows; by left).
    clear -Hin Hrow. revert row Hin Hrow.
    apply (Forall_forall (λ row, Furnishing_Type row = Some f
                                 → f = "Fully" ∨ f = "Partly")).
    vm_compute.
    repeat (apply Forall_cons; split; [intros [= <-]; first [by left|by right]|]).
    by apply Forall_nil. }
  destruct (Hall "Fully") as [Hmost Hfirst].
  assert (length (filter (λ row, Furnishing_Type row = Some "Fully")
            (filter (mask "KL" "Ampang" "Condo") (rows dated_frame))) = 2%nat)
    as Hfully by (vm_compute; reflexivity).
  split; [rewrite <-Hfully; exact Hmost|].
  apply Hfirst. rewrite Hfully. destruct Hf as [-> | ->]; vm_compute; reflexivity.
Defined.

(** X17 on the four dated listings: two have three bedrooms. *)
Lemma bedrooms_are_the_most_frequent_witness :
  loaded dated_world dated_frame
  ∧ answerable dated_frame "KL" "Ampang" "Condo"
  ∧ "No of Bedroom" ∈ columns dated_frame
  ∧ ∃ r w' m,
      search_rentals example_dates "KL" "Ampang" "Condo" dated_world
        = (Return (IsFound r), w')
      ∧ str_of_int (int_of m) +:+ " Beds" ∈ commonFeatures r
      ∧ (2 ≤ length (filter (λ row, No_of_Bedroom row = Some m)
                       (filter (mask "KL" "Ampang" "Condo") (rows dated_frame))))%nat.
Proof.
  assert ("No of Bedroom" ∈ columns dated_frame) as Hcol by by_evaluation.
  split; [exact dated_loaded|]. split; [exact dated_answerable|]. split; [exact Hcol|].
  destruct (bedrooms_are_the_most_frequent example_dates dated_world dated_frame
              "KL" "Ampang" "Condo" dated_loaded dated_answerable Hcol)
    as (r & w' & m & Hrun & Hfeat & _ & Hall).
  { apply (Exists_exists (λ row, is_Some (No_of_Bedroom row))). by_evaluation. }
  exists r, w', m. split; [exact Hrun|]. split; [exact Hfeat|].
  destruct (Hall (of_Z 3)) as [Hmost _].
  etrans; [|exact Hmost]. vm_compute. lia.
Defined.

(** X18 on the three listings: the condominium rents are 1500 and 1700. *)
Lemma medianRent_between_extremes_witness :
  loaded example_world example_frame
  ∧ answerable example_frame "KL" "Ampang" "Condo"
  ∧ filter (mask "KL" "Ampang" "Condo") (rows example_frame) ≠ []
  ∧ ∃ r w',
      search_rentals no_dates "KL" "Ampang" "Condo" example_world
        = (Return (IsFound r), w')
      ∧ 1500 ≤ medianRent r ≤ 1700.
Proof.
  split; [exact example_loaded|].
  split; [exact (example_answerable "Condo" (or_introl eq_refl))|].
  split; [exact example_selection|].
  destruct (medianRent_between_extremes no_dates example_world example_frame
              "KL" "Ampang" "Condo" example_loaded
              (example_answerable "Condo" (or_introl eq_refl)) example_selection)
    as (r & w' & lo & hi & Hrun & Hlo & Hhi & Hbetween).
  exists r, w'. split; [exact Hrun|].
  vm_compute in Hlo. injection Hlo as <-. vm_compute in Hhi. injection Hhi as <-.
  exact Hbetween.
Defined.

